(** * medinify: sentiment classification of drug reviews

    A shallow embedding of the evaluation core of
    [medinify/sentiment/review_classifier.py] and of the cross-validation
    driver of [medinify/sentiment/cnn_review_classifier.py]:

    - [metrics]: confusion matrix to accuracy and per-class
      precision / recall / F1, for 2, 3 or 5 classes;
    - [ReviewClassifier.__init__] and [preprocess]: thresholds and
      the rating labeler;
    - [evaluate_accuracy], [evaluate_average_accuracy] and the CNN's
      [evaluate_k_fold]: the k-fold drivers;
    - [generate_model], [fit] and [classify]: the model of a classifier
      type, and the labelling and writing of a file of reviews;
    - the CNN's [batch_metrics] and [evaluate]: the counts of a batch and
      the percentages over a validation loader.

    Python values are modelled as the code has them: labels and counts are
    integers ([Z]), the metric values are numpy [float64] scalars, a raised
    exception is the [Raise] result. *)

From Stdlib Require Import ZArith QArith Qreduction Bool String List Lia Permutation Sorted.
From Stdlib Require Import Floats.PrimFloat Numbers.Cyclic.Int63.Uint63.
Import ListNotations.

Set Implicit Arguments.

(* ================================================================== *)
(** * Python results: a value or a raised exception *)

Module Py.

Inductive exn : Type :=
| IndexError      (* numpy: index out of bounds for axis *)
| ValueError      (* sklearn: inconsistent input, wrong fold count *)
| NameError.      (* UnboundLocalError: local read before assignment *)

Inductive result (A : Type) : Type :=
| OK (a : A)
| Raise (e : exn).

Arguments OK {A} a.
Arguments Raise {A} e.

Definition bind {A B} (r : result A) (k : A -> result B) : result B :=
  match r with
  | OK a => k a
  | Raise e => Raise e
  end.

Definition raises {A} (r : result A) : bool :=
  match r with OK _ => false | Raise _ => true end.

(** A [for] loop whose body may raise: the first exception ends the loop. *)
Fixpoint for_each {A S} (body : S -> A -> result S) (xs : list A) (s : S)
  : result S :=
  match xs with
  | [] => OK s
  | x :: xs' => bind (body s x) (for_each body xs')
  end.

End Py.
Import Py.

Declare Scope py_scope.
Delimit Scope py_scope with py.
Notation "x <- e ;; k" := (bind e (fun x => k))
  (at level 61, e at next level, right associativity) : py_scope.
Notation "' pat <- e ;; k" := (bind e (fun x => match x with pat => k end))
  (at level 61, pat pattern, e at next level, right associativity) : py_scope.
Open Scope py_scope.
Open Scope Z_scope.

(* ================================================================== *)
(** * numpy float64 scalars *)

Module Numpy.

(** The operations the program uses on [numpy.float64] scalars.  numpy
    does not raise on a zero divisor: with the default error state the
    quotient is [nan] or [inf] (and a [RuntimeWarning] is printed). *)
Class Float64 (F : Type) : Type := {
  of_int : Z -> F;            (* promotion of an int / numpy.int64 *)
  fadd : F -> F -> F;
  fmul : F -> F -> F;
  fdiv : F -> F -> F;
  feqb : F -> F -> bool;      (* == *)
  fltb : F -> F -> bool;      (* <  *)
  fleb : F -> F -> bool;      (* <= *)
  isnan : F -> bool
}.

(** ** Exact model

    A float64 is a rational or one of the IEEE special values.  Finite
    results are exact (no rounding) and kept in lowest terms, so equal
    values are equal terms.  There is no negative zero: every zero of
    the program comes from a count. *)
Inductive npfloat : Type :=
| Fin (q : Q)
| PInf
| NInf
| NaN.

Definition fin (q : Q) : npfloat := Fin (Qred q).

Definition Qsgn (q : Q) : Z := Z.sgn (Qnum q).

Definition inf_of_sign (s : Z) : npfloat :=
  match s with
  | Z0 => NaN
  | Zpos _ => PInf
  | Zneg _ => NInf
  end.

Definition sign_of (x : npfloat) : Z :=
  match x with
  | Fin q => Qsgn q
  | PInf => 1
  | NInf => -1
  | NaN => 0
  end.

Definition np_add (x y : npfloat) : npfloat :=
  match x, y with
  | NaN, _ | _, NaN => NaN
  | Fin a, Fin b => fin (a + b)
  | PInf, NInf | NInf, PInf => NaN
  | PInf, _ | _, PInf => PInf
  | NInf, _ | _, NInf => NInf
  end.

Definition np_mul (x y : npfloat) : npfloat :=
  match x, y with
  | NaN, _ | _, NaN => NaN
  | Fin a, Fin b => fin (a * b)
  | _, _ => inf_of_sign (sign_of x * sign_of y)
  end.

Definition np_div (x y : npfloat) : npfloat :=
  match x, y with
  | NaN, _ | _, NaN => NaN
  | Fin a, Fin b =>
      if Qeq_bool b 0 then inf_of_sign (Qsgn a)      (* 0/0 = nan, a/0 = +-inf *)
      else fin (a / b)
  | Fin _, _ => Fin 0
  | _, Fin b => inf_of_sign (sign_of x * (if Qeq_bool b 0 then 1 else Qsgn b))
  | _, _ => NaN
  end.

Definition np_eqb (x y : npfloat) : bool :=
  match x, y with
  | Fin a, Fin b => Qeq_bool a b
  | PInf, PInf | NInf, NInf => true
  | _, _ => false
  end.

Definition np_ltb (x y : npfloat) : bool :=
  match x, y with
  | NaN, _ | _, NaN => false
  | Fin a, Fin b => negb (Qle_bool b a)
  | NInf, NInf | PInf, _ | _, NInf => false
  | _, _ => true
  end.

Definition np_leb (x y : npfloat) : bool :=
  match x, y with
  | NaN, _ | _, NaN => false
  | Fin a, Fin b => Qle_bool a b
  | NInf, _ | _, PInf => true
  | _, _ => false
  end.

(** A ratio of counts is nan, infinite, or a finite value that is not
    negative. *)
Definition count_ratio (x : npfloat) : Prop :=
  x = NaN \/ x = PInf \/ exists q, x = Fin q /\ (0 <= q)%Q.

Definition np_isnan (x : npfloat) : bool :=
  match x with NaN => true | _ => false end.

#[export] Instance npfloat_Float64 : Float64 npfloat := {
  of_int z := Fin (inject_Z z);
  fadd := np_add;
  fmul := np_mul;
  fdiv := np_div;
  feqb := np_eqb;
  fltb := np_ltb;
  fleb := np_leb;
  isnan := np_isnan
}.

(** ** IEEE binary64

    The kernel's primitive floats, for running the program on concrete
    inputs with the rounding of the real machine.  [of_int] is exact for
    the counts it is used on (0 <= z < 2^53). *)
#[export] Instance binary64_Float64 : Float64 float | 10 := {
  of_int z := PrimFloat.of_uint63 (Uint63.of_Z z);
  fadd := PrimFloat.add;
  fmul := PrimFloat.mul;
  fdiv := PrimFloat.div;
  feqb := PrimFloat.eqb;
  fltb := PrimFloat.ltb;
  fleb := PrimFloat.leb;
  isnan := PrimFloat.is_nan
}.

(** [numpy.mean(numpy.array(xs))]: the sum over the length; the empty
    array gives [0.0 / 0 = nan]. *)
Definition mean {F} `{Float64 F} (xs : list F) : F :=
  fdiv (fold_left fadd xs (of_int 0)) (of_int (Z.of_nat (length xs))).

(** [matrix[i][j]] and [matrix[i, j]] on a two-dimensional array. *)
Definition item (matrix : list (list Z)) (i j : nat) : result Z :=
  match nth_error matrix i with
  | Some row =>
      match nth_error row j with
      | Some x => OK x
      | None => Raise IndexError
      end
  | None => Raise IndexError
  end.

End Numpy.
Import Numpy.

Declare Scope np_scope.
Delimit Scope np_scope with np.
Notation "x + y" := (fadd x y) : np_scope.
Notation "x * y" := (fmul x y) : np_scope.
Notation "x / y" := (fdiv x y) : np_scope.
Notation "x == y" := (feqb x y) (at level 70, no associativity) : np_scope.
Notation "x < y" := (fltb x y) : np_scope.
Notation "x <= y" := (fleb x y) : np_scope.
Notation "$ z" := (of_int z%Z) (at level 5, format "$ z") : np_scope.

(* ================================================================== *)
(** * scikit-learn: [confusion_matrix] *)

Module Sklearn.

(** Insertion into an ascending list without repetition. *)
Fixpoint insert_label (x : Z) (ls : list Z) : list Z :=
  match ls with
  | [] => [x]
  | y :: ls' =>
      if x <? y then x :: ls
      else if x =? y then ls
      else y :: insert_label x ls'
  end.

(** [unique_labels(y_true, y_pred)]: the distinct labels of both
    sequences in ascending order. *)
Definition unique_labels (y_true y_pred : list Z) : list Z :=
  fold_right insert_label [] (y_true ++ y_pred).

(** Number of samples with true label [i] and predicted label [j]. *)
Definition cell (y_true y_pred : list Z) (i j : Z) : Z :=
  Z.of_nat (length (filter (fun s => (fst s =? i) && (snd s =? j))
                           (combine y_true y_pred))).

(** [confusion_matrix(y_true, y_pred)] with [labels=None]: rows are the
    actual labels, columns the predicted ones, both indexed by
    [unique_labels]; sequences of different lengths are refused. *)
Definition confusion_matrix (y_true y_pred : list Z) : result (list (list Z)) :=
  if (length y_true =? length y_pred)%nat then
    let labels := unique_labels y_true y_pred in
    OK (map (fun i => map (fun j => cell y_true y_pred i j) labels) labels)
  else Raise ValueError.

End Sklearn.
Import Sklearn.


(* ================================================================== *)
(** * medinify.sentiment.review_classifier *)

Module ReviewClassifier.

Section Metrics.
Context {F : Type} `{Float64 F}.
Local Open Scope np_scope.

(** [metrics(actual_ratings, predicted_ratings, num=2)].  The returned
    tuple is a list, positions as in the source; a [num] other than 2, 3
    and 5 falls through every [if] and returns [None]. *)
Definition metrics (actual_ratings predicted_ratings : list Z) (num : Z)
  : result (option (list F)) :=
  if (num =? 2)%Z then
    matrix <- confusion_matrix actual_ratings predicted_ratings ;;
    tn <- item matrix 0 0 ;; fp <- item matrix 0 1 ;;
    fn <- item matrix 1 0 ;; tp <- item matrix 1 1 ;;
    let accuracy := $(tp + tn) * $1 / $(tp + tn + fp + fn) in
    let precision1 := ($tp * $1) / $(tp + fp) in
    let precision2 := ($tn * $1) / $(tn + fn) in
    let recall1 := ($tp * $1) / $(tp + fn) in
    let recall2 := ($tn * $1) / $(tn + fp) in
    let f1_1 := $2 * ((precision1 * recall1) / (precision1 + recall1)) in
    let f1_2 := $2 * ((precision2 * recall2) / (precision2 + recall2)) in
    OK (Some [accuracy; precision1; recall1; f1_1; precision2; recall2; f1_2])
  else if (num =? 3)%Z then
    matrix <- confusion_matrix actual_ratings predicted_ratings ;;
    tpPos <- item matrix 0 0 ;; tpNeg <- item matrix 1 1 ;;
    tpNeu <- item matrix 2 2 ;;
    fBA <- item matrix 1 0 ;; fBC <- item matrix 1 2 ;;
    fAB <- item matrix 0 1 ;; fCB <- item matrix 2 1 ;;
    fCA <- item matrix 2 0 ;; fAC <- item matrix 0 2 ;;
    let accuracy :=
      ($(tpPos + tpNeg + tpNeu) * $1)
      / $(tpPos + tpNeg + tpNeu + fBA + fBC + fAB + fCB + fCA + fAC) in
    let precision1 := ($tpPos * $1) / $(tpPos + fBA + fCA) in
    let precision2 := ($tpNeg * $1) / $(tpNeg + fAB + fCB) in
    let precision3 := ($tpNeu * $1) / $(tpNeu + fBC + fAC) in
    let recall1 := ($tpPos * $1) / $(tpPos + fAB + fAC) in
    let recall2 := ($tpNeg * $1) / $(tpNeg + fBA + fBC) in
    let recall3 := ($tpNeu * $1) / $(tpNeu + fCA + fCB) in
    let f1_1 := $2 * ((precision1 * recall1) / (precision1 + recall1)) in
    let f1_2 := $2 * ((precision2 * recall2) / (precision2 + recall2)) in
    let f1_3 := $2 * ((precision3 * recall3) / (precision3 + recall3)) in
    OK (Some [accuracy; precision1; recall1; f1_1; precision2; recall2; f1_2;
              precision3; recall3; f1_3])
  else if (num =? 5)%Z then
    matrix <- confusion_matrix actual_ratings predicted_ratings ;;
    tpOneStar <- item matrix 0 0 ;; tpTwoStar <- item matrix 1 1 ;;
    tpThreeStar <- item matrix 2 2 ;; tpFourStar <- item matrix 3 3 ;;
    tpFiveStar <- item matrix 4 4 ;;
    fAB <- item matrix 0 1 ;; fAC <- item matrix 0 2 ;;
    fAD <- item matrix 0 3 ;; fAE <- item matrix 0 4 ;;
    fBA <- item matrix 1 0 ;; fBC <- item matrix 1 2 ;;
    fBD <- item matrix 1 3 ;; fBE <- item matrix 1 4 ;;
    fCA <- item matrix 2 0 ;; fCB <- item matrix 2 1 ;;
    fCD <- item matrix 2 3 ;; fCE <- item matrix 2 4 ;;
    fDA <- item matrix 3 0 ;; fDB <- item matrix 3 1 ;;
    fDC <- item matrix 3 2 ;; fDE <- item matrix 3 4 ;;
    fEA <- item matrix 4 0 ;; fEB <- item matrix 4 1 ;;
    fEC <- item matrix 4 2 ;; fED <- item matrix 4 3 ;;
    let accuracy :=
      ($(tpOneStar + tpTwoStar + tpThreeStar + tpFourStar + tpFiveStar) * $1)
      / $(tpOneStar + tpTwoStar + tpThreeStar + tpFourStar + tpFiveStar
          + fAB + fAC + fAD + fAE + fBA + fBC + fBD + fBE + fCA + fCB
          + fCD + fCE + fDA + fDB + fDC + fDE + fEA + fEB + fEC + fED) in
    let precision1 := ($tpOneStar * $1) / $(tpOneStar + fBA + fCA + fDA + fEA) in
    let precision2 := ($tpTwoStar * $1) / $(tpTwoStar + fAB + fCB + fDB + fEB) in
    let precision3 := ($tpThreeStar * $1) / $(tpThreeStar + fAC + fBC + fDC + fEC) in
    let precision4 := ($tpFourStar * $1) / $(tpFourStar + fAD + fBD + fCD + fED) in
    let precision5 := ($tpFiveStar * $1) / $(tpFiveStar + fAE + fBE + fCE + fDE) in
    let recall1 := ($tpOneStar * $1) / $(tpOneStar + fAB + fAC + fAD + fAE) in
    let recall2 := ($tpTwoStar * $1) / $(tpTwoStar + fBA + fBC + fBD + fBE) in
    let recall3 := ($tpThreeStar * $1) / $(tpThreeStar + fCA + fCB + fCD + fCE) in
    let recall4 := ($tpFourStar * $1) / $(tpFourStar + fDA + fDB + fDC + fDE) in
    let recall5 := ($tpFiveStar * $1) / $(tpFiveStar + fEA + fEB + fEC + fED) in
    let f1_1 := $2 * ((precision1 * recall1) / (precision1 + recall1)) in
    let f1_2 :=
      if (precision2 + recall2) == $0 then $0
      else $2 * ((precision2 * recall2) / (precision2 + recall2)) in
    let f1_3 := $2 * ((precision3 * recall3) / (precision3 + recall3)) in
    let f1_4 := $2 * ((precision4 * recall4) / (precision4 + recall4)) in
    let f1_5 := $2 * ((precision5 * recall5) / (precision5 + recall5)) in
    OK (Some [accuracy; precision1; recall1; f1_1; precision2; recall2; f1_2;
              precision3; recall3; f1_3; precision4; recall4; f1_4;
              precision5; recall5; f1_5])
  else OK None.

End Metrics.

(** ** The classifier object *)

Inductive vectorizer_kind : Type := CountVectorizer | TfidfVectorizer.

Record classifier (F : Type) : Type := {
  classifier_type : option string;
  negative_threshold : F;
  positive_threshold : F;
  vectorizer : vectorizer_kind
}.

(** A cell of the [comment] column of a file of reviews, a column of
    text: a str, or a float (pandas reads an empty cell as the float
    [nan]).  A column that pandas reads whole as numbers or booleans is
    not of this type: on such a cell [tokenizer.tokenize] raises
    [TypeError]. *)
Inductive comment_cell : Type :=
| Text (s : string)
| FloatCell.

(** One row of [df.values.tolist()]: [review[0]] and [review[1]]. *)
Record review (F : Type) : Type := {
  comment : comment_cell;
  rating : F
}.

Section Classifier.
Context {F : Type} `{Float64 F}.
Local Open Scope np_scope.

(** Python truth value of an optional number: [None] and zero are false. *)
Definition truthy (x : option F) : bool :=
  match x with
  | None => false
  | Some v => negb (v == $0)
  end.

(** [ReviewClassifier.__init__]; the class attributes give the defaults
    [negative_threshold = 2.0] and [positive_threshold = 4.0]. *)
Definition __init__ (classifier_type : option string)
    (negative_threshold positive_threshold : option F) (use_tfidf : bool)
  : classifier F :=
  {| classifier_type := classifier_type;
     vectorizer := if negb use_tfidf then CountVectorizer else TfidfVectorizer;
     negative_threshold :=
       match negative_threshold with
       | Some v => if truthy negative_threshold then v else $2
       | None => $2
       end;
     positive_threshold :=
       match positive_threshold with
       | Some v => if truthy positive_threshold then v else $4
       | None => $4
       end |}.

(** *** [preprocess] *)

(** The locals of [preprocess] that its loops update. *)
Record pre_state : Type := {
  reviews : list string;
  target : list Z;
  num_pos : Z;
  num_neg : Z;
  num_neut : Z
}.

Definition pre_init : pre_state :=
  {| reviews := []; target := []; num_pos := 0; num_neg := 0; num_neut := 0 |}.

Section Preprocess.
(** The text pipeline is a collaborator: [clean remove_stop_words text] is
    the joined lower-cased tokens, [vectorize] is [vectorizer.fit] followed
    by the transform of every comment (it raises on an empty vocabulary). *)
Variable Row : Type.
Variable clean : bool -> string -> string.
Variable vectorize : vectorizer_kind -> list string -> result (list Row).

Variable self : classifier F.
Variable remove_stop_words : bool.

(** [target.append(rating)] and [reviews.append(...)], after the counter
    of the branch taken. *)
Definition keep (st : pre_state) (text : string) (rating : Z)
    (pos neg neut : Z) : pre_state :=
  {| reviews := reviews st ++ [clean remove_stop_words text];
     target := target st ++ [rating];
     num_pos := (num_pos st + pos)%Z;
     num_neg := (num_neg st + neg)%Z;
     num_neut := (num_neut st + neut)%Z |}.

Definition count_neutral (st : pre_state) : pre_state :=
  {| reviews := reviews st;
     target := target st;
     num_pos := num_pos st;
     num_neg := num_neg st;
     num_neut := (num_neut st + 1)%Z |}.

(** Body of the loop of [num == 3]. *)
Definition step3 (st : pre_state) (r : review F) : pre_state :=
  match comment r with
  | FloatCell => st
  | Text text =>
      if (negative_threshold self < rating r) && (rating r < positive_threshold self)
      then keep st text 1 0 0 1
      else if rating r <= negative_threshold self
      then keep st text 0 0 1 0
      else keep st text 2 1 0 0
  end.

(** Body of the loop of [num == 2]. *)
Definition step2 (st : pre_state) (r : review F) : pre_state :=
  match comment r with
  | FloatCell => st
  | Text text =>
      if (negative_threshold self < rating r) && (rating r < positive_threshold self)
      then count_neutral st
      else if rating r <= negative_threshold self
      then keep st text 0 0 1 0
      else keep st text 1 1 0 0
  end.

(** Body of the loop of [num == 5]. *)
Definition step5 (st : pre_state) (r : review F) : pre_state :=
  match comment r with
  | FloatCell => st
  | Text text =>
      if rating r == $1 then keep st text 1 0 1 0
      else if rating r == $2 then keep st text 2 0 1 0
      else if rating r == $3 then keep st text 3 0 0 1
      else if rating r == $4 then keep st text 4 1 0 0
      else keep st text 5 1 0 0
  end.

(** The loops of [preprocess]: the state after the rows of the file. *)
Definition label_reviews (rows : list (review F)) (num : Z) : pre_state :=
  if (num =? 3)%Z then fold_left step3 rows pre_init
  else if (num =? 2)%Z then fold_left step2 rows pre_init
  else if (num =? 5)%Z then fold_left step5 rows pre_init
  else pre_init.

(** [preprocess(reviews_filename, num, remove_stop_words)], on the rows
    of the file; [info] is the returned dict. *)
Definition preprocess (rows : list (review F)) (num : Z)
  : result (list Row * list Z * list (string * Z)) :=
  let st := label_reviews rows num in
  data <- vectorize (vectorizer self) (reviews st) ;;
  let info := [("positive"%string, num_pos st);
               ("negative"%string, num_neg st);
               ("neutral"%string, num_neut st)] in
  OK (data, target st, info).

End Preprocess.

(** *** Evaluation and k-fold cross-validation *)

(** A value of the report of [evaluate_average_accuracy]: a per-fold list
    or an average. *)
Inductive value : Type :=
| Seq (xs : list F)
| Num (x : F).

(** Lookup in a Python dict written as its list of items. *)
Fixpoint get {V : Type} (d : list (string * V)) (key : string) : option V :=
  match d with
  | [] => None
  | (k, v) :: d' => if String.eqb k key then Some v else get d' key
  end.

(** The per-fold lists of [evaluate_average_accuracy]. *)
Record fold_lists : Type := {
  accuracies : list F;
  class_1_precisions : list F; class_1_recalls : list F; class_1_f1s : list F;
  class_2_precisions : list F; class_2_recalls : list F; class_2_f1s : list F;
  class_3_precisions : list F; class_3_recalls : list F; class_3_f1s : list F;
  class_4_precisions : list F; class_4_recalls : list F; class_4_f1s : list F;
  class_5_precisions : list F; class_5_recalls : list F; class_5_f1s : list F
}.

Definition no_folds : fold_lists :=
  {| accuracies := [];
     class_1_precisions := []; class_1_recalls := []; class_1_f1s := [];
     class_2_precisions := []; class_2_recalls := []; class_2_f1s := [];
     class_3_precisions := []; class_3_recalls := []; class_3_f1s := [];
     class_4_precisions := []; class_4_recalls := []; class_4_f1s := [];
     class_5_precisions := []; class_5_recalls := []; class_5_f1s := [] |}.

(** The appends done for every [num]. *)
Definition append_12 (l : fold_lists)
    (accuracy precision1 recall1 f1_1 precision2 recall2 f1_2 : F) : fold_lists :=
  {| accuracies := accuracies l ++ [accuracy];
     class_1_precisions := class_1_precisions l ++ [precision1];
     class_2_precisions := class_2_precisions l ++ [precision2];
     class_1_recalls := class_1_recalls l ++ [recall1];
     class_2_recalls := class_2_recalls l ++ [recall2];
     class_1_f1s := class_1_f1s l ++ [f1_1];
     class_2_f1s := class_2_f1s l ++ [f1_2];
     class_3_precisions := class_3_precisions l;
     class_3_recalls := class_3_recalls l;
     class_3_f1s := class_3_f1s l;
     class_4_precisions := class_4_precisions l;
     class_4_recalls := class_4_recalls l;
     class_4_f1s := class_4_f1s l;
     class_5_precisions := class_5_precisions l;
     class_5_recalls := class_5_recalls l;
     class_5_f1s := class_5_f1s l |}.

(** The appends under [if num == 3 or num == 5]. *)
Definition append_3 (l : fold_lists) (precision3 recall3 f1_3 : F) : fold_lists :=
  {| accuracies := accuracies l;
     class_1_precisions := class_1_precisions l;
     class_1_recalls := class_1_recalls l;
     class_1_f1s := class_1_f1s l;
     class_2_precisions := class_2_precisions l;
     class_2_recalls := class_2_recalls l;
     class_2_f1s := class_2_f1s l;
     class_3_precisions := class_3_precisions l ++ [precision3];
     class_3_recalls := class_3_recalls l ++ [recall3];
     class_3_f1s := class_3_f1s l ++ [f1_3];
     class_4_precisions := class_4_precisions l;
     class_4_recalls := class_4_recalls l;
     class_4_f1s := class_4_f1s l;
     class_5_precisions := class_5_precisions l;
     class_5_recalls := class_5_recalls l;
     class_5_f1s := class_5_f1s l |}.

(** The appends under [if num == 5]. *)
Definition append_45 (l : fold_lists)
    (precision4 recall4 f1_4 precision5 recall5 f1_5 : F) : fold_lists :=
  {| accuracies := accuracies l;
     class_1_precisions := class_1_precisions l;
     class_1_recalls := class_1_recalls l;
     class_1_f1s := class_1_f1s l;
     class_2_precisions := class_2_precisions l;
     class_2_recalls := class_2_recalls l;
     class_2_f1s := class_2_f1s l;
     class_3_precisions := class_3_precisions l;
     class_3_recalls := class_3_recalls l;
     class_3_f1s := class_3_f1s l;
     class_4_precisions := class_4_precisions l ++ [precision4];
     class_4_recalls := class_4_recalls l ++ [recall4];
     class_4_f1s := class_4_f1s l ++ [f1_4];
     class_5_precisions := class_5_precisions l ++ [precision5];
     class_5_recalls := class_5_recalls l ++ [recall5];
     class_5_f1s := class_5_f1s l ++ [f1_5] |}.

(** The tuple assignment of one fold and the appends that follow it.  A
    tuple of the wrong length cannot be unpacked ([ValueError]); with a
    [num] other than 2, 3 and 5 nothing is assigned and the first append
    reads the unbound local [accuracy]. *)
Definition append_fold (num : Z) (l : fold_lists) (t : option (list F))
  : result fold_lists :=
  if (num =? 2)%Z then
    match t with
    | Some [accuracy; precision1; recall1; f1_1; precision2; recall2; f1_2] =>
        OK (append_12 l accuracy precision1 recall1 f1_1 precision2 recall2 f1_2)
    | _ => Raise ValueError
    end
  else if (num =? 3)%Z then
    match t with
    | Some [accuracy; precision1; recall1; f1_1; precision2; recall2; f1_2;
            precision3; recall3; f1_3] =>
        OK (append_3
              (append_12 l accuracy precision1 recall1 f1_1 precision2 recall2 f1_2)
              precision3 recall3 f1_3)
    | _ => Raise ValueError
    end
  else if (num =? 5)%Z then
    match t with
    | Some [accuracy; precision1; recall1; f1_1; precision2; recall2; f1_2;
            precision3; recall3; f1_3; precision4; recall4; f1_4;
            precision5; recall5; f1_5] =>
        OK (append_45
              (append_3
                 (append_12 l accuracy precision1 recall1 f1_1 precision2 recall2 f1_2)
                 precision3 recall3 f1_3)
              precision4 recall4 f1_4 precision5 recall5 f1_5)
    | _ => Raise ValueError
    end
  else Raise NameError.

(** [numpy.mean(numpy.array(xs)) * 100]. *)
Definition average (xs : list F) : F := mean xs * $100.

Local Notation "k :-> v" := (k%string, v) (at level 60, no associativity).

(** The dict [metrics_] built after the loop. *)
Definition report (num : Z) (l : fold_lists) : result (list (string * value)) :=
  let average_accuracy := average (accuracies l) in
  let average_precision1 := average (class_1_precisions l) in
  let average_precision2 := average (class_2_precisions l) in
  let average_recall1 := average (class_1_recalls l) in
  let average_recall2 := average (class_2_recalls l) in
  let average_f1_1 := average (class_1_f1s l) in
  let average_f1_2 := average (class_2_f1s l) in
  let average_precision3 := average (class_3_precisions l) in
  let average_recall3 := average (class_3_recalls l) in
  let average_f1_3 := average (class_3_f1s l) in
  let average_precision4 := average (class_4_precisions l) in
  let average_recall4 := average (class_4_recalls l) in
  let average_f1_4 := average (class_4_f1s l) in
  let average_precision5 := average (class_5_precisions l) in
  let average_recall5 := average (class_5_recalls l) in
  let average_f1_5 := average (class_5_f1s l) in
  if (num =? 2)%Z then
    OK [ "accuracies" :-> Seq (accuracies l);
         "positive_precisions" :-> Seq (class_1_precisions l);
         "positive_recalls" :-> Seq (class_1_recalls l);
         "positive_f1_scores" :-> Seq (class_1_f1s l);
         "negative_precisions" :-> Seq (class_2_precisions l);
         "negative_recalls" :-> Seq (class_2_recalls l);
         "negative_f1_scores" :-> Seq (class_2_f1s l);
         "average_accuracy" :-> Num average_accuracy;
         "average_positive_precision" :-> Num average_precision1;
         "average_positive_recall" :-> Num average_recall1;
         "average_positive_f1_score" :-> Num average_f1_1;
         "average_negative_precision" :-> Num average_precision2;
         "average_negative_recall" :-> Num average_recall2;
         "average_negative_f1_score" :-> Num average_f1_2 ]
  else if (num =? 3)%Z then
    OK [ "accuracies" :-> Seq (accuracies l);
         "positive_precisions" :-> Seq (class_1_precisions l);
         "positive_recalls" :-> Seq (class_1_recalls l);
         "positive_f1_scores" :-> Seq (class_1_f1s l);
         "negative_precisions" :-> Seq (class_2_precisions l);
         "negative_recalls" :-> Seq (class_2_recalls l);
         "negative_f1_scores" :-> Seq (class_2_f1s l);
         "average_accuracy" :-> Num average_accuracy;
         "average_positive_precision" :-> Num average_precision1;
         "average_positive_recall" :-> Num average_recall1;
         "average_positive_f1_score" :-> Num average_f1_1;
         "average_negative_precision" :-> Num average_precision2;
         "average_negative_recall" :-> Num average_recall2;
         "average_negative_f1_score" :-> Num average_f1_2;
         "neutral_precisions" :-> Seq (class_3_precisions l);
         "neutral_recalls" :-> Seq (class_3_recalls l);
         "neutral_f1_scores" :-> Seq (class_3_f1s l);
         "average_neutral_precision" :-> Num average_precision3;
         "average_neutral_recall" :-> Num average_recall3;
         "average_neutral_f1_score" :-> Num average_f1_3 ]
  else if (num =? 5)%Z then
    OK [ "accuracies" :-> Seq (accuracies l);
         "onestar_precisions" :-> Seq (class_1_precisions l);
         "onestar_recalls" :-> Seq (class_1_recalls l);
         "onestar_f1_scores" :-> Seq (class_1_f1s l);
         "twostar_precisions" :-> Seq (class_2_precisions l);
         "twostar_recalls" :-> Seq (class_2_recalls l);
         "twostar_f1_scores" :-> Seq (class_2_f1s l);
         "average_accuracy" :-> Num average_accuracy;
         "average_onestar_precision" :-> Num average_precision1;
         "average_onestar_recall" :-> Num average_recall1;
         "average_onestar_f1_score" :-> Num average_f1_1;
         "average_twostar_precision" :-> Num average_precision2;
         "average_twostar_recall" :-> Num average_recall2;
         "average_twostar_f1_score" :-> Num average_f1_2;
         "threestar_precisions" :-> Seq (class_3_precisions l);
         "threestar_recalls" :-> Seq (class_3_recalls l);
         "threestar_f1_scores" :-> Seq (class_3_f1s l);
         "average_threestar_precision" :-> Num average_precision3;
         "average_threestar_recall" :-> Num average_recall3;
         "average_threestar_f1_score" :-> Num average_f1_3;
         "fourstar_precisions" :-> Seq (class_4_precisions l);
         "fourstar_recalls" :-> Seq (class_4_recalls l);
         "fourstar_f1_scores" :-> Seq (class_4_f1s l);
         "average_fourstar_precision" :-> Num average_precision4;
         "average_fourstar_recall" :-> Num average_recall4;
         "average_fourstar_f1_score" :-> Num average_f1_4;
         "fivestar_precisions" :-> Seq (class_5_precisions l);
         "fivestar_recalls" :-> Seq (class_5_recalls l);
         "fivestar_f1_scores" :-> Seq (class_5_f1s l);
         "average_fivestar_precision" :-> Num average_precision5;
         "average_fivestar_recall" :-> Num average_recall5;
         "average_fivestar_f1_score" :-> Num average_f1_5 ]
  else Raise NameError.

(** [[xs[i] for i in idx]]. *)
Fixpoint getitems {A : Type} (xs : list A) (idx : list nat) : result (list A) :=
  match idx with
  | [] => OK []
  | i :: idx' =>
      match nth_error xs i with
      | Some x => rest <- getitems xs idx' ;; OK (x :: rest)
      | None => Raise IndexError
      end
  end.

Section Evaluate.
(** Collaborators: the text pipeline of [preprocess], the fold generator
    [StratifiedKFold(n_splits).split(data, target)], and the trainable
    model ([generate_model] and [model.fit], then [model.predict]). *)
Variable Row Model : Type.
Variable clean : bool -> string -> string.
Variable vectorize : vectorizer_kind -> list string -> result (list Row).
Variable split : Z -> list Row -> list Z -> result (list (list nat * list nat)).
Variable fit : option string -> list Row -> list Z -> result Model.
Variable predict : Model -> list Row -> result (list Z).

Variable self : classifier F.

(** [evaluate_accuracy(data, target, num, model=model)]: the tuple of
    [metrics] for that [num], passed on in the same order. *)
Definition evaluate_accuracy (data : list Row) (target : list Z) (num : Z)
    (model : Model) : result (option (list F)) :=
  preds <- predict model data ;;
  metrics target preds num.

(** The two label sequences one fold compares: [y_test] and the
    predictions of the model trained on the rest. *)
Definition fold_labels (data : list Row) (target : list Z)
    (fold : list nat * list nat) : result (list Z * list Z) :=
  let (train, test) := fold in
  x_train <- getitems data train ;;
  y_train <- getitems target train ;;
  x_test <- getitems data test ;;
  y_test <- getitems target test ;;
  model <- fit (classifier_type self) x_train y_train ;;
  preds <- predict model x_test ;;
  OK (y_test, preds).

(** The fold compares label sequences whose confusion matrix is [M], of
    the size of the mode. *)
Definition fold_has_matrix (data : list Row) (target : list Z) (num : Z)
    (fold : list nat * list nat) (M : list (list Z)) : Prop :=
  exists y_test preds,
    fold_labels data target fold = OK (y_test, preds)
    /\ confusion_matrix y_test preds = OK M
    /\ length M = Z.to_nat num.

(** The tuple of [metrics] one fold appends to the lists. *)
Definition fold_metrics (data : list Row) (target : list Z) (num : Z)
    (fold : list nat * list nat) : result (option (list F)) :=
  ' (y_test, preds) <- fold_labels data target fold ;;
  metrics y_test preds num.

(** Body of the loop over the folds. *)
Definition fold_body (data : list Row) (target : list Z) (num : Z)
    (l : fold_lists) (fold : list nat * list nat) : result fold_lists :=
  let (train, test) := fold in
  x_train <- getitems data train ;;
  y_train <- getitems target train ;;
  x_test <- getitems data test ;;
  y_test <- getitems target test ;;
  model <- fit (classifier_type self) x_train y_train ;;
  t <- evaluate_accuracy x_test y_test num model ;;
  append_fold num l t.

(** [evaluate_average_accuracy(reviews_filename, n_folds, num)], on the
    rows of the file. *)
Definition evaluate_average_accuracy (rows : list (review F)) (n_folds num : Z)
  : result (list (string * value)) :=
  ' (data, target, info) <- preprocess clean vectorize self true rows num ;;
  splits <- split n_folds data target ;;
  l <- for_each (fold_body data target num) splits no_folds ;;
  report num l.

End Evaluate.

End Classifier.

End ReviewClassifier.
Import ReviewClassifier.

(* ================================================================== *)
(** * The specification's vocabulary

    The quantities the properties are stated with, written from their
    definitions in the specification of the metrics engine. *)

Module Spec.

Section Definitions.
Context {F : Type} `{Float64 F}.
Local Open Scope np_scope.

(** [matrix[i][j]], zero outside the matrix. *)
Definition entry (M : list (list Z)) (i j : nat) : Z :=
  nth j (nth i M []) 0%Z.

Definition zsum (xs : list Z) : Z := fold_right Z.add 0%Z xs.

(** The indices below [n] other than [c]. *)
Definition others (n c : nat) : list nat :=
  filter (fun k => negb (k =? c)%nat) (seq 0 n).

(** True positives of class [c]: the diagonal cell. *)
Definition TP (M : list (list Z)) (c : nat) : Z := entry M c c.

(** False positives: predicted [c], actually another class. *)
Definition FP (M : list (list Z)) (c : nat) : Z :=
  zsum (map (fun r => entry M r c) (others (length M) c)).

(** False negatives: actually [c], predicted as another class. *)
Definition FN (M : list (list Z)) (c : nat) : Z :=
  zsum (map (fun j => entry M c j) (others (length M) c)).

Definition trace (M : list (list Z)) : Z :=
  zsum (map (fun c => entry M c c) (seq 0 (length M))).

Definition total (M : list (list Z)) : Z := zsum (map zsum M).

Definition row_sum (M : list (list Z)) (i : nat) : Z := zsum (nth i M []).

Definition col_sum (M : list (list Z)) (j : nat) : Z :=
  zsum (map (fun row => nth j row 0%Z) M).

Definition accuracy (M : list (list Z)) : F :=
  $(trace M) / $(total M).

Definition precision (M : list (list Z)) (c : nat) : F :=
  $(TP M c) / $(TP M c + FP M c).

Definition recall (M : list (list Z)) (c : nat) : F :=
  $(TP M c) / $(TP M c + FN M c).

(** Harmonic mean of precision and recall, as the metrics function
    writes it. *)
Definition f1 (p r : F) : F := $2 * ((p * r) / (p + r)).

(** The same with the zero-sum guard. *)
Definition f1_guarded (p r : F) : F :=
  if (p + r) == $0 then $0 else f1 p r.

(** The F1 formula [metrics] uses for class slot [k]: only [f1_2] of
    5-class mode has the guard. *)
Definition f1_of_slot (num : Z) (k : nat) : F -> F -> F :=
  if ((num =? 5)%Z && (k =? 1)%nat)%bool then f1_guarded else f1.

(** The triple of the [k]-th class slot of a tuple of [metrics]:
    [precision<k+1>], [recall<k+1>], [f1_<k+1>]. *)
Definition slot (t : list F) (k : nat) : option (F * F * F) :=
  match nth_error t (1 + 3 * k), nth_error t (2 + 3 * k), nth_error t (3 + 3 * k) with
  | Some p, Some r, Some f => Some (p, r, f)
  | _, _, _ => None
  end.

(** The slot in which [metrics] reports class index [c]: in 2-class mode
    the positive class (index 1) is [precision1] and the negative class
    (index 0) is [precision2]; otherwise slot and class index agree. *)
Definition slot_of_class (num : Z) (c : nat) : nat :=
  if (num =? 2)%Z then (1 - c)%nat else c.

(** The class index a name of the report stands for, after the labels
    [preprocess] gives: 0 negative, 1 positive (2 classes); 0 negative,
    1 neutral, 2 positive (3 classes); the star count less one (5). *)
Definition named_class (num : Z) (name : string) : option nat :=
  if (num =? 2)%Z then
    if String.eqb name "negative" then Some 0%nat
    else if String.eqb name "positive" then Some 1%nat
    else None
  else if (num =? 3)%Z then
    if String.eqb name "negative" then Some 0%nat
    else if String.eqb name "neutral" then Some 1%nat
    else if String.eqb name "positive" then Some 2%nat
    else None
  else if (num =? 5)%Z then
    if String.eqb name "onestar" then Some 0%nat
    else if String.eqb name "twostar" then Some 1%nat
    else if String.eqb name "threestar" then Some 2%nat
    else if String.eqb name "fourstar" then Some 3%nat
    else if String.eqb name "fivestar" then Some 4%nat
    else None
  else None.

(** The per-fold list [proj] receives position [i] of every fold's
    tuple. *)
Definition appends_position (num : Z) (proj : fold_lists (F:=F) -> list F)
    (i : nat) : Prop :=
  forall l t l',
    append_fold num l (Some t) = OK l' ->
    exists x, nth_error t i = Some x /\ proj l' = proj l ++ [x].

(** One state of [preprocess] continued by another: the lists appended,
    the counters added. *)
Definition pre_app (s1 s2 : pre_state) : pre_state :=
  {| reviews := reviews s1 ++ reviews s2;
     target := target s1 ++ target s2;
     num_pos := (num_pos s1 + num_pos s2)%Z;
     num_neg := (num_neg s1 + num_neg s2)%Z;
     num_neut := (num_neut s1 + num_neut s2)%Z |}.

(** A row whose comment is not text. *)
Definition malformed (r : review F) : bool :=
  match comment r with
  | FloatCell => true
  | Text _ => false
  end.

Definition well_formed (r : review F) : bool := negb (malformed r).

(** The number of rows counted in [info]. *)
Definition counted (st : pre_state) : Z :=
  (num_pos st + num_neg st + num_neut st)%Z.

(** The number of rows [preprocess] skips as malformed. *)
Definition skipped (rows : list (review F)) : nat :=
  length (filter malformed rows).

(** The keys of the report that go together: a per-fold list and its
    average. *)
Definition report_pairs (num : Z) : list (string * string) :=
  let base (cls : string) : list (string * string) :=
    [ (append cls "_precisions", append "average_" (append cls "_precision"));
      (append cls "_recalls", append "average_" (append cls "_recall"));
      (append cls "_f1_scores", append "average_" (append cls "_f1_score")) ] in
  ("accuracies"%string, "average_accuracy"%string)
  :: (if (num =? 2)%Z then base "positive"%string ++ base "negative"%string
      else if (num =? 3)%Z then
        base "positive"%string ++ base "negative"%string ++ base "neutral"%string
      else if (num =? 5)%Z then
        base "onestar"%string ++ base "twostar"%string ++ base "threestar"%string
        ++ base "fourstar"%string ++ base "fivestar"%string
      else []).

End Definitions.

End Spec.


(* ================================================================== *)
(** * More vocabulary for the properties *)

Module Props.

(** A metric value that is undefined (nan) or a proportion. *)
Definition proportion_or_nan (x : npfloat) : Prop :=
  x = NaN \/ exists q, x = Fin q /\ (0 <= q <= 1)%Q.

(** Number of occurrences of a label in a target list. *)
Definition occurrences (label : Z) (target : list Z) : Z :=
  Z.of_nat (count_occ Z.eq_dec target label).

End Props.
Import Props.

(* ================================================================== *)
(** * More Python exceptions *)

Module PyExc.

(** The exceptions of the code below: the built-in ones of [Py], the
    attribute error of a call on [None], the division of Python floats
    and ints by zero, and [raise Exception(message)]. *)
Inductive error : Type :=
| Builtin (e : exn)
| AttributeError
| ZeroDivisionError
| Exception (message : string).

Inductive outcome (A : Type) : Type :=
| Returns (a : A)
| Raises (e : error).

Arguments Returns {A} a.
Arguments Raises {A} e.

Definition and_then {A B} (r : outcome A) (k : A -> outcome B) : outcome B :=
  match r with
  | Returns a => k a
  | Raises e => Raises e
  end.

(** A result of the earlier code, with its exception kept. *)
Definition lift {A} (r : result A) : outcome A :=
  match r with
  | OK a => Returns a
  | Raise e => Raises (Builtin e)
  end.

(** A [for] loop whose body may raise one of these. *)
Fixpoint for_each_sample {A S} (body : S -> A -> outcome S) (xs : list A)
    (s : S) : outcome S :=
  match xs with
  | [] => Returns s
  | x :: xs' => and_then (body s x) (for_each_sample body xs')
  end.

End PyExc.
Import PyExc.

Declare Scope exc_scope.
Delimit Scope exc_scope with exc.
Notation "x <- e ;; k" := (and_then e (fun x => k))
  (at level 61, e at next level, right associativity) : exc_scope.
Notation "' pat <- e ;; k" := (and_then e (fun x => match x with pat => k end))
  (at level 61, pat pattern, e at next level, right associativity) : exc_scope.

(* ================================================================== *)
(** * medinify.sentiment.cnn_review_classifier: k-fold cross-validation *)

Module CNNReviewClassifier.

Section KFold.
Context {F : Type} `{Float64 F}.
Local Open Scope np_scope.
Local Open Scope exc_scope.

(** Collaborators: the fold generator and, for one fold, the data loaders,
    the freshly initialised network, [train] and [evaluate], which gives
    the fold's accuracy, precision and recall as percentages. *)
Variable Example : Type.
Variable split : Z -> list Example -> result (list (list nat * list nat)).
Variable train_and_evaluate :
  list Example -> list Example -> Z -> outcome (F * F * F).




End KFold.

End CNNReviewClassifier.

(* ================================================================== *)
(** * medinify.sentiment.cnn_review_classifier: batch metrics and
      evaluation *)

Module CNNMetrics.

(** The four counters of [batch_metrics]. *)
Record counts : Type := {
  true_pos : Z;
  false_pos : Z;
  true_neg : Z;
  false_neg : Z
}.

Definition no_counts : counts :=
  {| true_pos := 0; false_pos := 0; true_neg := 0; false_neg := 0 |}.

(** [array[i]] on a one-dimensional array. *)
Definition at_index (xs : list Z) (i : nat) : result Z :=
  match nth_error xs i with
  | Some x => OK x
  | None => Raise IndexError
  end.

(** One pass of the [while] loop of [batch_metrics], at index [i].  The
    conditions are tried in the order of the source; [ratings[i]] is read
    only when [preds[i]] is 0 or 1 ([and] does not evaluate its right
    operand otherwise). *)
Definition count_one (ratings : list Z) (c : counts) (i : nat) (pred : Z)
  : result counts :=
  if (pred =? 0)%Z then
    rating <- at_index ratings i ;;
    if (rating =? 0)%Z then
      OK {| true_pos := true_pos c; false_pos := false_pos c;
            true_neg := true_neg c + 1; false_neg := false_neg c |}
    else if (rating =? 1)%Z then
      OK {| true_pos := true_pos c; false_pos := false_pos c;
            true_neg := true_neg c; false_neg := false_neg c + 1 |}
    else OK c
  else if (pred =? 1)%Z then
    rating <- at_index ratings i ;;
    if (rating =? 1)%Z then
      OK {| true_pos := true_pos c + 1; false_pos := false_pos c;
            true_neg := true_neg c; false_neg := false_neg c |}
    else if (rating =? 0)%Z then
      OK {| true_pos := true_pos c; false_pos := false_pos c + 1;
            true_neg := true_neg c; false_neg := false_neg c |}
    else OK c
  else OK c.

(** The loop [while i < len(preds)], from index [i] on. *)
Fixpoint count_from (ratings : list Z) (preds : list Z) (i : nat) (c : counts)
  : result counts :=
  match preds with
  | [] => OK c
  | pred :: preds' =>
      c' <- count_one ratings c i pred ;;
      count_from ratings preds' (S i) c'
  end.

Section BatchMetrics.

(** Collaborators: the rounded sigmoid of the predictions as an int64
    array, and the ratings as an int64 array. *)
Variable Tensor : Type.
Variable round_sigmoid : Tensor -> list Z.
Variable to_int64 : Tensor -> list Z.

(** [batch_metrics(predictions, ratings)]: the tuple
    [true_pos, false_pos, true_neg, false_neg]. *)
Definition batch_metrics (predictions ratings : Tensor)
  : result (Z * Z * Z * Z) :=
  let preds := round_sigmoid predictions in
  let ratings := to_int64 ratings in
  c <- count_from ratings preds 0 no_counts ;;
  OK (true_pos c, false_pos c, true_neg c, false_neg c).

End BatchMetrics.

Section Evaluate.
Context {F : Type} `{Float64 F}.

(** Collaborators: the batches of the loader, the forward pass
    [network(sample).squeeze(1)], the ratings [sample.rating] of a batch,
    the loss [self.loss] (its value is only printed; it refuses
    predictions and ratings of different shapes), and the conversions of
    [batch_metrics]. *)
Variable Batch Tensor : Type.
Variable network : Batch -> outcome Tensor.
Variable rating : Batch -> Tensor.
Variable loss : Tensor -> Tensor -> outcome unit.
Variable round_sigmoid : Tensor -> list Z.
Variable to_int64 : Tensor -> list Z.

(** Python's [x / n] for a float [x] and an int [n]: it raises on zero. *)
Definition float_div_int (x : F) (n : Z) : outcome F :=
  if (n =? 0)%Z then Raises ZeroDivisionError
  else Returns (fdiv x (of_int n)).

Local Open Scope exc_scope.

(** Body of the loop of [evaluate] over the loader: the totals. *)
Definition add_batch (totals : Z * Z * Z * Z) (sample : Batch)
  : outcome (Z * Z * Z * Z) :=
  let '(total_tp, total_tn, total_fp, total_fn) := totals in
  predictions <- network sample ;;
  sample_loss <- loss predictions (rating sample) ;;
  ' (tp, fp, tn, fn) <-
      lift (batch_metrics round_sigmoid to_int64 predictions (rating sample)) ;;
  Returns (total_tp + tp, total_tn + tn, total_fp + fp, total_fn + fn)%Z.

(** [evaluate(network, valid_loader)], on the batches of the loader: the
    returned accuracy, precision and recall, as percentages. *)
Definition evaluate (valid_loader : list Batch) : outcome (F * F * F) :=
  ' (total_tp, total_tn, total_fp, total_fn) <-
      for_each_sample add_batch valid_loader (0, 0, 0, 0)%Z ;;
  accuracy <- float_div_int (fmul (of_int (total_tp + total_tn)) (of_int 1))
                (total_tp + total_tn + total_fp + total_fn) ;;
  let average_accuracy := fmul accuracy (of_int 100) in
  precision <- float_div_int (fmul (of_int total_tp) (of_int 1))
                 (total_tp + total_fp) ;;
  let average_precision := fmul precision (of_int 100) in
  recall <- float_div_int (fmul (of_int total_tp) (of_int 1))
              (total_tp + total_fn) ;;
  let average_recall := fmul recall (of_int 100) in
  Returns (average_accuracy, average_precision, average_recall).

End Evaluate.

End CNNMetrics.

Module CNNProps.

(** A prediction or rating that is 0 or 1. *)
Definition binary (x : Z) : Prop := x = 0%Z \/ x = 1%Z.

Section Pooled.
Variable Batch Tensor : Type.
Variable network : Batch -> outcome Tensor.
Variable rating : Batch -> Tensor.
Variable loss : Tensor -> Tensor -> outcome unit.
Variable round_sigmoid : Tensor -> list Z.
Variable to_int64 : Tensor -> list Z.

(** The 0/1 predictions of the network on one batch. *)
Definition preds_of (sample : Batch) : list Z :=
  match network sample with
  | Returns predictions => round_sigmoid predictions
  | Raises _ => []
  end.

(** The predictions and the ratings of all the batches of a loader, one
    after the other. *)
Definition pooled_preds (loader : list Batch) : list Z :=
  flat_map preds_of loader.

Definition pooled_ratings (loader : list Batch) : list Z :=
  flat_map (fun sample => to_int64 (rating sample)) loader.

(** On every batch the forward pass and the loss return, and there are
    as many ratings as predictions. *)
Definition well_shaped (loader : list Batch) : Prop :=
  Forall (fun sample =>
            exists predictions,
              network sample = Returns predictions
              /\ loss predictions (rating sample) = Returns tt
              /\ length (to_int64 (rating sample))
                 = length (round_sigmoid predictions)) loader.

End Pooled.

End CNNProps.
Import CNNProps.


(* ================================================================== *)
(** * medinify.sentiment.review_classifier: models and classification *)

Module Models.

(** The scikit-learn estimators [generate_model] constructs. *)
Inductive estimator : Type :=
| MultinomialNB
| RandomForestClassifier
| LinearSVC.

Section Fit.
Context {F : Type}.
Variable Row Model : Type.

(** Collaborator: [model.fit(data, target)] of a fresh estimator. *)
Variable model_fit : estimator -> list Row -> list Z -> result Model.

Variable self : classifier F.

(** [generate_model()]: [None] unless the classifier type is one of the
    three acronyms. *)
Definition generate_model : option estimator :=
  match classifier_type self with
  | Some kind =>
      if String.eqb kind "nb" then Some MultinomialNB
      else if String.eqb kind "rf" then Some RandomForestClassifier
      else if String.eqb kind "svm" then Some LinearSVC
      else None
  | None => None
  end.

(** [fit(data, target)]: the trained model, which is also stored in
    [self.model]; [model.fit] on [None] is an attribute error. *)
Definition fit (data : list Row) (target : list Z) : outcome Model :=
  match generate_model with
  | None => Raises AttributeError
  | Some model => lift (model_fit model data target)
  end.

End Fit.

End Models.

Module Classify.

(** The locals of [classify] that its loops update. *)
Record state : Type := {
  clean_comments : list string;
  comments : list string;
  target : list Z
}.

Definition no_comments : state :=
  {| clean_comments := []; comments := []; target := [] |}.

(** One line of the output file:
    [Comment: {}\tPrediction: {}\tActual Rating: {}\n]. *)
Record line : Type := {
  line_comment : string;
  line_prediction : string;
  line_actual : string
}.

(** Python truth value of an optional string. *)
Definition truthy_text (s : option string) : bool :=
  match s with
  | None => false
  | Some s => negb (String.eqb s "")
  end.

(** [bool(self.vectorizer)]: the vectorizer objects of [__init__] define
    neither [__bool__] nor [__len__]. *)
Definition truthy_vectorizer (v : vectorizer_kind) : bool := true.

(** The names written for a prediction and for a target label, by mode. *)
Definition prediction_name (num : Z) (prediction : Z) : string :=
  if (num =? 2)%Z then
    if (prediction =? 1)%Z then "Positive" else "Negative"
  else if (num =? 3)%Z then
    if (prediction =? 2)%Z then "Positive"
    else if (prediction =? 1)%Z then "Neutral"
    else "Negative"
  else
    if (prediction =? 1)%Z then "One Star"
    else if (prediction =? 2)%Z then "Two Star"
    else if (prediction =? 3)%Z then "Three Star"
    else if (prediction =? 4)%Z then "Four Star"
    else "Five Star".

Definition actual_name (num : Z) (label : Z) : string :=
  if (num =? 2)%Z then
    if (label =? 0)%Z then "Negative" else "Positive"
  else if (num =? 3)%Z then
    if (label =? 0)%Z then "Negative"
    else if (label =? 1)%Z then "Neutral"
    else "Positive"
  else
    if (label =? 1)%Z then "One Star"
    else if (label =? 2)%Z then "Two Star"
    else if (label =? 3)%Z then "Three Star"
    else if (label =? 4)%Z then "Four Star"
    else "Five Star".

(** The loop [for i, comment in enumerate(comments)] of one mode, from
    index [i] on: the lines written. *)
Fixpoint write_lines (num : Z) (comments : list string)
    (predictions target : list Z) (i : nat) : result (list line) :=
  match comments with
  | [] => OK []
  | comment :: comments' =>
      prediction <- CNNMetrics.at_index predictions i ;;
      label <- CNNMetrics.at_index target i ;;
      rest <- write_lines num comments' predictions target (S i) ;;
      OK ({| line_comment := comment;
             line_prediction := prediction_name num prediction;
             line_actual := actual_name num label |} :: rest)
  end.

Section Classify.
Context {F : Type} `{Float64 F}.
Local Open Scope np_scope.

(** Collaborators: the text pipeline of [preprocess] (here always with
    the stop words removed), the transform of the cleaned comments into
    the array of their rows (which fails on no comment at all), the
    prediction of the model and the truth value of the model object. *)
Variable Row Model : Type.
Variable clean : bool -> string -> string.
Variable transform : list string -> result (list Row).
Variable predict : Model -> list Row -> result (list Z).
Variable truthy_model : Model -> bool.

Variable self : classifier F.

(** [comments.append], [clean_comments.append] and [target.append]. *)
Definition add (st : state) (text : string) (rating : Z) : state :=
  {| clean_comments := clean_comments st ++ [clean true text];
     comments := comments st ++ [text];
     target := target st ++ [rating] |}.

(** Body of the loop of [num == 2]. *)
Definition label2 (st : state) (r : review F) : state :=
  match comment r with
  | FloatCell => st
  | Text text =>
      if (negative_threshold self < rating r) && (rating r < positive_threshold self)
      then st
      else if rating r <= negative_threshold self
      then add st text 0
      else add st text 1
  end.

(** Body of the loop of [num == 3]. *)
Definition label3 (st : state) (r : review F) : state :=
  match comment r with
  | FloatCell => st
  | Text text =>
      if (negative_threshold self < rating r) && (rating r < positive_threshold self)
      then add st text 1
      else if rating r <= negative_threshold self
      then add st text 0
      else add st text 2
  end.

(** Body of the loop of [num == 5]. *)
Definition label5 (st : state) (r : review F) : state :=
  match comment r with
  | FloatCell => st
  | Text text =>
      if rating r == $1 then add st text 1
      else if rating r == $2 then add st text 2
      else if rating r == $3 then add st text 3
      else if rating r == $4 then add st text 4
      else add st text 5
  end.

(** The three labelling loops, one [if] after the other. *)
Definition label_rows (rows : list (review F)) (num : Z) : state :=
  let st := no_comments in
  let st := if (num =? 2)%Z then fold_left label2 rows st else st in
  let st := if (num =? 3)%Z then fold_left label3 rows st else st in
  if (num =? 5)%Z then fold_left label5 rows st else st.

(** The three writing loops. *)
Definition write (num : Z) (st : state) (predictions : list Z)
  : result (list line) :=
  if ((num =? 2) || (num =? 3) || (num =? 5))%Z
  then write_lines num (comments st) predictions (target st) 0
  else OK [].

(** The tuple assignment [a, b, ... = metrics(target, predictions)] to
    [n] names. *)
Definition unpack (n : nat) (t : option (list F)) : result (list F) :=
  match t with
  | Some values => if (length values =? n)%nat then OK values
                   else Raise ValueError
  | None => Raise ValueError
  end.

(** The evaluation written at the end: in each of the three modes
    [metrics] is called without [num], and its tuple assigned to the 7,
    10 or 16 names of the mode; the values are written as percentages. *)
Definition write_evaluation (num : Z) (evaluate : bool)
    (target predictions : list Z) : result (option (list F)) :=
  if evaluate && (num =? 2)%Z then
    t <- metrics target predictions 2 ;;
    values <- unpack 7 t ;;
    OK (Some (map (fun x => x * $100) values))
  else if evaluate && (num =? 3)%Z then
    t <- metrics target predictions 2 ;;
    values <- unpack 10 t ;;
    OK (Some (map (fun x => x * $100) values))
  else if evaluate && (num =? 5)%Z then
    t <- metrics target predictions 2 ;;
    values <- unpack 16 t ;;
    OK (Some (map (fun x => x * $100) values))
  else OK None.

(** [classify(output_file, num, csv_file, text_file, evaluate)] with
    [self.model = model]; [csv_file] is the rows of the file of that
    name, [None] when no name is passed ([pd.read_csv(None)] is a
    [ValueError]).  The result is what was appended to the output file:
    the lines and the evaluation. *)
Definition classify (model : option Model) (num : Z)
    (csv_file : option (list (review F))) (text_file : option string)
    (evaluate : bool) : outcome (list line * option (list F)) :=
  match model with
  | None => Raises (Exception "Model needs training first")
  | Some model =>
      if truthy_model model && negb (truthy_vectorizer (vectorizer self))
      then Raises (Exception "A model must be trained before classifying")
      else if truthy_text text_file && evaluate
      then Raises (Exception "In order to evaluate the classification, data must be passed in csv format")
      else
        match csv_file with
        | None => Raises (Builtin ValueError)
        | Some rows =>
            let st := label_rows rows num in
            lift (data <- transform (clean_comments st) ;;
                  predictions <- predict model data ;;
                  lines <- write num st predictions ;;
                  evaluation <- write_evaluation num evaluate (target st)
                                  predictions ;;
                  OK (lines, evaluation))
        end
  end.

End Classify.

End Classify.

Module ClassifyProps.

Section Labelled.
Context {F : Type} `{Float64 F}.
Local Open Scope np_scope.

Variable self : classifier F.

(** The comments of a file that [classify] labels in mode 2, 3 or 5, as
    they are in the file: the text comments of its rows, in order,
    without, in mode 2, those whose rating is strictly between the
    thresholds. *)
Definition labelled_comments (rows : list (review F)) (num : Z)
  : list string :=
  flat_map
    (fun r =>
       match comment r with
       | Text text =>
           if (num =? 2)%Z
              && ((negative_threshold self < rating r)
                  && (rating r < positive_threshold self))
           then []
           else [text]
       | FloatCell => []
       end) rows.

End Labelled.

End ClassifyProps.
Import ClassifyProps.
(* ================================================================== *)
(** * Concrete inputs and test doubles *)

Module Examples.

Definition actual_8_2_1_9 : list Z :=
  [0; 0; 0; 0; 0; 0; 0; 0; 0; 0; 1; 1; 1; 1; 1; 1; 1; 1; 1; 1]%Z.
Definition predicted_8_2_1_9 : list Z :=
  [0; 0; 0; 0; 0; 0; 0; 0; 1; 1; 0; 1; 1; 1; 1; 1; 1; 1; 1; 1]%Z.

(** Doubles of the collaborators, for running the drivers. *)

(** The text pipeline leaves the comment as it is. *)
Definition stub_clean (remove_stop_words : bool) (text : string) : string :=
  text.

(** The vectorizer keeps each comment as its row; as scikit-learn does,
    it refuses an empty corpus. *)
Definition stub_vectorize (kind : vectorizer_kind) (docs : list string)
  : result (list string) :=
  match docs with
  | [] => Raise ValueError
  | _ => OK docs
  end.

(** A k-fold generator without shuffling: sample [j] is tested in fold
    [j mod k]; fewer than 2 folds are refused. *)
Definition stub_split (n_folds : Z) (data : list string) (target : list Z)
  : result (list (list nat * list nat)) :=
  if (n_folds <? 2)%Z then Raise ValueError
  else
    let k := Z.to_nat n_folds in
    let idx := seq 0 (length data) in
    OK (map (fun i =>
               (filter (fun j => negb (j mod k =? i)%nat) idx,
                filter (fun j => (j mod k =? i)%nat) idx))
            (seq 0 k)).

(** A model that needs no training: the comment "good" is positive. *)
Definition stub_fit (classifier_type : option string) (x : list string)
    (y : list Z) : result unit := OK tt.

Definition stub_predict (model : unit) (x : list string) : result (list Z) :=
  OK (map (fun s => if String.eqb s "good" then 1%Z else 0%Z) x).

Definition row (text : string) (stars : Z) : review npfloat :=
  {| comment := Text text; rating := of_int stars |}.

Definition blank (stars : Z) : review npfloat :=
  {| comment := FloatCell; rating := of_int stars |}.

(** A small review file: one row without comment, one neutral rating. *)
Definition sample_rows : list (review npfloat) :=
  [ row "good" 5; row "bad" 1; blank 4; row "bad" 2; row "good" 4;
    row "meh" 3; row "good" 1; row "bad" 5; row "good" 5 ]%string.

Definition default_classifier : classifier npfloat :=
  __init__ None None None false.

(** Thresholds in the wrong order: negative 4.0, positive 2.0. *)
Definition misordered_classifier : classifier npfloat :=
  __init__ None (Some (Fin 4)) (Some (Fin 2)) false.

(** A file whose reviews are all positive. *)
Definition positive_rows : list (review npfloat) :=
  [ row "good" 5; row "good" 4; row "good" 5; row "good" 5 ]%string.


(** Tensors given as the int64 arrays they convert to. *)
Definition stub_round_sigmoid (predictions : list Z) : list Z := predictions.
Definition stub_to_int64 (ratings : list Z) : list Z := ratings.

(** A batch given as its predictions and its ratings: the forward pass
    and the ratings are its two parts; the loss refuses different
    lengths. *)
Definition stub_network (sample : list Z * list Z) : outcome (list Z) :=
  Returns (fst sample).
Definition stub_rating (sample : list Z * list Z) : list Z := snd sample.
Definition stub_loss (predictions ratings : list Z) : outcome unit :=
  if (length predictions =? length ratings)%nat then Returns tt
  else Raises (Builtin ValueError).

(** A validation loader of two batches: (predictions, ratings). *)
Definition sample_loader : list (list Z * list Z) :=
  [ ([1; 0; 1], [1; 0; 0]); ([0; 1], [1; 1]) ]%Z.

(** A loader on which the network never predicts 1. *)
Definition negative_loader : list (list Z * list Z) :=
  [ ([0; 0; 0], [1; 0; 0]); ([0; 0], [1; 1]) ]%Z.

(** The transform of the cleaned comments: each comment is its row; no
    comment at all is refused. *)
Definition stub_transform (docs : list string) : result (list string) :=
  match docs with
  | [] => Raise ValueError
  | _ => OK docs
  end.

Definition stub_truthy_model (model : unit) : bool := true.

(** Fitting an estimator gives the model that needs no training. *)
Definition stub_model_fit (model : Models.estimator) (x : list string)
    (y : list Z) : result unit := OK tt.

(** A classifier constructed with the type of the random forest. *)
Definition forest_classifier : classifier npfloat :=
  __init__ (Some "rf"%string) None None false.

End Examples.
Import Examples.

(* ================================================================== *)
(** * Properties *)

Import Spec.

(** ** The exact float model *)

Lemma Qred_inject_Z (z : Z) : Qred (inject_Z z) = inject_Z z.
Proof.
  unfold Qred, inject_Z.
  pose proof (Z.ggcd_gcd z 1) as Hg.
  pose proof (Z.ggcd_correct_divisors z 1) as Hd.
  destruct (Z.ggcd z 1) as [g [x y]]. simpl in *.
  rewrite Z.gcd_1_r in Hg. subst g.
  destruct Hd as [Hx Hy].
  replace x with z by lia. replace y with 1%Z by lia. reflexivity.
Qed.

Lemma of_int_times_one (z : Z) : fmul (of_int z) (of_int 1) = (of_int z : npfloat).
Proof.
  cbn. unfold fin.
  rewrite (Qred_complete (inject_Z z * inject_Z 1) (inject_Z z)) by ring.
  now rewrite Qred_inject_Z.
Qed.

Lemma inject_Z_eq_bool_0 (d : Z) : Qeq_bool (inject_Z d) 0 = (d =? 0)%Z.
Proof.
  unfold Qeq_bool, inject_Z. simpl. now rewrite Z.mul_1_r.
Qed.

Lemma div_int_pos (n d : Z) :
  (0 < d)%Z ->
  fdiv (of_int n) (of_int d) = Fin (Qred (inject_Z n / inject_Z d)).
Proof.
  intros Hd. cbn. rewrite inject_Z_eq_bool_0.
  destruct (Z.eqb_spec d 0); [lia | reflexivity].
Qed.

Lemma div_int_zero_zero : fdiv (of_int 0) (of_int 0) = NaN.
Proof. reflexivity. Qed.

Lemma div_int_ext {F} `{Float64 F} (n n' d d' : Z) :
  n = n' -> d = d' -> fdiv (of_int n) (of_int d) = fdiv (of_int n') (of_int d').
Proof. now intros -> ->. Qed.

(** ** The confusion matrix *)

Lemma confusion_matrix_ok (a p : list Z) (M : list (list Z)) :
  confusion_matrix a p = OK M ->
  M = map (fun i => map (fun j => cell a p i j) (unique_labels a p))
          (unique_labels a p).
Proof.
  unfold confusion_matrix. destruct (length a =? length p)%nat; congruence.
Qed.

Lemma confusion_matrix_same_length (a p : list Z) :
  length a = length p ->
  confusion_matrix a p
  = OK (map (fun i => map (fun j => cell a p i j) (unique_labels a p))
            (unique_labels a p)).
Proof.
  intros E. unfold confusion_matrix. now rewrite E, Nat.eqb_refl.
Qed.

Lemma cell_nonneg (a p : list Z) (i j : Z) : (0 <= cell a p i j)%Z.
Proof. unfold cell. lia. Qed.

(** The matrix is square, of the size of the label set, and its cells
    are counts. *)
Lemma confusion_matrix_shape (a p : list Z) (M : list (list Z)) :
  confusion_matrix a p = OK M ->
  length M = length (unique_labels a p)
  /\ Forall (fun row => length row = length M) M
  /\ Forall (Forall (fun x => (0 <= x)%Z)) M.
Proof.
  intros E. apply confusion_matrix_ok in E. subst M.
  rewrite length_map. repeat split.
  - apply Forall_forall. intros row Hin. apply in_map_iff in Hin.
    destruct Hin as [i [<- _]]. now rewrite length_map.
  - apply Forall_forall. intros row Hin. apply in_map_iff in Hin.
    destruct Hin as [i [<- _]].
    apply Forall_forall. intros x Hx. apply in_map_iff in Hx.
    destruct Hx as [j [<- _]]. apply cell_nonneg.
Qed.

Lemma insert_label_in (x y : Z) (ls : list Z) :
  In y (insert_label x ls) <-> y = x \/ In y ls.
Proof.
  induction ls as [|z ls IH]; simpl.
  - intuition.
  - destruct (Z.ltb_spec x z); simpl; [intuition|].
    destruct (Z.eqb_spec x z); simpl.
    + subst. intuition.
    + rewrite IH. intuition.
Qed.

Lemma insert_label_sorted (x : Z) (ls : list Z) :
  StronglySorted Z.lt ls -> StronglySorted Z.lt (insert_label x ls).
Proof.
  induction ls as [|z ls IH]; simpl; intros Hs.
  - repeat constructor.
  - inversion Hs as [|? ? Hs' Hall]; subst.
    destruct (Z.ltb_spec x z).
    + constructor; [assumption|]. constructor; [assumption|].
      eapply Forall_impl; [|exact Hall]. simpl. intros; lia.
    + destruct (Z.eqb_spec x z); [assumption|].
      constructor; [now apply IH|].
      apply Forall_forall. intros y Hy. apply insert_label_in in Hy.
      destruct Hy as [->|Hy]; [lia|].
      rewrite Forall_forall in Hall. now apply Hall.
Qed.

Lemma unique_labels_sorted (a p : list Z) :
  StronglySorted Z.lt (unique_labels a p).
Proof.
  unfold unique_labels. induction (a ++ p) as [|x l IH]; simpl.
  - constructor.
  - now apply insert_label_sorted.
Qed.

Lemma unique_labels_in (a p : list Z) (y : Z) :
  In y (unique_labels a p) <-> In y (a ++ p).
Proof.
  unfold unique_labels. induction (a ++ p) as [|x l IH]; simpl.
  - tauto.
  - rewrite insert_label_in, IH. intuition.
Qed.

Lemma sorted_lt_NoDup (ls : list Z) : StronglySorted Z.lt ls -> NoDup ls.
Proof.
  induction 1 as [|x ls Hs IH Hall]; constructor; [|assumption].
  intros Hin. rewrite Forall_forall in Hall. specialize (Hall _ Hin). lia.
Qed.

(** The size of the label set is the number of distinct values of the
    two sequences together. *)
Lemma unique_labels_length (a p : list Z) :
  length (unique_labels a p) = length (nodup Z.eq_dec (a ++ p)).
Proof.
  apply Permutation_length, NoDup_Permutation.
  - apply sorted_lt_NoDup, unique_labels_sorted.
  - apply NoDup_nodup.
  - intros y. rewrite nodup_In. apply unique_labels_in.
Qed.

(** ** The metrics function on a given matrix *)

Ltac run_metrics E :=
  unfold metrics; cbn [Z.eqb Pos.eqb]; rewrite E; cbn [bind item nth_error].

(** C4: on label sequences whose confusion matrix is [[8,2],[1,9]] the
    2-class metrics are: class 0 (negative) precision 8/9, recall 8/10,
    f1 about 0.842; class 1 (positive) precision 9/11, recall 9/10,
    f1 about 0.857; accuracy 17/20 = 0.85.  The values are exact in
    the rational model and hold within 0.0005 in binary64. *)
Theorem metrics_scenario_8_2_1_9 (actual predicted : list Z) :
  confusion_matrix actual predicted = OK [[8; 2]; [1; 9]]%Z ->
  (exists (t : list npfloat) (acc p0 r0 f0 p1 r1 f1 : Q),
     metrics actual predicted 2 = OK (Some t)
     /\ nth_error t 0 = Some (Fin acc)
     /\ slot t (slot_of_class 2 0) = Some (Fin p0, Fin r0, Fin f0)
     /\ slot t (slot_of_class 2 1) = Some (Fin p1, Fin r1, Fin f1)
     /\ (acc == 17 # 20)%Q /\ (acc == 85 # 100)%Q
     /\ (p0 == 8 # 9)%Q /\ (r0 == 8 # 10)%Q
     /\ (8415 # 10000 < f0 < 8425 # 10000)%Q
     /\ (p1 == 9 # 11)%Q /\ (r1 == 9 # 10)%Q
     /\ (8565 # 10000 < f1 < 8575 # 10000)%Q)
  /\ (exists acc p1 r1 f1 p0 r0 f0 : float,
        metrics actual predicted 2 = OK (Some [acc; p1; r1; f1; p0; r0; f0])
        /\ acc = PrimFloat.div 17 20
        /\ p0 = PrimFloat.div 8 9 /\ r0 = PrimFloat.div 8 10
        /\ p1 = PrimFloat.div 9 11 /\ r1 = PrimFloat.div 9 10
        /\ PrimFloat.ltb (PrimFloat.div 8415 10000) f0 = true
        /\ PrimFloat.ltb f0 (PrimFloat.div 8425 10000) = true
        /\ PrimFloat.ltb (PrimFloat.div 8565 10000) f1 = true
        /\ PrimFloat.ltb f1 (PrimFloat.div 8575 10000) = true).
Proof.
  intros E. split.
  - do 8 eexists. split; [run_metrics E; reflexivity|].
    split; [reflexivity|]. split; [reflexivity|]. split; [reflexivity|].
    vm_compute. repeat split; congruence.
  - do 7 eexists. split; [run_metrics E; reflexivity|].
    vm_compute. repeat split.
Qed.

Lemma metrics_scenario_8_2_1_9_witness :
  confusion_matrix actual_8_2_1_9 predicted_8_2_1_9 = OK [[8; 2]; [1; 9]]%Z
  /\ exists (t : list npfloat) (acc : Q),
       metrics actual_8_2_1_9 predicted_8_2_1_9 2 = OK (Some t)
       /\ nth_error t 0 = Some (Fin acc) /\ (acc == 17 # 20)%Q.
Proof.
  assert (E : confusion_matrix actual_8_2_1_9 predicted_8_2_1_9
              = OK [[8; 2]; [1; 9]]%Z) by reflexivity.
  split; [exact E|].
  destruct (metrics_scenario_8_2_1_9 actual_8_2_1_9 predicted_8_2_1_9 E)
    as [(t & acc & p0 & r0 & f0 & p1 & r1 & f1 & Ht & Hacc & _ & _ & Hq & _) _].
  exists t, acc. auto.
Defined.

(** C1 (the code at the failing input): in 2-class mode, one actual
    negative predicted positive and one actual positive predicted
    negative give precision 0 and recall 0 for both classes; the sum of
    precision and recall is zero, no exception is raised, and both F1
    values are nan, not 0.  The same holds in binary64. *)
Theorem metrics_zero_sum_f1_is_nan :
  metrics (F:=npfloat) [0; 1] [1; 0] 2
  = OK (Some [Fin 0; Fin 0; Fin 0; NaN; Fin 0; Fin 0; NaN])
  /\ feqb (fadd (Fin 0) (Fin 0)) (of_int 0) = true
  /\ metrics (F:=float) [0; 1] [1; 0] 2
     = OK (Some [0; 0; 0; nan; 0; 0; nan]%float).
Proof. vm_compute. repeat split. Qed.


(** ** Square matrices of size 2, 3 and 5, cell by cell *)

Ltac list_of_length l :=
  repeat match goal with
  | E : length l = _ |- _ => simpl in E
  end;
  match goal with
  | E : length l = S _ |- _ =>
      let x := fresh "m" in let l' := fresh "l" in
      destruct l as [|x l']; [discriminate E|];
      simpl in E; apply Nat.succ_inj in E; list_of_length l'
  | E : length l = O |- _ =>
      destruct l; [clear E|discriminate E]
  end.

Lemma square_2 (M : list (list Z)) :
  length M = 2%nat -> Forall (fun row => length row = length M) M ->
  exists m00 m01 m10 m11, M = [[m00; m01]; [m10; m11]].
Proof.
  intros E Hrows. rewrite E in Hrows. list_of_length M.
  repeat match goal with
  | H : Forall _ (_ :: _) |- _ => inversion H; subst; clear H
  end.
  list_of_length m. list_of_length m0. repeat eexists.
Qed.

Lemma square_3 (M : list (list Z)) :
  length M = 3%nat -> Forall (fun row => length row = length M) M ->
  exists m00 m01 m02 m10 m11 m12 m20 m21 m22,
    M = [[m00; m01; m02]; [m10; m11; m12]; [m20; m21; m22]].
Proof.
  intros E Hrows. rewrite E in Hrows. list_of_length M.
  repeat match goal with
  | H : Forall _ (_ :: _) |- _ => inversion H; subst; clear H
  end.
  list_of_length m. list_of_length m0. list_of_length m1. repeat eexists.
Qed.

Lemma square_5 (M : list (list Z)) :
  length M = 5%nat -> Forall (fun row => length row = length M) M ->
  exists m00 m01 m02 m03 m04 m10 m11 m12 m13 m14 m20 m21 m22 m23 m24
         m30 m31 m32 m33 m34 m40 m41 m42 m43 m44,
    M = [[m00; m01; m02; m03; m04]; [m10; m11; m12; m13; m14];
         [m20; m21; m22; m23; m24]; [m30; m31; m32; m33; m34];
         [m40; m41; m42; m43; m44]].
Proof.
  intros E Hrows. rewrite E in Hrows. list_of_length M.
  repeat match goal with
  | H : Forall _ (_ :: _) |- _ => inversion H; subst; clear H
  end.
  list_of_length m. list_of_length m0. list_of_length m1.
  list_of_length m2. list_of_length m3. repeat eexists.
Qed.

(** ** The tuple of [metrics] in the specification's terms *)

Ltac spec_cells :=
  unfold accuracy, precision, recall, trace, total, TP, FP, FN;
  cbn [entry others zsum map filter seq negb Nat.eqb nth fold_right length];
  rewrite ?of_int_times_one.

Ltac by_cells := spec_cells; apply div_int_ext; lia.

Lemma metrics_2_spec (actual predicted : list Z) (M : list (list Z)) :
  confusion_matrix actual predicted = OK M -> length M = 2%nat ->
  metrics (F:=npfloat) actual predicted 2
  = OK (Some [accuracy M;
              precision M 1; recall M 1; f1 (precision M 1) (recall M 1);
              precision M 0; recall M 0; f1 (precision M 0) (recall M 0)]).
Proof.
  intros E Hn.
  destruct (confusion_matrix_shape _ _ E) as (_ & Hrows & _).
  destruct (square_2 Hn Hrows) as (m00 & m01 & m10 & m11 & ->).
  run_metrics E.
  assert (Ha : fdiv (fmul (of_int (m11 + m00)) (of_int 1)) (of_int (m11 + m00 + m01 + m10))
               = (accuracy [[m00; m01]; [m10; m11]] : npfloat)) by by_cells.
  assert (Hp1 : fdiv (fmul (of_int m11) (of_int 1)) (of_int (m11 + m01))
                = (precision [[m00; m01]; [m10; m11]] 1 : npfloat)) by by_cells.
  assert (Hp0 : fdiv (fmul (of_int m00) (of_int 1)) (of_int (m00 + m10))
                = (precision [[m00; m01]; [m10; m11]] 0 : npfloat)) by by_cells.
  assert (Hr1 : fdiv (fmul (of_int m11) (of_int 1)) (of_int (m11 + m10))
                = (recall [[m00; m01]; [m10; m11]] 1 : npfloat)) by by_cells.
  assert (Hr0 : fdiv (fmul (of_int m00) (of_int 1)) (of_int (m00 + m01))
                = (recall [[m00; m01]; [m10; m11]] 0 : npfloat)) by by_cells.
  rewrite Ha, Hp1, Hp0, Hr1, Hr0. reflexivity.
Qed.

Lemma metrics_3_spec (actual predicted : list Z) (M : list (list Z)) :
  confusion_matrix actual predicted = OK M -> length M = 3%nat ->
  metrics (F:=npfloat) actual predicted 3
  = OK (Some [accuracy M;
              precision M 0;
              recall M 0;
              f1 (precision M 0) (recall M 0);
              precision M 1;
              recall M 1;
              f1 (precision M 1) (recall M 1);
              precision M 2;
              recall M 2;
              f1 (precision M 2) (recall M 2)]).
Proof.
  intros E Hn.
  destruct (confusion_matrix_shape _ _ E) as (_ & Hrows & _).
  destruct (square_3 Hn Hrows) as (m00 & m01 & m02 & m10 & m11 & m12 & m20 & m21 & m22 & ->).
  run_metrics E.
  set (M := [[m00; m01; m02]; [m10; m11; m12]; [m20; m21; m22]]).
  assert (Ha : fdiv (fmul (of_int (m00 + m11 + m22)) (of_int 1)) (of_int (m00 + m11 + m22 + m10 + m12 + m01 + m21 + m20 + m02))
               = (accuracy M : npfloat)) by (subst M; by_cells).
  assert (Hp0 : fdiv (fmul (of_int m00) (of_int 1)) (of_int (m00 + m10 + m20))
                = (precision M 0 : npfloat)) by (subst M; by_cells).
  assert (Hr0 : fdiv (fmul (of_int m00) (of_int 1)) (of_int (m00 + m01 + m02))
                = (recall M 0 : npfloat)) by (subst M; by_cells).
  assert (Hp1 : fdiv (fmul (of_int m11) (of_int 1)) (of_int (m11 + m01 + m21))
                = (precision M 1 : npfloat)) by (subst M; by_cells).
  assert (Hr1 : fdiv (fmul (of_int m11) (of_int 1)) (of_int (m11 + m10 + m12))
                = (recall M 1 : npfloat)) by (subst M; by_cells).
  assert (Hp2 : fdiv (fmul (of_int m22) (of_int 1)) (of_int (m22 + m12 + m02))
                = (precision M 2 : npfloat)) by (subst M; by_cells).
  assert (Hr2 : fdiv (fmul (of_int m22) (of_int 1)) (of_int (m22 + m20 + m21))
                = (recall M 2 : npfloat)) by (subst M; by_cells).
  rewrite Ha, Hp0, Hr0, Hp1, Hr1, Hp2, Hr2. reflexivity.
Qed.

Lemma metrics_5_spec (actual predicted : list Z) (M : list (list Z)) :
  confusion_matrix actual predicted = OK M -> length M = 5%nat ->
  metrics (F:=npfloat) actual predicted 5
  = OK (Some [accuracy M;
              precision M 0;
              recall M 0;
              f1 (precision M 0) (recall M 0);
              precision M 1;
              recall M 1;
              f1_guarded (precision M 1) (recall M 1);
              precision M 2;
              recall M 2;
              f1 (precision M 2) (recall M 2);
              precision M 3;
              recall M 3;
              f1 (precision M 3) (recall M 3);
              precision M 4;
              recall M 4;
              f1 (precision M 4) (recall M 4)]).
Proof.
  intros E Hn.
  destruct (confusion_matrix_shape _ _ E) as (_ & Hrows & _).
  destruct (square_5 Hn Hrows) as (m00 & m01 & m02 & m03 & m04 & m10 & m11 & m12 & m13 & m14 & m20 & m21 & m22 & m23 & m24 & m30 & m31 & m32 & m33 & m34 & m40 & m41 & m42 & m43 & m44 & ->).
  run_metrics E.
  set (M := [[m00; m01; m02; m03; m04]; [m10; m11; m12; m13; m14]; [m20; m21; m22; m23; m24]; [m30; m31; m32; m33; m34]; [m40; m41; m42; m43; m44]]).
  assert (Ha : fdiv (fmul (of_int (m00 + m11 + m22 + m33 + m44)) (of_int 1)) (of_int (m00 + m11 + m22 + m33 + m44 + m01 + m02 + m03 + m04 + m10 + m12 + m13 + m14 + m20 + m21 + m23 + m24 + m30 + m31 + m32 + m34 + m40 + m41 + m42 + m43))
               = (accuracy M : npfloat)) by (subst M; by_cells).
  assert (Hp0 : fdiv (fmul (of_int m00) (of_int 1)) (of_int (m00 + m10 + m20 + m30 + m40))
                = (precision M 0 : npfloat)) by (subst M; by_cells).
  assert (Hr0 : fdiv (fmul (of_int m00) (of_int 1)) (of_int (m00 + m01 + m02 + m03 + m04))
                = (recall M 0 : npfloat)) by (subst M; by_cells).
  assert (Hp1 : fdiv (fmul (of_int m11) (of_int 1)) (of_int (m11 + m01 + m21 + m31 + m41))
                = (precision M 1 : npfloat)) by (subst M; by_cells).
  assert (Hr1 : fdiv (fmul (of_int m11) (of_int 1)) (of_int (m11 + m10 + m12 + m13 + m14))
                = (recall M 1 : npfloat)) by (subst M; by_cells).
  assert (Hp2 : fdiv (fmul (of_int m22) (of_int 1)) (of_int (m22 + m02 + m12 + m32 + m42))
                = (precision M 2 : npfloat)) by (subst M; by_cells).
  assert (Hr2 : fdiv (fmul (of_int m22) (of_int 1)) (of_int (m22 + m20 + m21 + m23 + m24))
                = (recall M 2 : npfloat)) by (subst M; by_cells).
  assert (Hp3 : fdiv (fmul (of_int m33) (of_int 1)) (of_int (m33 + m03 + m13 + m23 + m43))
                = (precision M 3 : npfloat)) by (subst M; by_cells).
  assert (Hr3 : fdiv (fmul (of_int m33) (of_int 1)) (of_int (m33 + m30 + m31 + m32 + m34))
                = (recall M 3 : npfloat)) by (subst M; by_cells).
  assert (Hp4 : fdiv (fmul (of_int m44) (of_int 1)) (of_int (m44 + m04 + m14 + m24 + m34))
                = (precision M 4 : npfloat)) by (subst M; by_cells).
  assert (Hr4 : fdiv (fmul (of_int m44) (of_int 1)) (of_int (m44 + m40 + m41 + m42 + m43))
                = (recall M 4 : npfloat)) by (subst M; by_cells).
  rewrite Ha, Hp0, Hr0, Hp1, Hr1, Hp2, Hr2, Hp3, Hr3, Hp4, Hr4. reflexivity.
Qed.

(** On a matrix of the size of the mode, [metrics] returns the accuracy
    and, in the slot of each class, the precision, recall and F1 of that
    class. *)
Lemma metrics_spec (actual predicted : list Z) (M : list (list Z)) (num : Z) :
  num = 2 \/ num = 3 \/ num = 5 ->
  confusion_matrix actual predicted = OK M ->
  length M = Z.to_nat num ->
  exists t : list npfloat,
    metrics actual predicted num = OK (Some t)
    /\ length t = (1 + 3 * length M)%nat
    /\ nth_error t 0 = Some (accuracy M)
    /\ forall c, (c < length M)%nat ->
         slot t (slot_of_class num c)
         = Some (precision M c, recall M c,
                 f1_of_slot num (slot_of_class num c) (precision M c) (recall M c)).
Proof.
  intros [-> | [-> | ->]] E Hn; rewrite Hn.
  - rewrite (metrics_2_spec _ _ E Hn). eexists. split; [reflexivity|].
    split; [reflexivity|]. split; [reflexivity|]. intros c Hc.
    destruct c as [|[|c]]; [reflexivity | reflexivity | simpl in Hc; lia].
  - rewrite (metrics_3_spec _ _ E Hn). eexists. split; [reflexivity|].
    split; [reflexivity|]. split; [reflexivity|]. intros c Hc.
    destruct c as [|[|[|c]]];
      [reflexivity | reflexivity | reflexivity | simpl in Hc; lia].
  - rewrite (metrics_5_spec _ _ E Hn). eexists. split; [reflexivity|].
    split; [reflexivity|]. split; [reflexivity|]. intros c Hc.
    destruct c as [|[|[|[|[|c]]]]];
      [reflexivity | reflexivity | reflexivity | reflexivity | reflexivity
      | simpl in Hc; lia].
Qed.

(** ** Accuracy *)

Lemma Q_ratio_bounds (n d : Z) :
  (0 <= n <= d)%Z -> (0 < d)%Z ->
  (0 <= inject_Z n / inject_Z d <= 1)%Q.
Proof.
  intros [Hn Hnd] Hd.
  assert (Hd' : (0 < inject_Z d)%Q) by (now rewrite (Zlt_Qlt 0 d) in Hd).
  split.
  - apply Qle_shift_div_l; [exact Hd'|]. rewrite Qmult_0_l.
    now rewrite (Zle_Qle 0 n) in Hn.
  - apply Qle_shift_div_r; [exact Hd'|]. rewrite Qmult_1_l.
    now rewrite (Zle_Qle n d) in Hnd.
Qed.

Lemma Q_ratio_nonneg (n d : Z) :
  (0 <= n)%Z -> (0 < d)%Z -> (0 <= inject_Z n / inject_Z d)%Q.
Proof.
  intros Hn Hd.
  assert (Hd' : (0 < inject_Z d)%Q) by (now rewrite (Zlt_Qlt 0 d) in Hd).
  apply Qle_shift_div_l; [exact Hd'|]. rewrite Qmult_0_l.
  now rewrite (Zle_Qle 0 n) in Hn.
Qed.

Ltac cells_nonneg :=
  repeat match goal with
  | H : Forall _ (_ :: _) |- _ => inversion H; subst; clear H
  | H : Forall _ [] |- _ => clear H
  end.

(** In a square matrix of counts of size 2, 3 or 5 the trace lies
    between 0 and the sum of the cells. *)
Lemma trace_le_total (M : list (list Z)) :
  (length M = 2 \/ length M = 3 \/ length M = 5)%nat ->
  Forall (fun row => length row = length M) M ->
  Forall (Forall (fun x => (0 <= x)%Z)) M ->
  (0 <= trace M <= total M)%Z.
Proof.
  intros [Hn | [Hn | Hn]] Hrows Hpos.
  - destruct (square_2 Hn Hrows) as (m00 & m01 & m10 & m11 & ->).
    cells_nonneg. unfold trace, total.
    cbn [entry zsum map seq nth fold_right length]. lia.
  - destruct (square_3 Hn Hrows)
      as (m00 & m01 & m02 & m10 & m11 & m12 & m20 & m21 & m22 & ->).
    cells_nonneg. unfold trace, total.
    cbn [entry zsum map seq nth fold_right length]. lia.
  - destruct (square_5 Hn Hrows)
      as (m00 & m01 & m02 & m03 & m04 & m10 & m11 & m12 & m13 & m14
          & m20 & m21 & m22 & m23 & m24 & m30 & m31 & m32 & m33 & m34
          & m40 & m41 & m42 & m43 & m44 & ->).
    cells_nonneg. unfold trace, total.
    cbn [entry zsum map seq nth fold_right length]. lia.
Qed.

Lemma zsum_nonneg (xs : list Z) :
  Forall (fun x => (0 <= x)%Z) xs -> (0 <= zsum xs)%Z.
Proof. induction 1; simpl; lia. Qed.

(** The sum of the cells is at least any one row sum. *)
Lemma row_sum_le_total (M : list (list Z)) (i : nat) :
  Forall (Forall (fun x => (0 <= x)%Z)) M ->
  (row_sum M i <= total M)%Z.
Proof.
  unfold row_sum, total. revert i.
  induction M as [|row M IH]; intros i Hpos.
  - destruct i; simpl; lia.
  - inversion Hpos as [|? ? Hrow Hrest]; subst.
    pose proof (zsum_nonneg Hrow).
    assert (0 <= zsum (map zsum M))%Z.
    { clear IH Hpos. induction Hrest as [|r M' Hr _ IH']; simpl; [lia|].
      pose proof (zsum_nonneg Hr). lia. }
    destruct i as [|i]; simpl; [lia|].
    specialize (IH i Hrest). lia.
Qed.

(** C5: for label sequences whose confusion matrix M has the size n of the
    mode (n in 2, 3, 5) and strictly positive row and column sums, the
    accuracy returned by [metrics] is the finite value trace(M) / sum(M),
    and it lies in [0, 1]. *)
Theorem metrics_accuracy_is_trace_over_total
    (actual predicted : list Z) (M : list (list Z)) (num : Z) :
  num = 2 \/ num = 3 \/ num = 5 ->
  confusion_matrix actual predicted = OK M ->
  length M = Z.to_nat num ->
  (forall i, (i < length M)%nat -> (0 < row_sum M i)%Z) ->
  (forall j, (j < length M)%nat -> (0 < col_sum M j)%Z) ->
  exists (t : list npfloat) (acc : Q),
    metrics actual predicted num = OK (Some t)
    /\ nth_error t 0 = Some (Fin acc)
    /\ (acc == inject_Z (trace M) / inject_Z (total M))%Q
    /\ (0 <= acc <= 1)%Q.
Proof.
  intros Hnum E Hn Hrow Hcol.
  destruct (confusion_matrix_shape _ _ E) as (_ & Hrows & Hpos).
  destruct (metrics_spec _ _ Hnum E Hn) as (t & Ht & _ & Hacc & _).
  assert (Hlen : (length M = 2 \/ length M = 3 \/ length M = 5)%nat).
  { rewrite Hn. destruct Hnum as [-> | [-> | ->]]; auto. }
  pose proof (trace_le_total Hlen Hrows Hpos) as Htr.
  assert (Htot : (0 < total M)%Z).
  { assert (H0 : (0 < length M)%nat) by lia.
    pose proof (Hrow 0%nat H0). pose proof (row_sum_le_total 0 Hpos). lia. }
  exists t, (Qred (inject_Z (trace M) / inject_Z (total M))).
  split; [exact Ht|]. split.
  - rewrite Hacc. unfold accuracy. now rewrite div_int_pos.
  - split; [apply Qred_correct|]. rewrite Qred_correct.
    now apply Q_ratio_bounds.
Qed.

(** ** Undefined precision and recall *)

Lemma entry_nonneg (M : list (list Z)) (i j : nat) :
  Forall (Forall (fun x => (0 <= x)%Z)) M -> (0 <= entry M i j)%Z.
Proof.
  intros Hpos. unfold entry.
  destruct (nth_in_or_default i M []) as [Hin | ->].
  - rewrite Forall_forall in Hpos. specialize (Hpos _ Hin).
    destruct (nth_in_or_default j (nth i M []) 0%Z) as [Hin' | ->]; [|lia].
    rewrite Forall_forall in Hpos. now apply Hpos.
  - destruct j; simpl; lia.
Qed.

Lemma TP_nonneg (M : list (list Z)) (c : nat) :
  Forall (Forall (fun x => (0 <= x)%Z)) M -> (0 <= TP M c)%Z.
Proof. intros. now apply entry_nonneg. Qed.

Lemma FP_nonneg (M : list (list Z)) (c : nat) :
  Forall (Forall (fun x => (0 <= x)%Z)) M -> (0 <= FP M c)%Z.
Proof.
  intros Hpos. unfold FP. apply zsum_nonneg, Forall_forall.
  intros x Hx. apply in_map_iff in Hx. destruct Hx as [r [<- _]].
  now apply entry_nonneg.
Qed.

Lemma FN_nonneg (M : list (list Z)) (c : nat) :
  Forall (Forall (fun x => (0 <= x)%Z)) M -> (0 <= FN M c)%Z.
Proof.
  intros Hpos. unfold FN. apply zsum_nonneg, Forall_forall.
  intros x Hx. apply in_map_iff in Hx. destruct Hx as [r [<- _]].
  now apply entry_nonneg.
Qed.

(** ** The F1 guard *)

Lemma div_int_count_ratio (n d : Z) :
  (0 <= n)%Z -> (0 <= d)%Z -> count_ratio (fdiv (of_int n) (of_int d)).
Proof.
  intros Hn Hd. destruct (Z.eq_dec d 0) as [-> | Hd0].
  - cbn. unfold Qsgn. simpl. destruct n; [now left | right; now left | lia].
  - right; right. rewrite div_int_pos by lia. eexists. split; [reflexivity|].
    rewrite Qred_correct. apply Q_ratio_nonneg; lia.
Qed.

(** Without the guard, a zero sum of precision and recall gives nan. *)
Lemma f1_zero_sum (p r : npfloat) :
  count_ratio p -> count_ratio r ->
  feqb (fadd p r) (of_int 0) = true -> f1 p r = NaN.
Proof.
  unfold f1.
  intros [-> | [-> | (a & -> & Ha)]] [-> | [-> | (b & -> & Hb)]];
    try (cbn; discriminate).
  cbn [fadd fmul fdiv feqb of_int npfloat_Float64 np_add np_mul np_eqb].
  unfold fin. intros E.
  assert (Hd : np_div (Fin (Qred (a * b))) (Fin (Qred (a + b))) = NaN).
  { unfold np_div. change (Qeq_bool (Qred (a + b)) 0 = true) in E. rewrite E.
    apply Qeq_bool_iff in E. rewrite Qred_correct in E.
    assert (Ha0 : (a == 0)%Q).
    { apply Qle_antisym; [|exact Ha].
      rewrite <- E. rewrite <- (Qplus_0_r a) at 1.
      now apply Qplus_le_r. }
    assert (Hab : (a * b == 0)%Q) by (rewrite Ha0; ring).
    rewrite (Qred_complete _ _ Hab). reflexivity. }
  rewrite Hd. reflexivity.
Qed.

(** The extent of the guard: when precision_c + recall_c == 0, the F1
    reported for class c is 0 in the one guarded place, [f1_2] of 5-class
    mode, and nan everywhere else. *)
Lemma metrics_f1_on_zero_sum
    (actual predicted : list Z) (M : list (list Z)) (num : Z) (c : nat) :
  num = 2 \/ num = 3 \/ num = 5 ->
  confusion_matrix actual predicted = OK M ->
  length M = Z.to_nat num ->
  (c < length M)%nat ->
  feqb (fadd (precision M c) (recall M c)) (of_int 0) = true ->
  exists (t : list npfloat) (p r : npfloat),
    metrics actual predicted num = OK (Some t)
    /\ slot t (slot_of_class num c)
       = Some (p, r, if ((num =? 5)%Z && (c =? 1)%nat)%bool then Fin 0 else NaN).
Proof.
  intros Hnum E Hn Hc Hsum.
  destruct (confusion_matrix_shape _ _ E) as (_ & _ & Hpos).
  destruct (metrics_spec _ _ Hnum E Hn) as (t & Ht & _ & _ & Hslot).
  exists t, (precision M c), (recall M c). split; [exact Ht|].
  rewrite (Hslot c Hc). do 2 f_equal.
  pose proof (TP_nonneg c Hpos). pose proof (FP_nonneg c Hpos).
  pose proof (FN_nonneg c Hpos).
  assert (Hp : count_ratio (precision M c))
    by (apply div_int_count_ratio; lia).
  assert (Hr : count_ratio (recall M c))
    by (apply div_int_count_ratio; lia).
  unfold f1_of_slot, slot_of_class.
  destruct Hnum as [-> | [-> | ->]]; cbn [Z.eqb Pos.eqb andb];
    try (now apply f1_zero_sum).
  destruct (Nat.eqb_spec c 1) as [-> | Hc1]; cbn [andb].
  - unfold f1_guarded. now rewrite Hsum.
  - now apply f1_zero_sum.
Qed.

(** C3 (counterexample): in 3-class mode, on actual labels 0, 1 and
    predictions 0, 0, class 1 is never predicted (TP_1 + FP_1 = 0) and
    class 2 occurs nowhere; the confusion matrix has two rows only and
    [metrics] raises IndexError instead of reporting an undefined
    precision. *)
Lemma absent_class_raises :
  confusion_matrix [0; 1] [0; 0] = OK [[1; 0]; [1; 0]]
  /\ (TP [[1; 0]; [1; 0]] 1 + FP [[1; 0]; [1; 0]] 1 = 0)%Z
  /\ (TP [[1; 0]; [1; 0]] 2 + FP [[1; 0]; [1; 0]] 2 = 0)%Z
  /\ metrics (F:=npfloat) [0; 1] [0; 0] 3 = Raise IndexError
  /\ metrics (F:=float) [0; 1] [0; 0] 3 = Raise IndexError.
Proof. repeat split; reflexivity. Qed.

(** C3 (as the code has it): for label sequences whose confusion matrix M
    has the size of the mode, and every class c: [metrics] returns a tuple
    (it does not raise) that holds, in the slot of c, the precision
    TP_c / (TP_c + FP_c) and the recall TP_c / (TP_c + FN_c) of c; if
    TP_c + FP_c = 0 that precision is nan, and if TP_c + FN_c = 0 that
    recall is nan.  (numpy divides 0.0 by 0 to nan.) *)
Theorem metrics_undefined_is_nan
    (actual predicted : list Z) (M : list (list Z)) (num : Z) (c : nat) :
  num = 2 \/ num = 3 \/ num = 5 ->
  confusion_matrix actual predicted = OK M ->
  length M = Z.to_nat num ->
  (c < length M)%nat ->
  exists (t : list npfloat) (p r f : npfloat),
    metrics actual predicted num = OK (Some t)
    /\ slot t (slot_of_class num c) = Some (p, r, f)
    /\ p = fdiv (of_int (TP M c)) (of_int (TP M c + FP M c))
    /\ r = fdiv (of_int (TP M c)) (of_int (TP M c + FN M c))
    /\ ((TP M c + FP M c = 0)%Z -> p = NaN)
    /\ ((TP M c + FN M c = 0)%Z -> r = NaN).
Proof.
  intros Hnum E Hn Hc.
  destruct (confusion_matrix_shape _ _ E) as (_ & _ & Hpos).
  destruct (metrics_spec _ _ Hnum E Hn) as (t & Ht & _ & _ & Hslot).
  exists t. do 3 eexists. split; [exact Ht|].
  split; [exact (Hslot c Hc)|].
  split; [reflexivity|]. split; [reflexivity|].
  pose proof (TP_nonneg c Hpos). pose proof (FP_nonneg c Hpos).
  pose proof (FN_nonneg c Hpos).
  split; intros Hz; [unfold precision | unfold recall]; rewrite Hz;
    replace (TP M c) with 0%Z by lia; apply div_int_zero_zero.
Qed.

(** ** Too few labels *)

Lemma item_row_out (M : list (list Z)) (i j : nat) :
  (length M <= i)%nat -> item M i j = Raise IndexError.
Proof.
  intros H. unfold item. now rewrite (proj2 (nth_error_None M i) H).
Qed.

Lemma bind_item_raise {B} (M : list (list Z)) (i j : nat)
    (k : Z -> result B) :
  (forall x, k x = Raise IndexError) ->
  bind (item M i j) k = Raise IndexError.
Proof.
  intros Hk. unfold item.
  destruct (nth_error M i) as [row|]; [|reflexivity].
  destruct (nth_error row j) as [x|]; [apply Hk | reflexivity].
Qed.

Ltac raise_at_item :=
  repeat match goal with
  | |- bind (item ?M ?i ?j) _ = _ =>
      first [ rewrite (@item_row_out M i j) by lia; reflexivity
            | apply bind_item_raise; intros ? ]
  end.

(** C10: when the two label sequences (of the same length) jointly hold
    fewer distinct values than [num], the confusion matrix is smaller than
    num x num and [metrics] raises IndexError instead of returning. *)
Theorem metrics_too_few_labels {F : Type} `{Float64 F}
    (actual predicted : list Z) (num : Z) :
  num = 2 \/ num = 3 \/ num = 5 ->
  length actual = length predicted ->
  (Z.of_nat (length (nodup Z.eq_dec (actual ++ predicted))) < num)%Z ->
  metrics (F:=F) actual predicted num = Raise IndexError.
Proof.
  intros Hnum Hlen Hfew.
  rewrite <- unique_labels_length in Hfew.
  pose proof (confusion_matrix_same_length _ _ Hlen) as E.
  destruct (confusion_matrix_shape _ _ E) as (Hn & _ & _).
  rewrite <- Hn in Hfew.
  remember (map (fun i => map (fun j => cell actual predicted i j)
                              (unique_labels actual predicted))
                (unique_labels actual predicted)) as M eqn:HM.
  clear HM Hn.
  destruct Hnum as [-> | [-> | ->]];
    unfold metrics; cbn [Z.eqb Pos.eqb]; rewrite E;
    unfold bind at 1; raise_at_item.
Qed.

(** ** The loops of [preprocess] *)

Section PreprocessFacts.
Context {F : Type} `{Float64 F}.
Variable clean : bool -> string -> string.
Variable self : classifier F.
Variable remove_stop_words : bool.

Lemma pre_app_init_r (st : pre_state) : pre_app st pre_init = st.
Proof.
  destruct st. unfold pre_app; simpl.
  now rewrite !app_nil_r, !Z.add_0_r.
Qed.

Lemma pre_app_assoc (s1 s2 s3 : pre_state) :
  pre_app (pre_app s1 s2) s3 = pre_app s1 (pre_app s2 s3).
Proof.
  unfold pre_app; simpl. now rewrite <- !app_assoc, <- !Z.add_assoc.
Qed.

Lemma keep_app (st : pre_state) (text : string) (rating pos neg neut : Z) :
  keep clean remove_stop_words st text rating pos neg neut
  = pre_app st (keep clean remove_stop_words pre_init text rating pos neg neut).
Proof. reflexivity. Qed.

Lemma count_neutral_app (st : pre_state) :
  count_neutral st = pre_app st (count_neutral pre_init).
Proof.
  destruct st. unfold count_neutral, pre_app; simpl.
  now rewrite !app_nil_r, !Z.add_0_r.
Qed.

Lemma step2_app (st : pre_state) (r : review F) :
  step2 clean self remove_stop_words st r
  = pre_app st (step2 clean self remove_stop_words pre_init r).
Proof.
  unfold step2. destruct (comment r).
  - destruct (_ && _); [apply count_neutral_app|].
    destruct (fleb _ _); apply keep_app.
  - symmetry. apply pre_app_init_r.
Qed.

Lemma step3_app (st : pre_state) (r : review F) :
  step3 clean self remove_stop_words st r
  = pre_app st (step3 clean self remove_stop_words pre_init r).
Proof.
  unfold step3. destruct (comment r).
  - destruct (_ && _); [apply keep_app|].
    destruct (fleb _ _); apply keep_app.
  - symmetry. apply pre_app_init_r.
Qed.

Lemma step5_app (st : pre_state) (r : review F) :
  step5 clean remove_stop_words st r
  = pre_app st (step5 clean remove_stop_words pre_init r).
Proof.
  unfold step5. destruct (comment r).
  - repeat (destruct (feqb _ _); [apply keep_app|]). apply keep_app.
  - symmetry. apply pre_app_init_r.
Qed.

(** A loop whose body only appends: the final state is the initial one
    continued by each row's own contribution, in order. *)
Lemma fold_left_app (step : pre_state -> review F -> pre_state)
    (rows : list (review F)) (st : pre_state) :
  (forall s r, step s r = pre_app s (step pre_init r)) ->
  fold_left step rows st
  = pre_app st (fold_left step rows pre_init).
Proof.
  intros Hstep. revert st.
  induction rows as [|r rows IH]; intros st; simpl.
  - symmetry. apply pre_app_init_r.
  - rewrite IH. rewrite (IH (step pre_init r)).
    rewrite (Hstep st r). apply pre_app_assoc.
Qed.

Lemma fold_left_target (step : pre_state -> review F -> pre_state)
    (rows : list (review F)) :
  (forall s r, step s r = pre_app s (step pre_init r)) ->
  target (fold_left step rows pre_init)
  = flat_map (fun r => target (step pre_init r)) rows
  /\ reviews (fold_left step rows pre_init)
     = flat_map (fun r => reviews (step pre_init r)) rows.
Proof.
  intros Hstep. induction rows as [|r rows [IHt IHr]]; simpl; [now split|].
  rewrite (fold_left_app _ _ _ Hstep). simpl. now rewrite IHt, IHr.
Qed.

End PreprocessFacts.

(** ** Order facts of the exact float model *)

Lemma np_leb_not_ltb (x y : npfloat) :
  fleb x y = true -> fltb y x = false.
Proof.
  destruct x as [a| | |], y as [b| | |]; cbn; try reflexivity; try discriminate.
  intros ->. reflexivity.
Qed.

Lemma np_ltb_leb_trans (lo hi x : npfloat) :
  fltb lo hi = true -> fleb hi x = true -> fleb x lo = false.
Proof.
  destruct lo as [a| | |], hi as [b| | |], x as [c| | |]; cbn;
    try reflexivity; try discriminate.
  intros Hlt Hle. apply negb_true_iff in Hlt.
  destruct (Qle_bool c a) eqn:Hca; [|reflexivity].
  apply Qle_bool_iff in Hle, Hca.
  assert (Hba : (b <= a)%Q) by (eapply Qle_trans; eassumption).
  apply Qle_bool_iff in Hba. congruence.
Qed.

(** ** The 2-class labeler *)

(** C7: in 2-class mode the returned target and data are made of the
    rows' own contributions, in order; a row with a text comment
    contributes label 0 and its cleaned comment when rating <=
    negative_threshold, label 1 and its cleaned comment when rating >=
    positive_threshold (the thresholds being in order), and nothing at all
    when the rating is strictly between the thresholds.  With the default
    thresholds 2.0 and 4.0, rating 3 is dropped, 2 gives class 0 and 4
    gives class 1. *)
Theorem preprocess_2_labels (Row : Type)
    (clean : bool -> string -> string)
    (vectorize : vectorizer_kind -> list string -> result (list Row))
    (self : classifier npfloat) (remove_stop_words : bool)
    (rows : list (review npfloat))
    (data : list Row) (tgt : list Z) (info : list (string * Z)) :
  preprocess clean vectorize self remove_stop_words rows 2
  = OK (data, tgt, info) ->
  tgt = flat_map
          (fun r => target (step2 clean self remove_stop_words pre_init r)) rows
  /\ vectorize (vectorizer self)
       (flat_map
          (fun r => reviews (step2 clean self remove_stop_words pre_init r)) rows)
     = OK data
  /\ (forall r text, comment r = Text text ->
        let kept := step2 clean self remove_stop_words pre_init r in
        (fleb (rating r) (negative_threshold self) = true ->
           target kept = [0%Z] /\ reviews kept = [clean remove_stop_words text])
        /\ (fltb (negative_threshold self) (positive_threshold self) = true ->
            fleb (positive_threshold self) (rating r) = true ->
            target kept = [1%Z] /\ reviews kept = [clean remove_stop_words text])
        /\ (fltb (negative_threshold self) (rating r) = true ->
            fltb (rating r) (positive_threshold self) = true ->
            target kept = [] /\ reviews kept = []))
  /\ (let default := __init__ None None None false in
      negative_threshold default = Fin 2
      /\ positive_threshold default = Fin 4
      /\ forall text,
           let label stars :=
             target (step2 clean default remove_stop_words pre_init
                       {| comment := Text text; rating := of_int stars |}) in
           label 3%Z = [] /\ label 2%Z = [0%Z] /\ label 4%Z = [1%Z]).
Proof.
  intros E. unfold preprocess, label_reviews in E. cbn [Z.eqb Pos.eqb] in E.
  destruct (fold_left_target (step2 clean self remove_stop_words) rows
              (step2_app clean self remove_stop_words)) as [Ht Hr].
  rewrite Hr in E.
  destruct (vectorize _ _) as [d|e] eqn:Ev; cbn [bind] in E; [|discriminate].
  injection E as <- <- _. split; [exact Ht|]. split; [reflexivity|]. split.
  - intros r text Hc. unfold step2. rewrite Hc. cbv zeta. split; [|split].
    + intros Hneg. rewrite (np_leb_not_ltb _ _ Hneg). cbn [andb].
      rewrite Hneg. now split.
    + intros Hord Hpos.
      rewrite (np_leb_not_ltb _ _ Hpos), andb_false_r.
      rewrite (np_ltb_leb_trans _ _ _ Hord Hpos). now split.
    + intros Hlo Hhi. rewrite Hlo, Hhi. now split.
  - cbv zeta. repeat split.
Qed.

(** ** Thresholds are not validated *)

(** C8 (counterexample): a classifier built with negative_threshold 4.0
    and positive_threshold 2.0 is accepted, and labelling a file with it
    returns normally. *)
Lemma misordered_thresholds_accepted :
  negative_threshold misordered_classifier = Fin 4
  /\ positive_threshold misordered_classifier = Fin 2
  /\ fleb (positive_threshold misordered_classifier)
          (negative_threshold misordered_classifier) = true
  /\ preprocess stub_clean stub_vectorize misordered_classifier true
       sample_rows 2
     = OK (["good"; "bad"; "bad"; "good"; "meh"; "good"; "bad"; "good"]%string,
           [1; 0; 0; 0; 0; 0; 1; 1]%Z,
           [("positive"%string, 3%Z); ("negative"%string, 5%Z);
            ("neutral"%string, 0%Z)]).
Proof. vm_compute. repeat split. Qed.

(** C8 (as the code has it): the constructor checks nothing.  Whatever
    the thresholds, in order or not, it returns a classifier holding each
    given threshold, or the default 2.0 / 4.0 when the argument is None or
    zero. *)
Theorem init_accepts_any_thresholds {F : Type} `{Float64 F}
    (classifier_type : option string) (neg pos : option F) (use_tfidf : bool) :
  let self := __init__ classifier_type neg pos use_tfidf in
  negative_threshold self
  = match neg with
    | Some v => if feqb v (of_int 0) then of_int 2 else v
    | None => of_int 2
    end
  /\ positive_threshold self
     = match pos with
       | Some v => if feqb v (of_int 0) then of_int 4 else v
       | None => of_int 4
       end.
Proof.
  cbv zeta. split.
  - destruct neg as [v|]; [|reflexivity]. cbn. now destruct (feqb v _).
  - destruct pos as [v|]; [|reflexivity]. cbn. now destruct (feqb v _).
Qed.

(** ** Malformed rows *)

Section SkippedFacts.
Context {F : Type} `{Float64 F}.
Variable clean : bool -> string -> string.
Variable self : classifier F.
Variable remove_stop_words : bool.



Lemma counted_fold (step : pre_state -> review F -> pre_state)
    (rows : list (review F)) :
  (forall s r, step s r = pre_app s (step pre_init r)) ->
  (forall r, counted (step pre_init r) = if malformed r then 0 else 1)%Z ->
  counted (fold_left step rows pre_init)
  = (Z.of_nat (length rows) - Z.of_nat (skipped rows))%Z.
Proof.
  intros Happ Hone. unfold skipped.
  induction rows as [|r rows IH]; [reflexivity|].
  cbn [fold_left]. rewrite (fold_left_app _ _ _ Happ).
  assert (Hc : forall a b, counted (pre_app a b) = (counted a + counted b)%Z)
    by (intros; unfold counted, pre_app; simpl; lia).
  rewrite Hc, IH, Hone. cbn [filter length].
  destruct (malformed r); cbn [length]; lia.
Qed.

Lemma counted_label_reviews (rows : list (review F)) (num : Z) :
  num = 2 \/ num = 3 \/ num = 5 ->
  counted (label_reviews clean self remove_stop_words rows num)
  = (Z.of_nat (length rows) - Z.of_nat (skipped rows))%Z.
Proof.
  intros [-> | [-> | ->]]; unfold label_reviews; cbn [Z.eqb Pos.eqb];
    apply counted_fold;
    try apply step2_app; try apply step3_app; try apply step5_app;
    intros r; unfold malformed, step2, step3, step5;
    destruct (comment r); try reflexivity;
    repeat match goal with
    | |- context [if ?b then _ else _] => destruct b
    end; reflexivity.
Qed.

End SkippedFacts.



(** ** The k-fold driver *)

Section DriverFacts.
Context {F : Type} `{Float64 F}.
Variable Row Model : Type.
Variable fit : option string -> list Row -> list Z -> result Model.
Variable predict : Model -> list Row -> result (list Z).
Variable self : classifier F.
Variable data : list Row.
Variable target : list Z.
Variable num : Z.

Lemma fold_body_metrics (l : fold_lists) (fold : list nat * list nat) :
  fold_body fit predict self data target num l fold
  = (t <- fold_metrics fit predict self data target num fold ;;
     append_fold num l t).
Proof.
  unfold fold_body, fold_metrics, fold_labels, evaluate_accuracy.
  destruct fold as [train test].
  repeat match goal with
  | |- context [bind ?r _] =>
      lazymatch r with
      | getitems _ _ => destruct r; cbn [bind]; [|reflexivity]
      | fit _ _ _ => destruct r; cbn [bind]; [|reflexivity]
      | predict _ _ => destruct r; cbn [bind]; [|reflexivity]
      end
  end.
  reflexivity.
Qed.

Lemma append_fold_some (l l' : fold_lists) (t : option (list F)) :
  append_fold num l t = OK l' -> exists tuple, t = Some tuple.
Proof.
  unfold append_fold.
  destruct (num =? 2)%Z; [|destruct (num =? 3)%Z; [|destruct (num =? 5)%Z]];
    destruct t as [tuple|]; try discriminate; intros _; now exists tuple.
Qed.

(** Along a run of the loop that returns, a per-fold list that receives
    position [i] of the tuples grows by that position of each fold's tuple,
    in fold order. *)
Lemma loop_column (proj : fold_lists -> list F) (i : nat)
    (splits : list (list nat * list nat)) (l l' : fold_lists) :
  appends_position num proj i ->
  for_each (fold_body fit predict self data target num) splits l = OK l' ->
  exists xs,
    Forall2 (fun fold x =>
               exists t, fold_metrics fit predict self data target num fold
                         = OK (Some t)
                         /\ nth_error t i = Some x) splits xs
    /\ proj l' = proj l ++ xs.
Proof.
  intros Hcol. revert l.
  induction splits as [|fold splits IH]; intros l E; cbn [for_each] in E.
  - injection E as <-. exists []. split; [constructor | now rewrite app_nil_r].
  - rewrite fold_body_metrics in E.
    destruct (fold_metrics _ _ _ _ _ _ fold) as [t|e] eqn:Em;
      cbn [bind] in E; [|discriminate].
    destruct (append_fold num l t) as [l1|e] eqn:Ea; cbn [bind] in E;
      [|discriminate].
    destruct (append_fold_some _ _ Ea) as [tuple ->].
    destruct (Hcol _ _ _ Ea) as (x & Hx & Hl1).
    destruct (IH _ E) as (xs & Hxs & Hl').
    exists (x :: xs). split.
    + constructor; [now exists tuple | exact Hxs].
    + rewrite Hl', Hl1, <- app_assoc. reflexivity.
Qed.

End DriverFacts.

Section AppendFacts.
Context {F : Type} `{Float64 F}.

Ltac position_of_append :=
  let l := fresh "l" in let t := fresh "t" in let l' := fresh "l'" in
  let E := fresh "E" in
  intros l t l' E; unfold append_fold in E; cbn [Z.eqb Pos.eqb] in E;
  repeat (destruct t as [|? t]; try discriminate E);
  injection E as <-; eexists; split; reflexivity.

(** Which position of the tuple each per-fold list receives. *)
Lemma appends_positions_2 :
  appends_position (F:=F) 2 (@accuracies F) 0
  /\ appends_position 2 (@class_1_precisions F) 1
  /\ appends_position 2 (@class_1_recalls F) 2
  /\ appends_position 2 (@class_1_f1s F) 3
  /\ appends_position 2 (@class_2_precisions F) 4
  /\ appends_position 2 (@class_2_recalls F) 5
  /\ appends_position 2 (@class_2_f1s F) 6.
Proof. repeat split; position_of_append. Qed.

Lemma appends_positions_3 :
  appends_position (F:=F) 3 (@accuracies F) 0
  /\ appends_position 3 (@class_1_precisions F) 1
  /\ appends_position 3 (@class_1_recalls F) 2
  /\ appends_position 3 (@class_1_f1s F) 3
  /\ appends_position 3 (@class_2_precisions F) 4
  /\ appends_position 3 (@class_2_recalls F) 5
  /\ appends_position 3 (@class_2_f1s F) 6
  /\ appends_position 3 (@class_3_precisions F) 7
  /\ appends_position 3 (@class_3_recalls F) 8
  /\ appends_position 3 (@class_3_f1s F) 9.
Proof. repeat split; position_of_append. Qed.

Lemma appends_positions_5 :
  appends_position (F:=F) 5 (@accuracies F) 0
  /\ appends_position 5 (@class_1_precisions F) 1
  /\ appends_position 5 (@class_1_recalls F) 2
  /\ appends_position 5 (@class_1_f1s F) 3
  /\ appends_position 5 (@class_2_precisions F) 4
  /\ appends_position 5 (@class_2_recalls F) 5
  /\ appends_position 5 (@class_2_f1s F) 6
  /\ appends_position 5 (@class_3_precisions F) 7
  /\ appends_position 5 (@class_3_recalls F) 8
  /\ appends_position 5 (@class_3_f1s F) 9
  /\ appends_position 5 (@class_4_precisions F) 10
  /\ appends_position 5 (@class_4_recalls F) 11
  /\ appends_position 5 (@class_4_f1s F) 12
  /\ appends_position 5 (@class_5_precisions F) 13
  /\ appends_position 5 (@class_5_recalls F) 14
  /\ appends_position 5 (@class_5_f1s F) 15.
Proof. repeat split; position_of_append. Qed.

End AppendFacts.

(** ** The report *)

Section ReportFacts.
Context {F : Type} `{Float64 F}.

Ltac pick_pair := repeat first [left; reflexivity | right].

Ltac scan_report Hget key :=
  cbn [get] in Hget;
  repeat match type of Hget with
  | context [String.eqb ?k key] =>
      destruct (String.eqb_spec k key) as [<- | _];
      [ first
          [ discriminate Hget
          | injection Hget as <-; do 2 eexists;
            split; [simpl; pick_pair | split; reflexivity] ]
      | ]
  end;
  try discriminate Hget.

(** Every average of the report is 100 times the mean of the per-fold
    list reported with it. *)
Lemma report_averages (num : Z) (l : fold_lists) (rep : list (string * value)) :
  report num l = OK rep ->
  forall key x,
    get rep key = Some (Num x) ->
    exists seq_key xs,
      In (seq_key, key) (report_pairs num)
      /\ get rep seq_key = Some (Seq xs)
      /\ x = fmul (mean xs) (of_int 100).
Proof.
  unfold report.
  destruct (Z.eqb_spec num 2) as [-> | _];
    [| destruct (Z.eqb_spec num 3) as [-> | _];
       [| destruct (Z.eqb_spec num 5) as [-> | _]; [| discriminate ] ] ];
    intros E key x Hget; injection E as <-; scan_report Hget key.
Qed.

(** Every pair of keys of the mode is in the report. *)
Lemma report_has_pairs (num : Z) (l : fold_lists) (rep : list (string * value)) :
  report num l = OK rep ->
  Forall (fun pair =>
            exists xs, get rep (fst pair) = Some (Seq xs)
                       /\ get rep (snd pair)
                          = Some (Num (fmul (mean xs) (of_int 100))))
         (report_pairs num).
Proof.
  unfold report.
  destruct (Z.eqb_spec num 2) as [-> | _];
    [| destruct (Z.eqb_spec num 3) as [-> | _];
       [| destruct (Z.eqb_spec num 5) as [-> | _]; [| discriminate ] ] ];
    intros E; injection E as <-;
    repeat (constructor; [eexists; split; reflexivity|]); constructor.
Qed.

End ReportFacts.

(** C2 (counterexample): on the sample file, with 2 folds in 2-class mode,
    the per-fold accuracies are 3/4 and 2/3, whose mean is 17/24, and the
    reported average accuracy is 425/6 (about 70.8): a percentage, not the
    mean of the list reported with it. *)
Lemma average_is_not_the_mean :
  exists rep : list (string * value (F:=npfloat)),
    evaluate_average_accuracy stub_clean stub_vectorize stub_split stub_fit
      stub_predict default_classifier sample_rows 2 2 = OK rep
    /\ get rep "accuracies" = Some (Seq [Fin (3 # 4); Fin (2 # 3)])
    /\ mean [Fin (3 # 4); Fin (2 # 3)] = Fin (17 # 24)
    /\ get rep "average_accuracy" = Some (Num (Fin (425 # 6)))
    /\ Fin (425 # 6) <> Fin (17 # 24).
Proof.
  eexists. split; [vm_compute; reflexivity|].
  repeat split; try reflexivity. discriminate.
Qed.

(** C2 (as the code has it): in a run of [evaluate_average_accuracy] that
    returns, every average of the report is 100 times the arithmetic mean
    of the per-fold list reported with it, and the report holds every such
    pair of its mode. *)
Theorem averages_are_percent_means {F : Type} `{Float64 F} (Row Model : Type)
    (clean : bool -> string -> string)
    (vectorize : vectorizer_kind -> list string -> result (list Row))
    (split : Z -> list Row -> list Z -> result (list (list nat * list nat)))
    (fit : option string -> list Row -> list Z -> result Model)
    (predict : Model -> list Row -> result (list Z))
    (self : classifier F) (rows : list (review F)) (n_folds num : Z)
    (rep : list (string * value)) :
  evaluate_average_accuracy clean vectorize split fit predict self rows
    n_folds num = OK rep ->
  (forall key x,
     get rep key = Some (Num x) ->
     exists seq_key xs,
       In (seq_key, key) (report_pairs num)
       /\ get rep seq_key = Some (Seq xs)
       /\ x = fmul (mean xs) (of_int 100))
  /\ Forall (fun pair =>
               exists xs, get rep (fst pair) = Some (Seq xs)
                          /\ get rep (snd pair)
                             = Some (Num (fmul (mean xs) (of_int 100))))
            (report_pairs num).
Proof.
  unfold evaluate_average_accuracy. intros E.
  destruct (preprocess _ _ _ _ _ _) as [[[data target] info]|e];
    cbn [bind] in E; [|discriminate].
  destruct (split _ _ _) as [splits|e]; cbn [bind] in E; [|discriminate].
  destruct (for_each _ _ _) as [l|e]; cbn [bind] in E; [|discriminate].
  split; [now apply (report_averages _ _ E) | now apply (report_has_pairs _ _ E)].
Qed.

Lemma averages_are_percent_means_witness :
  exists rep : list (string * value (F:=npfloat)),
    evaluate_average_accuracy stub_clean stub_vectorize stub_split stub_fit
      stub_predict default_classifier sample_rows 2 2 = OK rep
    /\ forall key x,
         get rep key = Some (Num x) ->
         exists seq_key xs,
           In (seq_key, key) (report_pairs 2)
           /\ get rep seq_key = Some (Seq xs)
           /\ x = fmul (mean xs) (of_int 100).
Proof.
  eexists. split; [vm_compute; reflexivity|].
  apply (averages_are_percent_means stub_clean stub_vectorize stub_split
           stub_fit stub_predict default_classifier sample_rows 2 2).
  vm_compute; reflexivity.
Defined.

(** ** Class slots and names *)

Lemma slot_positions {F : Type} (t : list F) (k : nat) (p r f : F) :
  slot t k = Some (p, r, f) ->
  nth_error t (1 + 3 * k) = Some p
  /\ nth_error t (2 + 3 * k) = Some r
  /\ nth_error t (3 + 3 * k) = Some f.
Proof.
  unfold slot.
  destruct (nth_error t (1 + 3 * k)); [|discriminate].
  destruct (nth_error t (2 + 3 * k)); [|discriminate].
  destruct (nth_error t (3 + 3 * k)); [|discriminate].
  now intros [= -> -> ->].
Qed.

Lemma append_fold_ok {F : Type} `{Float64 F} (num : Z) (l : fold_lists)
    (t : list F) :
  num = 2 \/ num = 3 \/ num = 5 ->
  length t = (1 + 3 * Z.to_nat num)%nat ->
  exists l', append_fold num l (Some t) = OK l'.
Proof.
  intros [-> | [-> | ->]] Hlen; unfold append_fold; cbn [Z.eqb Pos.eqb];
    change (Z.to_nat 2) with 2%nat in Hlen;
    change (Z.to_nat 3) with 3%nat in Hlen;
    change (Z.to_nat 5) with 5%nat in Hlen;
    cbn [Nat.add Nat.mul] in Hlen;
    list_of_length t; eexists; reflexivity.
Qed.

Lemma Forall2_map_eq {A B C : Type} (R1 : A -> B -> Prop) (R2 : A -> C -> Prop)
    (g : B -> C) (xs : list A) (ys : list B) (zs : list C) :
  (forall x y z, R1 x y -> R2 x z -> z = g y) ->
  Forall2 R1 xs ys -> Forall2 R2 xs zs -> zs = map g ys.
Proof.
  intros Hg H1. revert zs.
  induction H1 as [|x y xs ys Hxy _ IH]; intros zs H2; inversion H2; subst.
  - reflexivity.
  - simpl. f_equal; [eapply Hg; eassumption | now apply IH].
Qed.

Section NamedEntries.
Variable Row Model : Type.
Variable fit : option string -> list Row -> list Z -> result Model.
Variable predict : Model -> list Row -> result (list Z).
Variable self : classifier npfloat.
Variable data : list Row.
Variable target : list Z.
Variable num : Z.
Hypothesis Hnum : num = 2 \/ num = 3 \/ num = 5.

Lemma fold_matrix_metrics (fold : list nat * list nat) (M : list (list Z)) :
  (fold_has_matrix fit predict self data target num) fold M ->
  exists t,
    fold_metrics fit predict self data target num fold = OK (Some t)
    /\ length t = (1 + 3 * Z.to_nat num)%nat
    /\ forall c, (c < length M)%nat ->
         slot t (slot_of_class num c)
         = Some (precision M c, recall M c,
                 f1_of_slot num (slot_of_class num c)
                   (precision M c) (recall M c)).
Proof.
  intros (y & p & El & Ec & Hn).
  destruct (metrics_spec _ _ Hnum Ec Hn) as (t & Ht & Hlen & _ & Hslot).
  exists t. unfold fold_metrics. rewrite El. cbn [bind].
  rewrite <- Hn. auto.
Qed.

(** When every fold has a matrix of the size of the mode, the loop over
    the folds returns. *)
Lemma loop_returns (splits : list (list nat * list nat))
    (Ms : list (list (list Z))) (l : fold_lists) :
  Forall2 (fold_has_matrix fit predict self data target num) splits Ms ->
  exists l', for_each (fold_body fit predict self data target num) splits l
             = OK l'.
Proof.
  intros HM. revert l. induction HM as [|fold M splits Ms HfM _ IH]; intros l.
  - now exists l.
  - cbn [for_each]. rewrite fold_body_metrics.
    destruct (fold_matrix_metrics HfM) as (t & Ht & Hlen & _).
    rewrite Ht. cbn [bind].
    destruct (append_fold_ok l _ Hnum Hlen) as (l1 & ->). cbn [bind]. apply IH.
Qed.

(** The per-fold list that receives the precision, recall or F1 position
    of class [c] holds, fold by fold, that metric of the fold's matrix. *)
Lemma loop_class_column (splits : list (list nat * list nat))
    (Ms : list (list (list Z))) (l' : fold_lists) (c : nat)
    (projp projr projf : fold_lists -> list npfloat) :
  (Z.of_nat c < num)%Z ->
  appends_position num projp (1 + 3 * slot_of_class num c) ->
  appends_position num projr (2 + 3 * slot_of_class num c) ->
  appends_position num projf (3 + 3 * slot_of_class num c) ->
  projp no_folds = [] -> projr no_folds = [] -> projf no_folds = [] ->
  Forall2 (fold_has_matrix fit predict self data target num) splits Ms ->
  for_each (fold_body fit predict self data target num) splits no_folds
  = OK l' ->
  projp l' = map (fun M => precision M c) Ms
  /\ projr l' = map (fun M => recall M c) Ms
  /\ projf l' = map (fun M => f1_of_slot num (slot_of_class num c)
                                (precision M c) (recall M c)) Ms.
Proof.
  intros Hc Hp Hr Hf Hp0 Hr0 Hf0 HM E.
  assert (Hcol : forall i (g : list (list Z) -> npfloat) proj,
            appends_position num proj i -> proj no_folds = [] ->
            (forall fold M t,
               (fold_has_matrix fit predict self data target num) fold M ->
               fold_metrics fit predict self data target num fold = OK (Some t) ->
               nth_error t i = Some (g M)) ->
            proj l' = map g Ms).
  { intros i g proj Hpos H0 Hg.
    destruct (loop_column _ _ _ _ _ _ _ Hpos E) as (xs & Hxs & ->).
    rewrite H0. cbn [app].
    eapply Forall2_map_eq; [|exact HM|exact Hxs].
    intros fold M x HfM (t & Ht & Hx). cbv beta in *.
    specialize (Hg fold M t HfM Ht). congruence. }
  assert (Hslot : forall fold M t,
            (fold_has_matrix fit predict self data target num) fold M ->
            fold_metrics fit predict self data target num fold = OK (Some t) ->
            slot t (slot_of_class num c)
            = Some (precision M c, recall M c,
                    f1_of_slot num (slot_of_class num c)
                      (precision M c) (recall M c))).
  { intros fold M t HfM Ht.
    destruct (fold_matrix_metrics HfM) as (t' & Ht' & _ & Hs).
    assert (t' = t) by congruence. subst t'.
    apply Hs. destruct HfM as (_ & _ & _ & _ & Hn). lia. }
  repeat split; eapply Hcol; try eassumption; intros fold M t HfM Ht;
    apply (slot_positions _ _ (Hslot fold M t HfM Ht)).
Qed.

End NamedEntries.

(** C6 (counterexample): on the scenario matrix [[8,2],[1,9]] in 2-class
    mode, the first class slot of the tuple holds the metrics of class 1
    (precision 9/11), not those of class 0 (precision 8/9): the classes do
    not come in class-index order. *)
Lemma two_class_slots_not_in_index_order :
  exists (t : list npfloat) (M : list (list Z)),
    confusion_matrix actual_8_2_1_9 predicted_8_2_1_9 = OK M
    /\ metrics actual_8_2_1_9 predicted_8_2_1_9 2 = OK (Some t)
    /\ slot t 0 = Some (precision M 1, recall M 1,
                        f1 (precision M 1) (recall M 1))
    /\ precision M 1 = Fin (9 # 11)
    /\ precision M 0 = Fin (8 # 9)
    /\ slot t 0 <> Some (precision M 0, recall M 0,
                         f1 (precision M 0) (recall M 0)).
Proof.
  do 2 eexists. split; [reflexivity|]. split; [reflexivity|].
  vm_compute. repeat split. discriminate.
Qed.

(** In 3-class mode the entry named positive holds the precision of class
    index 0, the label [preprocess] gives to negative reviews, and not
    that of class index 2, the positive label. *)
Lemma three_class_names_shifted :
  exists (rep : list (string * value (F:=npfloat))) (M1 M2 : list (list Z)),
    evaluate_average_accuracy stub_clean stub_vectorize stub_split stub_fit
      stub_predict default_classifier sample_rows 2 3 = OK rep
    /\ confusion_matrix [2; 0; 1; 2] [1; 0; 0; 0] = OK M1
    /\ confusion_matrix [0; 2; 0; 2] [0; 1; 1; 1] = OK M2
    /\ named_class 3 "positive" = Some 2%nat
    /\ get rep "positive_precisions"
       = Some (Seq [precision M1 0; precision M2 0])
    /\ [precision M1 0; precision M2 0] = [Fin (1 # 3); Fin 1]
    /\ [precision M1 2; precision M2 2] = [NaN; NaN].
Proof.
  do 3 eexists. split; [vm_compute; reflexivity|].
  split; [reflexivity|]. split; [reflexivity|].
  vm_compute. repeat split.
Qed.

Ltac named_entries L HM El c pp pr pf :=
  let Hp := fresh "Hp" in let Hr := fresh "Hr" in let Hf := fresh "Hf" in
  destruct (L c pp pr pf) as (Hp & Hr & Hf);
  [ lia | assumption | assumption | assumption
  | reflexivity | reflexivity | reflexivity | exact HM | exact El | ];
  rewrite <- Hp, <- Hr, <- Hf; repeat split; reflexivity.

Ltac split_names Hname name :=
  unfold named_class in Hname; cbn [Z.eqb Pos.eqb] in Hname;
  repeat match type of Hname with
  | context [String.eqb name ?k] =>
      destruct (String.eqb_spec name k) as [-> | _]
  end; try discriminate Hname; injection Hname as <-.

(** C6 (as the code has it): on a confusion matrix of the size of the
    mode, [metrics] reports class c in slot c in the 3- and 5-class modes,
    and in 2-class mode the positive class (index 1) in the first slot and
    the negative class (index 0) in the second.  In the 2- and 5-class
    modes, when every fold has a matrix of the size of the mode, the run
    returns a report whose entries named after a class hold, fold by fold,
    the precision, recall and F1 of that class. *)
Theorem class_slots_and_names :
  (forall (actual predicted : list Z) (M : list (list Z)) (num : Z) (c : nat),
      num = 2 \/ num = 3 \/ num = 5 ->
      confusion_matrix actual predicted = OK M ->
      length M = Z.to_nat num ->
      (c < length M)%nat ->
      exists t : list npfloat,
        metrics actual predicted num = OK (Some t)
        /\ slot t (if (num =? 2)%Z then (1 - c)%nat else c)
           = Some (precision M c, recall M c,
                   f1_of_slot num (slot_of_class num c)
                     (precision M c) (recall M c)))
  /\ (forall (Row Model : Type)
        (clean : bool -> string -> string)
        (vectorize : vectorizer_kind -> list string -> result (list Row))
        (split : Z -> list Row -> list Z -> result (list (list nat * list nat)))
        (fit : option string -> list Row -> list Z -> result Model)
        (predict : Model -> list Row -> result (list Z))
        (self : classifier npfloat) (rows : list (review npfloat))
        (n_folds num : Z)
        (data : list Row) (target : list Z) (info : list (string * Z))
        (splits : list (list nat * list nat)) (Ms : list (list (list Z))),
        num = 2 \/ num = 5 ->
        preprocess clean vectorize self true rows num = OK (data, target, info) ->
        split n_folds data target = OK splits ->
        Forall2 (fun fold M =>
                   exists y_test preds,
                     fold_labels fit predict self data target fold
                     = OK (y_test, preds)
                     /\ confusion_matrix y_test preds = OK M
                     /\ length M = Z.to_nat num) splits Ms ->
        exists rep,
          evaluate_average_accuracy clean vectorize split fit predict self
            rows n_folds num = OK rep
          /\ forall name c,
               named_class num name = Some c ->
               get rep (append name "_precisions")
               = Some (Seq (map (fun M => precision M c) Ms))
               /\ get rep (append name "_recalls")
                  = Some (Seq (map (fun M => recall M c) Ms))
               /\ get rep (append name "_f1_scores")
                  = Some (Seq (map (fun M =>
                                      f1_of_slot num (slot_of_class num c)
                                        (precision M c) (recall M c)) Ms))).
Proof.
  split.
  - intros actual predicted M num c Hnum E Hn Hc.
    destruct (metrics_spec _ _ Hnum E Hn) as (t & Ht & _ & _ & Hslot).
    exists t. split; [exact Ht|]. exact (Hslot c Hc).
  - intros Row Model clean vectorize split fit predict self rows n_folds num
      data target info splits Ms Hnum Epre Esplit HM.
    assert (Hnum' : num = 2 \/ num = 3 \/ num = 5) by tauto.
    destruct (@loop_returns _ _ fit predict self data target num Hnum'
                splits Ms no_folds HM) as (l' & El).
    unfold evaluate_average_accuracy.
    rewrite Epre. cbn [bind]. rewrite Esplit. cbn [bind].
    rewrite El. cbn [bind].
    pose proof (@loop_class_column Row Model fit predict self data target
                  num Hnum' splits Ms l') as L.
    destruct Hnum as [-> | ->]; unfold report; cbn [Z.eqb Pos.eqb];
      (eexists; split; [reflexivity|]); intros name c Hname.
    + pose proof (appends_positions_2 (F:=npfloat))
        as (_ & A1 & A2 & A3 & A4 & A5 & A6).
      split_names Hname name.
      * named_entries L HM El 0%nat (@class_2_precisions npfloat)
          (@class_2_recalls npfloat) (@class_2_f1s npfloat).
      * named_entries L HM El 1%nat (@class_1_precisions npfloat)
          (@class_1_recalls npfloat) (@class_1_f1s npfloat).
    + pose proof (appends_positions_5 (F:=npfloat))
        as (_ & B1 & B2 & B3 & B4 & B5 & B6 & B7 & B8 & B9 & B10 & B11 & B12
            & B13 & B14 & B15).
      split_names Hname name.
      * named_entries L HM El 0%nat (@class_1_precisions npfloat)
          (@class_1_recalls npfloat) (@class_1_f1s npfloat).
      * named_entries L HM El 1%nat (@class_2_precisions npfloat)
          (@class_2_recalls npfloat) (@class_2_f1s npfloat).
      * named_entries L HM El 2%nat (@class_3_precisions npfloat)
          (@class_3_recalls npfloat) (@class_3_f1s npfloat).
      * named_entries L HM El 3%nat (@class_4_precisions npfloat)
          (@class_4_recalls npfloat) (@class_4_f1s npfloat).
      * named_entries L HM El 4%nat (@class_5_precisions npfloat)
          (@class_5_recalls npfloat) (@class_5_f1s npfloat).
Qed.

(** ** The theorems at concrete inputs *)

(** C3 at a concrete input: class 1 is never predicted (TP_1 + FP_1 = 0),
    its precision is nan; in binary64 as well. *)
Lemma metrics_undefined_is_nan_witness :
  confusion_matrix [0; 1; 1] [0; 0; 0] = OK [[1; 0]; [2; 0]]
  /\ (TP [[1; 0]; [2; 0]] 1 + FP [[1; 0]; [2; 0]] 1 = 0)%Z
  /\ (exists (t : list npfloat) (r f : npfloat),
        metrics [0; 1; 1] [0; 0; 0] 2 = OK (Some t)
        /\ slot t 0 = Some (NaN, r, f))
  /\ metrics (F:=float) [0; 1; 1] [0; 0; 0] 2
     = OK (Some [PrimFloat.div 1 3; nan; 0; nan;
                 PrimFloat.div 1 3; 1; PrimFloat.div 1 2]%float).
Proof.
  assert (E : confusion_matrix [0; 1; 1] [0; 0; 0] = OK [[1; 0]; [2; 0]])
    by reflexivity.
  assert (Hz : (TP [[1; 0]; [2; 0]] 1 + FP [[1; 0]; [2; 0]] 1 = 0)%Z)
    by reflexivity.
  split; [exact E|]. split; [exact Hz|]. split; [|vm_compute; reflexivity].
  destruct (metrics_undefined_is_nan [0; 1; 1] [0; 0; 0] (num:=2) (c:=1)
              (or_introl eq_refl) E eq_refl (Nat.lt_succ_diag_r 1))
    as (t & p & r & f & Ht & Hs & _ & _ & Hp & _).
  exists t, r, f. split; [exact Ht|]. now rewrite <- (Hp Hz).
Defined.

(** C5 at the scenario matrix. *)
Lemma metrics_accuracy_is_trace_over_total_witness :
  confusion_matrix actual_8_2_1_9 predicted_8_2_1_9 = OK [[8; 2]; [1; 9]]
  /\ exists (t : list npfloat) (acc : Q),
       metrics actual_8_2_1_9 predicted_8_2_1_9 2 = OK (Some t)
       /\ nth_error t 0 = Some (Fin acc)
       /\ (acc == inject_Z 17 / inject_Z 20)%Q
       /\ (0 <= acc <= 1)%Q.
Proof.
  assert (E : confusion_matrix actual_8_2_1_9 predicted_8_2_1_9
              = OK [[8; 2]; [1; 9]]) by reflexivity.
  split; [exact E|].
  apply (metrics_accuracy_is_trace_over_total actual_8_2_1_9 predicted_8_2_1_9
           (num:=2) (or_introl eq_refl) E eq_refl).
  - intros i Hi. destruct i as [|[|i]]; [reflexivity | reflexivity |].
    simpl in Hi. lia.
  - intros j Hj. destruct j as [|[|j]]; [reflexivity | reflexivity |].
    simpl in Hj. lia.
Defined.

(** C10 at a concrete input: every label is the single class 0. *)
Lemma metrics_too_few_labels_witness :
  (Z.of_nat (length (nodup Z.eq_dec ([0; 0; 0] ++ [0; 0; 0]))) < 2)%Z
  /\ metrics (F:=npfloat) [0; 0; 0] [0; 0; 0] 2 = Raise IndexError
  /\ metrics (F:=float) [0; 0; 0] [0; 0; 0] 2 = Raise IndexError.
Proof.
  assert (Hfew : (Z.of_nat (length (nodup Z.eq_dec ([0; 0; 0] ++ [0; 0; 0])))
                  < 2)%Z) by (vm_compute; reflexivity).
  split; [exact Hfew|]. split.
  - exact (metrics_too_few_labels (F:=npfloat) [0; 0; 0] [0; 0; 0]
             (or_introl eq_refl) eq_refl Hfew).
  - exact (metrics_too_few_labels (F:=float) [0; 0; 0] [0; 0; 0]
             (or_introl eq_refl) eq_refl Hfew).
Defined.

(** C7 on the sample file with the default thresholds. *)
Lemma preprocess_2_labels_witness :
  preprocess stub_clean stub_vectorize default_classifier true sample_rows 2
  = OK (["good"; "bad"; "bad"; "good"; "good"; "bad"; "good"]%string,
        [1; 0; 0; 1; 0; 1; 1]%Z,
        [("positive"%string, 4%Z); ("negative"%string, 3%Z);
         ("neutral"%string, 1%Z)])
  /\ [1; 0; 0; 1; 0; 1; 1]%Z
     = flat_map
         (fun r => target (step2 stub_clean default_classifier true pre_init r))
         sample_rows.
Proof.
  assert (E : preprocess stub_clean stub_vectorize default_classifier true
                sample_rows 2
              = OK (["good"; "bad"; "bad"; "good"; "good"; "bad"; "good"]%string,
                    [1; 0; 0; 1; 0; 1; 1]%Z,
                    [("positive"%string, 4%Z); ("negative"%string, 3%Z);
                     ("neutral"%string, 1%Z)])) by reflexivity.
  split; [exact E|].
  exact (proj1 (preprocess_2_labels _ _ _ _ _ E)).
Defined.


(** C6 on the scenario matrix (slots) and on the sample file with two
    folds in 2-class mode (names). *)
Lemma class_slots_and_names_witness :
  (exists t : list npfloat,
     metrics actual_8_2_1_9 predicted_8_2_1_9 2 = OK (Some t)
     /\ slot t 1
        = Some (precision [[8; 2]; [1; 9]] 0, recall [[8; 2]; [1; 9]] 0,
                f1 (precision [[8; 2]; [1; 9]] 0) (recall [[8; 2]; [1; 9]] 0)))
  /\ (exists rep : list (string * value (F:=npfloat)),
        evaluate_average_accuracy stub_clean stub_vectorize stub_split
          stub_fit stub_predict default_classifier sample_rows 2 2 = OK rep
        /\ get rep "negative_precisions"
           = Some (Seq [precision [[1; 1]; [0; 2]] 0;
                        precision [[1; 0]; [1; 1]] 0])
        /\ get rep "positive_recalls"
           = Some (Seq [recall [[1; 1]; [0; 2]] 1;
                        recall [[1; 0]; [1; 1]] 1])).
Proof.
  pose proof class_slots_and_names as [Hslots Hnames]. split.
  - exact (Hslots actual_8_2_1_9 predicted_8_2_1_9 [[8; 2]; [1; 9]] 2 0%nat
             (or_introl eq_refl) eq_refl eq_refl Nat.lt_0_2).
  - destruct (Hnames string unit stub_clean stub_vectorize stub_split stub_fit
                stub_predict default_classifier sample_rows 2 2
                ["good"; "bad"; "bad"; "good"; "good"; "bad"; "good"]%string
                [1; 0; 0; 1; 0; 1; 1]
                [("positive"%string, 4); ("negative"%string, 3);
                 ("neutral"%string, 1)]
                [([1; 3; 5]%nat, [0; 2; 4; 6]%nat);
                 ([0; 2; 4; 6]%nat, [1; 3; 5]%nat)]
                [[[1; 1]; [0; 2]]; [[1; 0]; [1; 1]]]
                (or_introl eq_refl) eq_refl eq_refl)
      as (rep & Hrep & Hentries).
    + repeat constructor.
      * exists [1; 0; 0; 1], [1; 0; 1; 1]. repeat split.
      * exists [0; 1; 1], [0; 1; 0]. repeat split.
    + exists rep. split; [exact Hrep|].
      destruct (Hentries "negative"%string 0%nat eq_refl) as (Hp & _).
      destruct (Hentries "positive"%string 1%nat eq_refl) as (_ & Hr & _).
      split; assumption.
Defined.

(* ================================================================== *)
(** * Further properties of the code *)

From Stdlib Require Import Lqa.

(** ** [metrics]: when it returns *)

Lemma item_in_range (M : list (list Z)) (i j : nat) :
  Forall (fun row => length row = length M) M ->
  (i < length M)%nat -> (j < length M)%nat ->
  exists x, item M i j = OK x.
Proof.
  intros Hrows Hi Hj. unfold item.
  destruct (nth_error M i) as [row|] eqn:Ei.
  - assert (Hrow : length row = length M).
    { rewrite Forall_forall in Hrows. apply Hrows.
      eapply nth_error_In; eassumption. }
    destruct (nth_error row j) as [x|] eqn:Ej; [now exists x|].
    apply nth_error_None in Ej. lia.
  - apply nth_error_None in Ei. lia.
Qed.

Lemma bind_item_returns {B} (M : list (list Z)) (i j : nat)
    (k : Z -> result B) (P : B -> Prop) :
  Forall (fun row => length row = length M) M ->
  (i < length M)%nat -> (j < length M)%nat ->
  (forall x, exists b, k x = OK b /\ P b) ->
  exists b, bind (item M i j) k = OK b /\ P b.
Proof.
  intros Hrows Hi Hj Hk.
  destruct (item_in_range Hrows Hi Hj) as [x ->]. apply Hk.
Qed.

Ltac all_items_return Hrows :=
  repeat match goal with
  | |- exists b, bind (item ?M ?i ?j) _ = OK b /\ _ =>
      apply (@bind_item_returns _ M i j _ _ Hrows); [lia | lia | intros ?]
  end.

(** X1: when the two label sequences have the same length and jointly
    hold at least [num] distinct values, [metrics] returns a tuple of
    1 + 3 * num values (it does not raise), in every float model. *)
Theorem metrics_returns_with_enough_labels {F : Type} `{Float64 F}
    (actual predicted : list Z) (num : Z) :
  num = 2 \/ num = 3 \/ num = 5 ->
  length actual = length predicted ->
  (num <= Z.of_nat (length (nodup Z.eq_dec (actual ++ predicted))))%Z ->
  exists t : option (list F),
    metrics actual predicted num = OK t
    /\ exists tuple, t = Some tuple
                     /\ length tuple = Z.to_nat (1 + 3 * num).
Proof.
  intros Hnum Hlen Hmany.
  rewrite <- unique_labels_length in Hmany.
  pose proof (confusion_matrix_same_length _ _ Hlen) as E.
  destruct (confusion_matrix_shape _ _ E) as (Hn & Hrows & _).
  rewrite <- Hn in Hmany.
  remember (map (fun i => map (fun j => cell actual predicted i j)
                              (unique_labels actual predicted))
                (unique_labels actual predicted)) as M eqn:HM.
  clear HM Hn.
  destruct Hnum as [-> | [-> | ->]];
    unfold metrics; cbn [Z.eqb Pos.eqb]; rewrite E;
    unfold bind at 1; all_items_return Hrows;
    (eexists; split; [reflexivity|]; eexists; split; reflexivity).
Qed.

Lemma metrics_returns_with_enough_labels_witness :
  (2 <= Z.of_nat (length (nodup Z.eq_dec ([0; 1; 2] ++ [2; 1; 0]))))%Z
  /\ exists t : option (list npfloat),
       metrics [0; 1; 2] [2; 1; 0] 2 = OK t
       /\ exists tuple, t = Some tuple
                        /\ length tuple = Z.to_nat (1 + 3 * 2).
Proof.
  assert (Hmany : (2 <= Z.of_nat
                         (length (nodup Z.eq_dec ([0; 1; 2] ++ [2; 1; 0]))))%Z)
    by (vm_compute; discriminate).
  split; [exact Hmany|].
  exact (metrics_returns_with_enough_labels (F:=npfloat) [0; 1; 2] [2; 1; 0]
           (or_introl eq_refl) eq_refl Hmany).
Defined.

(** ** [metrics]: the range of the values *)

Lemma div_int_proportion (n d : Z) :
  (0 <= n <= d)%Z -> proportion_or_nan (fdiv (of_int n) (of_int d)).
Proof.
  intros Hnd. destruct (Z.eq_dec d 0) as [-> | Hd].
  - left. replace n with 0%Z by lia. reflexivity.
  - right. rewrite div_int_pos by lia. eexists. split; [reflexivity|].
    rewrite Qred_correct. apply Q_ratio_bounds; lia.
Qed.

Lemma harmonic_bounds (a b : Q) :
  (0 <= a <= 1)%Q -> (0 <= b <= 1)%Q -> ~ (a + b == 0)%Q ->
  (0 <= 2 * (a * b / (a + b)) <= 1)%Q.
Proof.
  intros [Ha0 Ha1] [Hb0 Hb1] Hsum.
  assert (Hpos : (0 < a + b)%Q).
  { apply Qnot_le_lt. intros Hle. apply Hsum. apply Qle_antisym; [exact Hle|].
    lra. }
  assert (Hab : (0 <= a * b)%Q) by nra.
  assert (Hq : (0 <= a * b / (a + b))%Q).
  { apply Qle_shift_div_l; [exact Hpos|]. lra. }
  split; [lra|].
  assert (Hle : (a * b / (a + b) <= 1 # 2)%Q).
  { apply Qle_shift_div_r; [exact Hpos|]. nra. }
  lra.
Qed.

Lemma f1_proportion (p r : npfloat) :
  proportion_or_nan p -> proportion_or_nan r -> proportion_or_nan (f1 p r).
Proof.
  unfold f1.
  intros [-> | (a & -> & Ha)] [-> | (b & -> & Hb)];
    try (left; reflexivity).
  cbn [fadd fmul fdiv of_int npfloat_Float64 np_add np_mul].
  unfold fin.
  destruct (Qeq_bool (Qred (a + b)) 0) eqn:E0.
  - left. unfold np_div. rewrite E0.
    apply Qeq_bool_iff in E0. rewrite Qred_correct in E0.
    assert (Hab : (a * b == 0)%Q) by nra.
    rewrite (Qred_complete _ _ Hab). reflexivity.
  - right. unfold np_div. rewrite E0. unfold fin.
    eexists. split; [reflexivity|].
    assert (Hsum : ~ (a + b == 0)%Q).
    { intros Hz. apply Qeq_bool_neq in E0. apply E0. now rewrite Qred_correct. }
    rewrite !Qred_correct.
    change (inject_Z 2) with 2%Q.
    now apply harmonic_bounds.
Qed.

Lemma f1_guarded_proportion (p r : npfloat) :
  proportion_or_nan p -> proportion_or_nan r ->
  proportion_or_nan (f1_guarded p r).
Proof.
  intros Hp Hr. unfold f1_guarded.
  destruct (feqb (fadd p r) (of_int 0)); [|now apply f1_proportion].
  right. exists 0%Q. split; [reflexivity | lra].
Qed.

Lemma precision_proportion (M : list (list Z)) (c : nat) :
  Forall (Forall (fun x => (0 <= x)%Z)) M ->
  proportion_or_nan (precision M c).
Proof.
  intros Hpos. pose proof (TP_nonneg c Hpos). pose proof (FP_nonneg c Hpos).
  apply div_int_proportion. lia.
Qed.

Lemma recall_proportion (M : list (list Z)) (c : nat) :
  Forall (Forall (fun x => (0 <= x)%Z)) M ->
  proportion_or_nan (recall M c).
Proof.
  intros Hpos. pose proof (TP_nonneg c Hpos). pose proof (FN_nonneg c Hpos).
  apply div_int_proportion. lia.
Qed.

(** X2: on label sequences whose confusion matrix has the size of the
    mode, every value [metrics] returns (the accuracy and each precision,
    recall and F1) is either nan or a proportion between 0 and 1. *)
Theorem metrics_values_are_proportions
    (actual predicted : list Z) (M : list (list Z)) (num : Z) :
  num = 2 \/ num = 3 \/ num = 5 ->
  confusion_matrix actual predicted = OK M ->
  length M = Z.to_nat num ->
  exists t : list npfloat,
    metrics actual predicted num = OK (Some t)
    /\ Forall proportion_or_nan t.
Proof.
  intros Hnum E Hn.
  destruct (confusion_matrix_shape _ _ E) as (_ & Hrows & Hpos).
  assert (Hacc : proportion_or_nan (accuracy M)).
  { apply div_int_proportion. apply trace_le_total; try assumption.
    rewrite Hn. destruct Hnum as [-> | [-> | ->]]; auto. }
  pose proof (fun c => precision_proportion c Hpos) as Hp.
  pose proof (fun c => recall_proportion c Hpos) as Hr.
  destruct Hnum as [-> | [-> | ->]];
    [ rewrite (metrics_2_spec _ _ E Hn)
    | rewrite (metrics_3_spec _ _ E Hn)
    | rewrite (metrics_5_spec _ _ E Hn) ];
    (eexists; split; [reflexivity|]);
    repeat (constructor;
            [ first [ exact Hacc | apply Hp | apply Hr
                    | apply f1_proportion; [apply Hp | apply Hr]
                    | apply f1_guarded_proportion; [apply Hp | apply Hr] ] | ]);
    constructor.
Qed.

Lemma metrics_values_are_proportions_witness :
  confusion_matrix [0; 1; 1] [0; 0; 0] = OK [[1; 0]; [2; 0]]
  /\ exists t : list npfloat,
       metrics [0; 1; 1] [0; 0; 0] 2 = OK (Some t)
       /\ Forall proportion_or_nan t.
Proof.
  assert (E : confusion_matrix [0; 1; 1] [0; 0; 0] = OK [[1; 0]; [2; 0]])
    by reflexivity.
  split; [exact E|].
  exact (metrics_values_are_proportions [0; 1; 1] [0; 0; 0] (num:=2)
           (or_introl eq_refl) E eq_refl).
Defined.

(** ** [metrics]: perfect predictions *)

Lemma cell_off_diagonal (a : list Z) (i j : Z) :
  i <> j -> cell a a i j = 0%Z.
Proof.
  intros Hij. unfold cell.
  replace (filter _ (combine a a)) with (@nil (Z * Z)); [reflexivity|].
  induction a as [|x a IH]; [reflexivity|]. simpl.
  destruct (Z.eqb_spec x i); destruct (Z.eqb_spec x j); simpl;
    try exact IH. lia.
Qed.

Lemma cell_diagonal_pos (a : list Z) (i : Z) :
  In i a -> (0 < cell a a i i)%Z.
Proof.
  intros Hin. unfold cell.
  induction a as [|x a IH]; [destruct Hin|]. simpl.
  destruct (Z.eqb_spec x i); cbn [andb length].
  - lia.
  - destruct Hin as [-> | Hin]; [contradiction | now apply IH].
Qed.

Lemma div_int_same (n d : Z) :
  n = d -> (0 < n)%Z -> fdiv (of_int n) (of_int d) = Fin 1.
Proof.
  intros <- Hn. rewrite div_int_pos by exact Hn.
  rewrite (Qred_complete _ 1); [reflexivity|].
  apply Qmult_inv_r. intros H0.
  rewrite (inject_Z_injective n 0) in H0. lia.
Qed.

Lemma unique_labels_self_length (a : list Z) :
  length (unique_labels a a) = length (nodup Z.eq_dec a).
Proof.
  apply Permutation_length, NoDup_Permutation.
  - apply sorted_lt_NoDup, unique_labels_sorted.
  - apply NoDup_nodup.
  - intros y. rewrite nodup_In, unique_labels_in, in_app_iff. tauto.
Qed.

Ltac sorted_labels :=
  repeat match goal with
  | H : StronglySorted _ (_ :: _) |- _ => inversion H; subst; clear H
  | H : Forall _ (_ :: _) |- _ => inversion H; subst; clear H
  | H : Forall _ [] |- _ => clear H
  | H : StronglySorted _ [] |- _ => clear H
  end.

Ltac all_ones :=
  spec_cells;
  repeat match goal with
  | |- context [cell ?a ?a ?i ?j] =>
      rewrite (@cell_off_diagonal a i j) by lia
  end;
  apply div_int_same; lia.

(** X3: when the predictions equal the actual labels and exactly [num]
    distinct labels occur, [metrics] returns accuracy 1 and precision,
    recall and F1 equal to 1 for every class. *)
Theorem metrics_perfect_predictions (actual : list Z) (num : Z) :
  num = 2 \/ num = 3 \/ num = 5 ->
  Z.of_nat (length (nodup Z.eq_dec actual)) = num ->
  exists t : list npfloat,
    metrics actual actual num = OK (Some t)
    /\ Forall (fun x => x = Fin 1) t.
Proof.
  intros Hnum Hlabels.
  rewrite <- unique_labels_self_length in Hlabels.
  pose proof (confusion_matrix_same_length actual actual eq_refl) as E.
  pose proof (unique_labels_sorted actual actual) as Hsorted.
  assert (Hin : forall y, In y (unique_labels actual actual) -> In y actual).
  { intros y Hy. apply unique_labels_in in Hy. apply in_app_iff in Hy. tauto. }
  remember (unique_labels actual actual) as labels eqn:Hl. clear Hl.
  destruct Hnum as [-> | [-> | ->]].
  - assert (Hn : length labels = 2%nat) by lia. list_of_length labels.
    sorted_labels.
    pose proof (cell_diagonal_pos actual m (Hin _ (or_introl eq_refl))).
    pose proof (cell_diagonal_pos actual m0
                  (Hin _ (or_intror (or_introl eq_refl)))).
    cbn [map] in E. rewrite (metrics_2_spec _ _ E eq_refl).
    eexists. split; [reflexivity|].
    assert (Ha : accuracy (F:=npfloat)
                   [[cell actual actual m m; cell actual actual m m0];
                    [cell actual actual m0 m; cell actual actual m0 m0]]
                 = Fin 1) by all_ones.
    rewrite Ha.
    repeat match goal with
    | |- context [precision ?M ?c] =>
        replace (precision (F:=npfloat) M c) with (Fin 1)
          by (symmetry; all_ones)
    | |- context [recall ?M ?c] =>
        replace (recall (F:=npfloat) M c) with (Fin 1)
          by (symmetry; all_ones)
    end.
    repeat constructor.
  - assert (Hn : length labels = 3%nat) by lia. list_of_length labels.
    sorted_labels.
    pose proof (cell_diagonal_pos actual m (Hin _ (or_introl eq_refl))).
    pose proof (cell_diagonal_pos actual m0
                  (Hin _ (or_intror (or_introl eq_refl)))).
    pose proof (cell_diagonal_pos actual m1
                  (Hin _ (or_intror (or_intror (or_introl eq_refl))))).
    cbn [map] in E. rewrite (metrics_3_spec _ _ E eq_refl).
    eexists. split; [reflexivity|].
    match goal with
    | |- context [accuracy ?M] =>
        replace (accuracy (F:=npfloat) M) with (Fin 1)
          by (symmetry; all_ones)
    end.
    repeat match goal with
    | |- context [precision ?M ?c] =>
        replace (precision (F:=npfloat) M c) with (Fin 1)
          by (symmetry; all_ones)
    | |- context [recall ?M ?c] =>
        replace (recall (F:=npfloat) M c) with (Fin 1)
          by (symmetry; all_ones)
    end.
    repeat constructor.
  - assert (Hn : length labels = 5%nat) by lia. list_of_length labels.
    sorted_labels.
    pose proof (cell_diagonal_pos actual m (Hin _ (or_introl eq_refl))).
    pose proof (cell_diagonal_pos actual m0
                  (Hin _ (or_intror (or_introl eq_refl)))).
    pose proof (cell_diagonal_pos actual m1
                  (Hin _ (or_intror (or_intror (or_introl eq_refl))))).
    pose proof (cell_diagonal_pos actual m2
                  (Hin _ (or_intror (or_intror (or_intror
                            (or_introl eq_refl)))))).
    pose proof (cell_diagonal_pos actual m3
                  (Hin _ (or_intror (or_intror (or_intror (or_intror
                            (or_introl eq_refl))))))).
    cbn [map] in E. rewrite (metrics_5_spec _ _ E eq_refl).
    eexists. split; [reflexivity|].
    match goal with
    | |- context [accuracy ?M] =>
        replace (accuracy (F:=npfloat) M) with (Fin 1)
          by (symmetry; all_ones)
    end.
    repeat match goal with
    | |- context [precision ?M ?c] =>
        replace (precision (F:=npfloat) M c) with (Fin 1)
          by (symmetry; all_ones)
    | |- context [recall ?M ?c] =>
        replace (recall (F:=npfloat) M c) with (Fin 1)
          by (symmetry; all_ones)
    end.
    repeat constructor.
Qed.

Lemma metrics_perfect_predictions_witness :
  Z.of_nat (length (nodup Z.eq_dec [3; 1; 2; 1; 3])) = 3%Z
  /\ exists t : list npfloat,
       metrics [3; 1; 2; 1; 3] [3; 1; 2; 1; 3] 3 = OK (Some t)
       /\ Forall (fun x => x = Fin 1) t.
Proof.
  assert (Hlabels : Z.of_nat (length (nodup Z.eq_dec [3; 1; 2; 1; 3])) = 3%Z)
    by reflexivity.
  split; [exact Hlabels|].
  exact (metrics_perfect_predictions [3; 1; 2; 1; 3]
           (or_intror (or_introl eq_refl)) Hlabels).
Defined.

(** ** [preprocess]: the 3-class and 5-class labelers *)

Section LabelerFacts.
Context {F : Type} `{Float64 F}.
Variable clean : bool -> string -> string.
Variable self : classifier F.
Variable remove_stop_words : bool.

Lemma flat_map_length_filter {A B : Type} (f : A -> list B) (keep : A -> bool)
    (xs : list A) :
  (forall x, length (f x) = if keep x then 1%nat else 0%nat) ->
  length (flat_map f xs) = length (filter keep xs).
Proof.
  intros Hf. induction xs as [|x xs IH]; [reflexivity|].
  simpl. rewrite length_app, Hf, IH. now destruct (keep x).
Qed.

Lemma step3_one_label (r : review F) :
  length (target (step3 clean self remove_stop_words pre_init r))
  = if well_formed r then 1%nat else 0%nat.
Proof.
  unfold step3, well_formed, malformed. destruct (comment r); [|reflexivity].
  destruct (_ && _); [reflexivity|]. now destruct (fleb _ _).
Qed.

Lemma step5_one_label (r : review F) :
  length (target (step5 clean remove_stop_words pre_init r))
  = if well_formed r then 1%nat else 0%nat.
Proof.
  unfold step5, well_formed, malformed. destruct (comment r); [|reflexivity].
  repeat (destruct (feqb _ _); [reflexivity|]). reflexivity.
Qed.

Lemma step3_one_review (r : review F) :
  length (reviews (step3 clean self remove_stop_words pre_init r))
  = length (target (step3 clean self remove_stop_words pre_init r)).
Proof.
  unfold step3. destruct (comment r); [|reflexivity].
  destruct (_ && _); [reflexivity|]. now destruct (fleb _ _).
Qed.

Lemma step2_one_review (r : review F) :
  length (reviews (step2 clean self remove_stop_words pre_init r))
  = length (target (step2 clean self remove_stop_words pre_init r)).
Proof.
  unfold step2. destruct (comment r); [|reflexivity].
  destruct (_ && _); [reflexivity|]. now destruct (fleb _ _).
Qed.

Lemma step5_one_review (r : review F) :
  length (reviews (step5 clean remove_stop_words pre_init r))
  = length (target (step5 clean remove_stop_words pre_init r)).
Proof.
  unfold step5. destruct (comment r); [|reflexivity].
  repeat (destruct (feqb _ _); [reflexivity|]). reflexivity.
Qed.

Lemma flat_map_same_length {A B C : Type} (f : A -> list B) (g : A -> list C)
    (xs : list A) :
  (forall x, length (f x) = length (g x)) ->
  length (flat_map f xs) = length (flat_map g xs).
Proof.
  intros Hfg. induction xs as [|x xs IH]; [reflexivity|].
  simpl. now rewrite !length_app, Hfg, IH.
Qed.

(** In every mode the comments kept and the labels kept are as many. *)
Lemma label_reviews_aligned (rows : list (review F)) (num : Z) :
  length (reviews (label_reviews clean self remove_stop_words rows num))
  = length (target (label_reviews clean self remove_stop_words rows num)).
Proof.
  unfold label_reviews.
  destruct (num =? 3)%Z; [|destruct (num =? 2)%Z; [|destruct (num =? 5)%Z]];
    [ destruct (fold_left_target (step3 clean self remove_stop_words) rows
                  (step3_app clean self remove_stop_words)) as [-> ->];
      apply flat_map_same_length, step3_one_review
    | destruct (fold_left_target (step2 clean self remove_stop_words) rows
                  (step2_app clean self remove_stop_words)) as [-> ->];
      apply flat_map_same_length, step2_one_review
    | destruct (fold_left_target (step5 clean remove_stop_words) rows
                  (step5_app clean remove_stop_words)) as [-> ->];
      apply flat_map_same_length, step5_one_review
    | reflexivity ].
Qed.

End LabelerFacts.

(** X4: in 3-class mode no row with a text comment is dropped: target has
    one label per such row, in order.  The label is 1 when the rating is
    strictly between the thresholds, 0 when the rating is at most the
    negative threshold, and 2 in every other case: when the rating is at
    least the positive threshold with the thresholds in order, and also
    for a nan rating or a rating above misordered thresholds. *)
Theorem preprocess_3_labels (Row : Type)
    (clean : bool -> string -> string)
    (vectorize : vectorizer_kind -> list string -> result (list Row))
    (self : classifier npfloat) (remove_stop_words : bool)
    (rows : list (review npfloat))
    (data : list Row) (tgt : list Z) (info : list (string * Z)) :
  preprocess clean vectorize self remove_stop_words rows 3
  = OK (data, tgt, info) ->
  tgt = flat_map
          (fun r => target (step3 clean self remove_stop_words pre_init r)) rows
  /\ length tgt = length (filter well_formed rows)
  /\ forall r text, comment r = Text text ->
       let kept := step3 clean self remove_stop_words pre_init r in
       reviews kept = [clean remove_stop_words text]
       /\ (fltb (negative_threshold self) (rating r) = true ->
           fltb (rating r) (positive_threshold self) = true ->
           target kept = [1%Z])
       /\ (fleb (rating r) (negative_threshold self) = true ->
           target kept = [0%Z])
       /\ ((fltb (negative_threshold self) (rating r) = false
            \/ fltb (rating r) (positive_threshold self) = false) ->
           fleb (rating r) (negative_threshold self) = false ->
           target kept = [2%Z])
       /\ (fltb (negative_threshold self) (positive_threshold self) = true ->
           fleb (positive_threshold self) (rating r) = true ->
           target kept = [2%Z]).
Proof.
  intros E. unfold preprocess, label_reviews in E. cbn [Z.eqb Pos.eqb] in E.
  destruct (fold_left_target (step3 clean self remove_stop_words) rows
              (step3_app clean self remove_stop_words)) as [Ht Hr].
  destruct (vectorize _ _) as [d|e]; cbn [bind] in E; [|discriminate].
  injection E as <- <- _. split; [exact Ht|]. split.
  - rewrite Ht. apply flat_map_length_filter. apply step3_one_label.
  - intros r text Hc. unfold step3. rewrite Hc. cbv zeta.
    split; [|split; [|split; [|split]]].
    + destruct (_ && _); [reflexivity|]. now destruct (fleb _ _).
    + intros Hlo Hhi. now rewrite Hlo, Hhi.
    + intros Hneg. rewrite (np_leb_not_ltb _ _ Hneg). cbn [andb].
      now rewrite Hneg.
    + intros [Hlo | Hhi] Hneg.
      * rewrite Hlo. cbn [andb]. now rewrite Hneg.
      * rewrite Hhi, andb_false_r. now rewrite Hneg.
    + intros Hord Hpos.
      rewrite (np_leb_not_ltb _ _ Hpos), andb_false_r.
      now rewrite (np_ltb_leb_trans _ _ _ Hord Hpos).
Qed.

Lemma preprocess_3_labels_witness :
  preprocess stub_clean stub_vectorize default_classifier true sample_rows 3
  = OK (["good"; "bad"; "bad"; "good"; "meh"; "good"; "bad"; "good"]%string,
        [2; 0; 0; 2; 1; 0; 2; 2]%Z,
        [("positive"%string, 4%Z); ("negative"%string, 3%Z);
         ("neutral"%string, 1%Z)])
  /\ length [2; 0; 0; 2; 1; 0; 2; 2]%Z
     = length (filter well_formed sample_rows)
  /\ target (step3 stub_clean default_classifier true pre_init
               {| comment := Text "good"; rating := NaN |})
     = [2%Z].
Proof.
  assert (E : preprocess stub_clean stub_vectorize default_classifier true
                sample_rows 3
              = OK (["good"; "bad"; "bad"; "good"; "meh"; "good"; "bad";
                     "good"]%string,
                    [2; 0; 0; 2; 1; 0; 2; 2]%Z,
                    [("positive"%string, 4%Z); ("negative"%string, 3%Z);
                     ("neutral"%string, 1%Z)])) by reflexivity.
  split; [exact E|].
  destruct (preprocess_3_labels _ _ _ _ _ E) as (_ & Hlen & Hrow).
  split; [exact Hlen|].
  destruct (Hrow {| comment := Text "good"; rating := NaN |} "good"%string
              eq_refl) as (_ & _ & _ & Hother & _).
  apply Hother; [left|]; reflexivity.
Defined.

(** X5: in 5-class mode target has one label per row with a text comment,
    every label is between 1 and 5, a rating equal to 1, 2, 3 or 4 gives
    that label, and every other rating (5, but also 0, 6, 3.5, an infinity
    or nan) gives the label 5. *)
Theorem preprocess_5_labels (Row : Type)
    (clean : bool -> string -> string)
    (vectorize : vectorizer_kind -> list string -> result (list Row))
    (self : classifier npfloat) (remove_stop_words : bool)
    (rows : list (review npfloat))
    (data : list Row) (tgt : list Z) (info : list (string * Z)) :
  preprocess clean vectorize self remove_stop_words rows 5
  = OK (data, tgt, info) ->
  tgt = flat_map
          (fun r => target (step5 clean remove_stop_words pre_init r)) rows
  /\ length tgt = length (filter well_formed rows)
  /\ Forall (fun label => (1 <= label <= 5)%Z) tgt
  /\ forall r text, comment r = Text text ->
       let kept := step5 clean remove_stop_words pre_init r in
       reviews kept = [clean remove_stop_words text]
       /\ (forall k, (1 <= k <= 4)%Z -> rating r = Fin (inject_Z k) ->
           target kept = [k])
       /\ ((forall k, (1 <= k <= 4)%Z -> feqb (rating r) (of_int k) = false) ->
           target kept = [5%Z]).
Proof.
  intros E. unfold preprocess, label_reviews in E. cbn [Z.eqb Pos.eqb] in E.
  destruct (fold_left_target (step5 clean remove_stop_words) rows
              (step5_app clean remove_stop_words)) as [Ht Hr].
  destruct (vectorize _ _) as [d|e]; cbn [bind] in E; [|discriminate].
  injection E as <- <- _. split; [exact Ht|]. split; [|split].
  - rewrite Ht. apply flat_map_length_filter. apply step5_one_label.
  - rewrite Ht. apply Forall_flat_map, Forall_forall. intros r _.
    unfold step5. destruct (comment r); [|constructor].
    repeat (destruct (feqb _ _); [repeat constructor; lia|]).
    repeat constructor; lia.
  - intros r text Hc. unfold step5. rewrite Hc. cbv zeta. split; [|split].
    + repeat (destruct (feqb _ _); [reflexivity|]). reflexivity.
    + intros k Hk ->.
      assert (Hcases : (k = 1 \/ k = 2 \/ k = 3 \/ k = 4)%Z) by lia.
      destruct Hcases as [-> | [-> | [-> | ->]]]; reflexivity.
    + intros Hnone.
      rewrite (Hnone 1%Z), (Hnone 2%Z), (Hnone 3%Z), (Hnone 4%Z) by lia.
      reflexivity.
Qed.

Lemma preprocess_5_labels_witness :
  preprocess stub_clean stub_vectorize default_classifier true sample_rows 5
  = OK (["good"; "bad"; "bad"; "good"; "meh"; "good"; "bad"; "good"]%string,
        [5; 1; 2; 4; 3; 1; 5; 5]%Z,
        [("positive"%string, 4%Z); ("negative"%string, 3%Z);
         ("neutral"%string, 1%Z)])
  /\ Forall (fun label => (1 <= label <= 5)%Z) [5; 1; 2; 4; 3; 1; 5; 5]%Z.
Proof.
  assert (E : preprocess stub_clean stub_vectorize default_classifier true
                sample_rows 5
              = OK (["good"; "bad"; "bad"; "good"; "meh"; "good"; "bad";
                     "good"]%string,
                    [5; 1; 2; 4; 3; 1; 5; 5]%Z,
                    [("positive"%string, 4%Z); ("negative"%string, 3%Z);
                     ("neutral"%string, 1%Z)])) by reflexivity.
  split; [exact E|].
  exact (proj1 (proj2 (proj2 (preprocess_5_labels _ _ _ _ _ E)))).
Defined.

(** ** [preprocess]: the counts of [info] *)

Section InfoFacts.
Context {F : Type} `{Float64 F}.
Variable clean : bool -> string -> string.
Variable self : classifier F.
Variable remove_stop_words : bool.

Lemma occurrences_app (label : Z) (xs ys : list Z) :
  occurrences label (xs ++ ys)
  = (occurrences label xs + occurrences label ys)%Z.
Proof. unfold occurrences. rewrite count_occ_app. lia. Qed.

Lemma fold_left_invariant {A S : Type} (P : S -> Prop) (step : S -> A -> S)
    (xs : list A) (s : S) :
  P s -> (forall s x, P s -> P (step s x)) -> P (fold_left step xs s).
Proof.
  intros Hs Hstep. revert s Hs.
  induction xs as [|x xs IH]; intros s Hs; simpl; auto.
Qed.

Ltac count_labels :=
  unfold occurrences in *;
  cbn [target num_pos num_neg num_neut keep count_neutral] in *;
  rewrite ?count_occ_app, ?length_app; cbn [count_occ length];
  repeat match goal with
  | |- context [Z.eq_dec ?a ?b] => destruct (Z.eq_dec a b); try lia
  end; lia.

Lemma label_reviews_counts_2 (rows : list (review F)) :
  let st := label_reviews clean self remove_stop_words rows 2 in
  num_pos st = occurrences 1 (target st)
  /\ num_neg st = occurrences 0 (target st)
  /\ Z.of_nat (length (target st)) = (num_pos st + num_neg st)%Z.
Proof.
  cbv zeta. unfold label_reviews. cbn [Z.eqb Pos.eqb].
  apply fold_left_invariant; [repeat split|].
  intros s r (Hp & Hn & Hl). unfold step2.
  destruct (comment r); [|auto].
  destruct (_ && _); [|destruct (fleb _ _)];
    (split; [|split]); count_labels.
Qed.

Lemma label_reviews_counts_3 (rows : list (review F)) :
  let st := label_reviews clean self remove_stop_words rows 3 in
  num_neg st = occurrences 0 (target st)
  /\ num_neut st = occurrences 1 (target st)
  /\ num_pos st = occurrences 2 (target st).
Proof.
  cbv zeta. unfold label_reviews. cbn [Z.eqb Pos.eqb].
  apply fold_left_invariant; [repeat split|].
  intros s r (Hn & Hu & Hp). unfold step3.
  destruct (comment r); [|auto].
  destruct (_ && _); [|destruct (fleb _ _)];
    (split; [|split]); count_labels.
Qed.

Lemma label_reviews_counts_5 (rows : list (review F)) :
  let st := label_reviews clean self remove_stop_words rows 5 in
  num_neg st = (occurrences 1 (target st) + occurrences 2 (target st))%Z
  /\ num_neut st = occurrences 3 (target st)
  /\ num_pos st = (occurrences 4 (target st) + occurrences 5 (target st))%Z.
Proof.
  cbv zeta. unfold label_reviews. cbn [Z.eqb Pos.eqb].
  apply fold_left_invariant; [repeat split|].
  intros s r (Hn & Hu & Hp). unfold step5.
  destruct (comment r); [|auto].
  repeat match goal with
  | |- context [if feqb ?a ?b then _ else _] => destruct (feqb a b)
  end;
    (split; [|split]); count_labels.
Qed.

End InfoFacts.

Lemma well_formed_count {F : Type} (rows : list (review F)) :
  Z.of_nat (length (filter well_formed rows))
  = (Z.of_nat (length rows) - Z.of_nat (skipped rows))%Z.
Proof.
  unfold skipped, well_formed.
  induction rows as [|r rows IH]; [reflexivity|].
  cbn [filter]. destruct (malformed r); cbn [negb length]; lia.
Qed.

(** X6: the three counts of the returned info agree with the returned
    target.  In 2-class mode positive and negative are the numbers of
    labels 1 and 0, and neutral is the number of rows with a text comment
    that were dropped; in 3-class mode negative, neutral and positive are
    the numbers of labels 0, 1 and 2; in 5-class mode negative counts the
    labels 1 and 2, neutral the label 3 and positive the labels 4 and 5. *)
Theorem preprocess_info_counts {F : Type} `{Float64 F} (Row : Type)
    (clean : bool -> string -> string)
    (vectorize : vectorizer_kind -> list string -> result (list Row))
    (self : classifier F) (remove_stop_words : bool)
    (rows : list (review F)) (num : Z)
    (data : list Row) (tgt : list Z) (info : list (string * Z)) :
  preprocess clean vectorize self remove_stop_words rows num
  = OK (data, tgt, info) ->
  (num = 2 ->
   get info "positive" = Some (occurrences 1 tgt)
   /\ get info "negative" = Some (occurrences 0 tgt)
   /\ get info "neutral"
      = Some (Z.of_nat (length (filter well_formed rows))
              - Z.of_nat (length tgt))%Z)
  /\ (num = 3 ->
      get info "positive" = Some (occurrences 2 tgt)
      /\ get info "negative" = Some (occurrences 0 tgt)
      /\ get info "neutral" = Some (occurrences 1 tgt))
  /\ (num = 5 ->
      get info "positive" = Some (occurrences 4 tgt + occurrences 5 tgt)%Z
      /\ get info "negative" = Some (occurrences 1 tgt + occurrences 2 tgt)%Z
      /\ get info "neutral" = Some (occurrences 3 tgt)).
Proof.
  intros E. unfold preprocess in E.
  destruct (vectorize _ _) as [d|e]; cbn [bind] in E; [|discriminate].
  injection E as <- <- <-. cbn [get String.eqb Ascii.eqb Bool.eqb].
  split; [|split]; intros ->.
  - destruct (label_reviews_counts_2 clean self remove_stop_words rows)
      as (Hp & Hn & Hl).
    pose proof (counted_label_reviews clean self remove_stop_words rows
                  (or_introl eq_refl)) as Hc.
    unfold counted in Hc. rewrite well_formed_count, Hl.
    rewrite <- Hp, <- Hn. repeat split. f_equal. lia.
  - destruct (label_reviews_counts_3 clean self remove_stop_words rows)
      as (Hn & Hu & Hp).
    now rewrite <- Hp, <- Hn, <- Hu.
  - destruct (label_reviews_counts_5 clean self remove_stop_words rows)
      as (Hn & Hu & Hp).
    now rewrite <- Hp, <- Hn, <- Hu.
Qed.

Lemma preprocess_info_counts_witness :
  preprocess stub_clean stub_vectorize default_classifier true sample_rows 2
  = OK (["good"; "bad"; "bad"; "good"; "good"; "bad"; "good"]%string,
        [1; 0; 0; 1; 0; 1; 1]%Z,
        [("positive"%string, 4%Z); ("negative"%string, 3%Z);
         ("neutral"%string, 1%Z)])
  /\ get [("positive"%string, 4%Z); ("negative"%string, 3%Z);
          ("neutral"%string, 1%Z)] "positive"
     = Some (occurrences 1 [1; 0; 0; 1; 0; 1; 1])
  /\ get [("positive"%string, 4%Z); ("negative"%string, 3%Z);
          ("neutral"%string, 1%Z)] "neutral"
     = Some (Z.of_nat (length (filter well_formed sample_rows))
             - Z.of_nat (length [1; 0; 0; 1; 0; 1; 1]%Z))%Z.
Proof.
  assert (E : preprocess stub_clean stub_vectorize default_classifier true
                sample_rows 2
              = OK (["good"; "bad"; "bad"; "good"; "good"; "bad"; "good"]%string,
                    [1; 0; 0; 1; 0; 1; 1]%Z,
                    [("positive"%string, 4%Z); ("negative"%string, 3%Z);
                     ("neutral"%string, 1%Z)])) by reflexivity.
  split; [exact E|].
  destruct (proj1 (preprocess_info_counts _ _ _ _ _ _ E) eq_refl)
    as (Hp & _ & Hu).
  split; assumption.
Defined.

(** X7: data and target are aligned: when the vectorizer gives one row
    per comment, the returned data has as many rows as the returned target
    has labels, in every mode. *)
Theorem preprocess_data_target_aligned {F : Type} `{Float64 F} (Row : Type)
    (clean : bool -> string -> string)
    (vectorize : vectorizer_kind -> list string -> result (list Row))
    (self : classifier F) (remove_stop_words : bool)
    (rows : list (review F)) (num : Z)
    (data : list Row) (tgt : list Z) (info : list (string * Z)) :
  (forall kind docs vectors,
     vectorize kind docs = OK vectors -> length vectors = length docs) ->
  preprocess clean vectorize self remove_stop_words rows num
  = OK (data, tgt, info) ->
  length data = length tgt.
Proof.
  intros Hvec E. unfold preprocess in E.
  destruct (vectorize _ _) as [d|e] eqn:Ev; cbn [bind] in E; [|discriminate].
  injection E as <- <- _.
  rewrite (Hvec _ _ _ Ev). apply label_reviews_aligned.
Qed.

Lemma preprocess_data_target_aligned_witness :
  (forall kind docs vectors,
      stub_vectorize kind docs = OK vectors -> length vectors = length docs)
  /\ preprocess stub_clean stub_vectorize default_classifier true sample_rows 2
     = OK (["good"; "bad"; "bad"; "good"; "good"; "bad"; "good"]%string,
           [1; 0; 0; 1; 0; 1; 1]%Z,
           [("positive"%string, 4%Z); ("negative"%string, 3%Z);
            ("neutral"%string, 1%Z)])
  /\ length ["good"; "bad"; "bad"; "good"; "good"; "bad"; "good"]%string
     = length [1; 0; 0; 1; 0; 1; 1]%Z.
Proof.
  assert (Hvec : forall kind docs vectors,
             stub_vectorize kind docs = OK vectors ->
             length vectors = length docs).
  { intros kind docs vectors. unfold stub_vectorize.
    destruct docs; [discriminate|]. now intros [= <-]. }
  assert (E : preprocess stub_clean stub_vectorize default_classifier true
                sample_rows 2
              = OK (["good"; "bad"; "bad"; "good"; "good"; "bad"; "good"]%string,
                    [1; 0; 0; 1; 0; 1; 1]%Z,
                    [("positive"%string, 4%Z); ("negative"%string, 3%Z);
                     ("neutral"%string, 1%Z)])) by reflexivity.
  split; [exact Hvec|]. split; [exact E|].
  exact (preprocess_data_target_aligned _ _ _ _ _ _ Hvec E).
Defined.

(** ** [preprocess]: rows are labelled one by one *)

Section RowByRow.
Variable clean : bool -> string -> string.
Variable self : classifier npfloat.
Variable remove_stop_words : bool.

(** The state after a file is the state after its first part continued
    by the state of the rest: a row is labelled independently of the
    others. *)
Lemma label_reviews_app (rows1 rows2 : list (review npfloat)) (num : Z) :
  label_reviews clean self remove_stop_words (rows1 ++ rows2) num
  = pre_app (label_reviews clean self remove_stop_words rows1 num)
            (label_reviews clean self remove_stop_words rows2 num).
Proof.
  unfold label_reviews.
  destruct (num =? 3)%Z; [|destruct (num =? 2)%Z; [|destruct (num =? 5)%Z]];
    try reflexivity; rewrite List.fold_left_app;
    [ apply (fold_left_app _ _ _ (step3_app clean self remove_stop_words))
    | apply (fold_left_app _ _ _ (step2_app clean self remove_stop_words))
    | apply (fold_left_app _ _ _ (step5_app clean remove_stop_words)) ].
Qed.

(** X8: a row with a text comment whose rating is nan (a missing rating)
    is never dropped: it is labelled as the most positive class of the
    mode (1, 2 or 5), whatever the thresholds, and the rows before and
    after it are labelled as they are without it. *)
Theorem nan_rating_is_labelled_positive
    (rows1 rows2 : list (review npfloat)) (r : review npfloat)
    (text : string) (num : Z) :
  num = 2 \/ num = 3 \/ num = 5 ->
  comment r = Text text ->
  rating r = NaN ->
  target (label_reviews clean self remove_stop_words (rows1 ++ r :: rows2) num)
  = target (label_reviews clean self remove_stop_words rows1 num)
    ++ [if (num =? 2)%Z then 1%Z else if (num =? 3)%Z then 2%Z else 5%Z]
    ++ target (label_reviews clean self remove_stop_words rows2 num).
Proof.
  intros Hnum Hc Hr.
  change (r :: rows2) with ([r] ++ rows2).
  rewrite !label_reviews_app. cbn [pre_app target]. do 2 f_equal.
  destruct Hnum as [-> | [-> | ->]]; unfold label_reviews;
    cbn [Z.eqb Pos.eqb fold_left];
    unfold step2, step3, step5; rewrite Hc, Hr;
    destruct (negative_threshold self), (positive_threshold self);
    reflexivity.
Qed.

End RowByRow.

Lemma nan_rating_is_labelled_positive_witness :
  target (label_reviews stub_clean default_classifier true
            ([row "bad" 1] ++ {| comment := Text "fine"; rating := NaN |}
                           :: [row "good" 5]) 2)
  = [0; 1; 1]%Z.
Proof.
  exact (nan_rating_is_labelled_positive stub_clean default_classifier true
           [row "bad" 1] [row "good" 5]
           {| comment := Text "fine"; rating := NaN |}
           (or_introl eq_refl) eq_refl eq_refl).
Defined.

(** ** The k-fold driver: failures and shapes *)

Section DriverEdges.
Context {F : Type} `{Float64 F}.
Variable Row Model : Type.
Variable clean : bool -> string -> string.
Variable vectorize : vectorizer_kind -> list string -> result (list Row).
Variable split : Z -> list Row -> list Z -> result (list (list nat * list nat)).
Variable fit : option string -> list Row -> list Z -> result Model.
Variable predict : Model -> list Row -> result (list Z).
Variable self : classifier F.

Lemma for_each_fails {A S : Type} (body : S -> A -> result S) (xs : list A)
    (x : A) :
  In x xs ->
  (forall s, exists e, body s x = Raise e) ->
  forall s, exists e, for_each body xs s = Raise e.
Proof.
  intros Hin Hx. induction xs as [|y xs IH]; [destruct Hin|].
  intros s. cbn [for_each].
  destruct (body s y) as [s'|e] eqn:Ey; cbn [bind].
  - destruct Hin as [-> | Hin].
    + destruct (Hx s) as [e He]. congruence.
    + now apply IH.
  - now exists e.
Qed.

Lemma append_fold_unknown_mode (num : Z) (l : fold_lists)
    (t : option (list F)) :
  num <> 2 -> num <> 3 -> num <> 5 -> append_fold num l t = Raise NameError.
Proof.
  intros H2 H3 H5. unfold append_fold.
  destruct (Z.eqb_spec num 2); [contradiction|].
  destruct (Z.eqb_spec num 3); [contradiction|].
  destruct (Z.eqb_spec num 5); [contradiction|]. reflexivity.
Qed.

(** X9: with a [num] other than 2, 3 and 5 [evaluate_average_accuracy]
    never returns a report: whatever the collaborators do, it raises. *)
Theorem evaluate_average_accuracy_unknown_mode
    (rows : list (review F)) (n_folds num : Z) :
  num <> 2 -> num <> 3 -> num <> 5 ->
  exists e,
    evaluate_average_accuracy clean vectorize split fit predict self rows
      n_folds num = Raise e.
Proof.
  intros H2 H3 H5. unfold evaluate_average_accuracy.
  destruct (preprocess _ _ _ _ _ _) as [[[data target] info]|e];
    cbn [bind]; [|now exists e].
  destruct (split _ _ _) as [splits|e]; cbn [bind]; [|now exists e].
  destruct splits as [|fold splits].
  - cbn [for_each bind]. unfold report.
    destruct (Z.eqb_spec num 2); [contradiction|].
    destruct (Z.eqb_spec num 3); [contradiction|].
    destruct (Z.eqb_spec num 5); [contradiction|]. now exists NameError.
  - assert (Hfail : forall s, exists e,
               for_each (fold_body fit predict self data target num)
                 (fold :: splits) s = Raise e).
    { apply (for_each_fails _ _ fold); [now left|].
      intros s. rewrite fold_body_metrics.
      destruct (fold_metrics _ _ _ _ _ _ _) as [t|e]; cbn [bind];
        [|now exists e].
      exists NameError. now apply append_fold_unknown_mode. }
    destruct (Hfail no_folds) as [e He]. rewrite He. now exists e.
Qed.

(** X10: a failure in any fold fails the whole run: if the training,
    the prediction or the metrics of one fold raise, no report is
    returned, whatever the other folds give. *)
Theorem fold_failure_fails_the_run
    (rows : list (review F)) (n_folds num : Z)
    (data : list Row) (target : list Z) (info : list (string * Z))
    (splits : list (list nat * list nat)) (fold : list nat * list nat)
    (e : exn) :
  preprocess clean vectorize self true rows num = OK (data, target, info) ->
  split n_folds data target = OK splits ->
  In fold splits ->
  fold_metrics fit predict self data target num fold = Raise e ->
  exists e',
    evaluate_average_accuracy clean vectorize split fit predict self rows
      n_folds num = Raise e'.
Proof.
  intros Epre Esplit Hin Efold. unfold evaluate_average_accuracy.
  rewrite Epre. cbn [bind]. rewrite Esplit. cbn [bind].
  assert (Hfail : forall s, exists e',
             for_each (fold_body fit predict self data target num) splits s
             = Raise e').
  { apply (for_each_fails _ _ fold); [exact Hin|].
    intros s. rewrite fold_body_metrics, Efold. now exists e. }
  destruct (Hfail no_folds) as [e' He']. rewrite He'. now exists e'.
Qed.

Lemma loop_length (num : Z) (data : list Row) (target : list Z)
    (proj : fold_lists -> list F) (i : nat)
    (splits : list (list nat * list nat)) (l' : fold_lists) :
  appends_position num proj i ->
  proj no_folds = [] ->
  for_each (fold_body fit predict self data target num) splits no_folds
  = OK l' ->
  length (proj l') = length splits.
Proof.
  intros Hpos H0 E.
  destruct (loop_column _ _ _ _ _ _ _ Hpos E) as (xs & Hxs & ->).
  rewrite H0. cbn [app]. symmetry. exact (Forall2_length Hxs).
Qed.

Ltac scan_lists Hget key El :=
  cbn [get] in Hget;
  repeat match type of Hget with
  | context [String.eqb ?k key] =>
      destruct (String.eqb_spec k key) as [<- | _];
      [ first
          [ discriminate Hget
          | injection Hget as <-;
            match type of El with
            | for_each (fold_body _ _ _ _ _ ?n) _ _ = _ =>
                match goal with
                | |- length (?p ?l) = _ =>
                    eapply (@loop_length n _ _ p);
                    [ eassumption | reflexivity | exact El ]
                end
            end ]
      | ]
  end;
  try discriminate Hget.

(** X11: in the report of a run that returns, every per-fold list holds
    exactly one value per fold of the split. *)
Theorem report_lists_one_value_per_fold
    (rows : list (review F)) (n_folds num : Z)
    (data : list Row) (target : list Z) (info : list (string * Z))
    (splits : list (list nat * list nat)) (rep : list (string * value)) :
  preprocess clean vectorize self true rows num = OK (data, target, info) ->
  split n_folds data target = OK splits ->
  evaluate_average_accuracy clean vectorize split fit predict self rows
    n_folds num = OK rep ->
  forall key xs, get rep key = Some (Seq xs) -> length xs = length splits.
Proof.
  intros Epre Esplit E key xs Hget. unfold evaluate_average_accuracy in E.
  rewrite Epre in E. cbn [bind] in E. rewrite Esplit in E. cbn [bind] in E.
  destruct (for_each _ _ _) as [l'|e] eqn:El; cbn [bind] in E; [|discriminate].
  pose proof (appends_positions_2 (F:=F))
    as (A0 & A1 & A2 & A3 & A4 & A5 & A6).
  pose proof (appends_positions_3 (F:=F))
    as (B0 & B1 & B2 & B3 & B4 & B5 & B6 & B7 & B8 & B9).
  pose proof (appends_positions_5 (F:=F))
    as (C0 & C1 & C2 & C3 & C4 & C5 & C6 & C7 & C8 & C9 & C10 & C11 & C12
        & C13 & C14 & C15).
  unfold report in E.
  destruct (Z.eqb_spec num 2) as [-> | _];
    [| destruct (Z.eqb_spec num 3) as [-> | _];
       [| destruct (Z.eqb_spec num 5) as [-> | _]; [| discriminate ] ] ];
    injection E as <-; scan_lists Hget key El.
Qed.

End DriverEdges.

Lemma evaluate_average_accuracy_unknown_mode_witness :
  exists e,
    evaluate_average_accuracy (F:=npfloat) stub_clean stub_vectorize
      stub_split stub_fit stub_predict default_classifier sample_rows 2 4
    = Raise e.
Proof.
  apply evaluate_average_accuracy_unknown_mode; discriminate.
Defined.

Lemma fold_failure_fails_the_run_witness :
  fold_metrics (F:=npfloat) stub_fit stub_predict default_classifier
    ["good"; "good"; "good"; "good"]%string [1; 1; 1; 1] 2
    ([1; 3]%nat, [0; 2]%nat) = Raise IndexError
  /\ exists e',
       evaluate_average_accuracy (F:=npfloat) stub_clean stub_vectorize
         stub_split stub_fit stub_predict default_classifier positive_rows
         2 2 = Raise e'.
Proof.
  assert (Efold :
            fold_metrics (F:=npfloat) stub_fit stub_predict default_classifier
              ["good"; "good"; "good"; "good"]%string [1; 1; 1; 1] 2
              ([1; 3]%nat, [0; 2]%nat) = Raise IndexError) by reflexivity.
  split; [exact Efold|].
  assert (Epre : preprocess stub_clean stub_vectorize default_classifier true
                   positive_rows 2
                 = OK (["good"; "good"; "good"; "good"]%string, [1; 1; 1; 1],
                       [("positive"%string, 4); ("negative"%string, 0);
                        ("neutral"%string, 0)])) by reflexivity.
  assert (Esplit : stub_split 2 ["good"; "good"; "good"; "good"]%string
                     [1; 1; 1; 1]
                   = OK [([1; 3]%nat, [0; 2]%nat); ([0; 2]%nat, [1; 3]%nat)])
    by reflexivity.
  apply (@fold_failure_fails_the_run npfloat _ string unit stub_clean
           stub_vectorize stub_split stub_fit stub_predict default_classifier
           positive_rows 2 2
           ["good"; "good"; "good"; "good"]%string
           [1; 1; 1; 1]
           [("positive"%string, 4); ("negative"%string, 0);
            ("neutral"%string, 0)]
           [([1; 3]%nat, [0; 2]%nat); ([0; 2]%nat, [1; 3]%nat)]
           ([1; 3]%nat, [0; 2]%nat) IndexError
           Epre Esplit (or_introl eq_refl) Efold).
Defined.

Lemma report_lists_one_value_per_fold_witness :
  exists rep : list (string * value (F:=npfloat)),
    evaluate_average_accuracy stub_clean stub_vectorize stub_split stub_fit
      stub_predict default_classifier sample_rows 2 2 = OK rep
    /\ forall key xs, get rep key = Some (Seq xs) -> length xs = 2%nat.
Proof.
  assert (Epre : preprocess stub_clean stub_vectorize default_classifier true
                   sample_rows 2
                 = OK (["good"; "bad"; "bad"; "good"; "good"; "bad";
                        "good"]%string,
                       [1; 0; 0; 1; 0; 1; 1],
                       [("positive"%string, 4); ("negative"%string, 3);
                        ("neutral"%string, 1)])) by reflexivity.
  assert (Esplit : stub_split 2
                     ["good"; "bad"; "bad"; "good"; "good"; "bad";
                      "good"]%string [1; 0; 0; 1; 0; 1; 1]
                   = OK [([1; 3; 5]%nat, [0; 2; 4; 6]%nat);
                         ([0; 2; 4; 6]%nat, [1; 3; 5]%nat)]) by reflexivity.
  eexists. split; [vm_compute; reflexivity|].
  apply (@report_lists_one_value_per_fold npfloat _ string unit stub_clean
           stub_vectorize stub_split stub_fit stub_predict default_classifier
           sample_rows 2 2
           ["good"; "bad"; "bad"; "good"; "good"; "bad"; "good"]%string
           [1; 0; 0; 1; 0; 1; 1]
           [("positive"%string, 4); ("negative"%string, 3);
            ("neutral"%string, 1)]
           [([1; 3; 5]%nat, [0; 2; 4; 6]%nat);
            ([0; 2; 4; 6]%nat, [1; 3; 5]%nat)]
           _ Epre Esplit).
  vm_compute; reflexivity.
Defined.

(** ** The CNN's batch metrics *)

Import CNNMetrics.

Lemma nth_error_app_at {A : Type} (pre xs : list A) :
  nth_error (pre ++ xs) (length pre) = nth_error xs 0.
Proof.
  rewrite nth_error_app2 by lia. now rewrite Nat.sub_diag.
Qed.

Lemma cell_cons (r p : Z) (rs ps : list Z) (i j : Z) :
  cell (r :: rs) (p :: ps) i j
  = ((if ((r =? i) && (p =? j))%bool then 1 else 0) + cell rs ps i j)%Z.
Proof.
  unfold cell. cbn [combine filter fst snd].
  destruct ((r =? i)%Z && (p =? j)%Z)%bool; cbn [length]; lia.
Qed.

(** The loop from index [length pre] on, over ratings and predictions of
    the same length: each counter grows by its confusion-matrix cell. *)
Lemma count_from_cells (pre rs ps : list Z) (c : counts) :
  length rs = length ps ->
  count_from (pre ++ rs) ps (length pre) c
  = OK {| true_pos := true_pos c + cell rs ps 1 1;
          false_pos := false_pos c + cell rs ps 0 1;
          true_neg := true_neg c + cell rs ps 0 0;
          false_neg := false_neg c + cell rs ps 1 0 |}.
Proof.
  revert pre rs c. induction ps as [|p ps IH]; intros pre rs c Hlen.
  - destruct rs; [|discriminate]. cbn [count_from]. destruct c.
    unfold cell. cbn. now rewrite !Z.add_0_r.
  - destruct rs as [|r rs]; [discriminate|]. injection Hlen as Hlen.
    cbn [count_from]. unfold count_one, at_index.
    rewrite nth_error_app_at. cbn [nth_error].
    specialize (IH (pre ++ [r]) rs).
    rewrite <- app_assoc in IH. cbn [app] in IH.
    rewrite length_app in IH. cbn [length] in IH.
    rewrite Nat.add_1_r in IH.
    rewrite !(cell_cons r p).
    destruct (Z.eqb_spec p 0) as [-> | Hp0];
      [| destruct (Z.eqb_spec p 1) as [-> | Hp1] ]; cbn [bind];
      destruct (Z.eqb_spec r 0) as [-> | Hr0];
      try (destruct (Z.eqb_spec r 1) as [-> | Hr1]);
      cbn [bind andb Z.eqb Pos.eqb]; rewrite (IH _ Hlen);
      cbn [true_pos false_pos true_neg false_neg];
      f_equal; f_equal; lia.
Qed.

Lemma count_from_app (ratings ps1 ps2 : list Z) (i : nat) (c : counts) :
  count_from ratings (ps1 ++ ps2) i c
  = (c' <- count_from ratings ps1 i c ;;
     count_from ratings ps2 (i + length ps1) c')%py.
Proof.
  revert i c. induction ps1 as [|p ps1 IH]; intros i c; cbn [app count_from length].
  - cbn [bind]. now rewrite Nat.add_0_r.
  - destruct (count_one ratings c i p) as [c1|e]; cbn [bind]; [|reflexivity].
    rewrite IH. now rewrite Nat.add_succ_comm.
Qed.

(** Every pass of the loop leaves a counter as it is or adds one to one
    of them. *)
Lemma count_one_grows (ratings : list Z) (c c' : counts) (i : nat) (p : Z) :
  count_one ratings c i p = OK c' ->
  (true_pos c <= true_pos c' /\ false_pos c <= false_pos c'
   /\ true_neg c <= true_neg c' /\ false_neg c <= false_neg c'
   /\ true_pos c' + false_pos c' + true_neg c' + false_neg c'
      <= true_pos c + false_pos c + true_neg c + false_neg c + 1)%Z.
Proof.
  unfold count_one. intros E.
  destruct (p =? 0)%Z; [|destruct (p =? 1)%Z];
    try (destruct (at_index ratings i) as [r|e]; cbn [bind] in E;
         [|discriminate];
         destruct (r =? 0)%Z; [|destruct (r =? 1)%Z]);
    try (destruct (r =? 1)%Z; [|destruct (r =? 0)%Z]);
    injection E as <-; cbn; lia.
Qed.

Lemma count_from_grows (ratings ps : list Z) (i : nat) (c c' : counts) :
  count_from ratings ps i c = OK c' ->
  (true_pos c <= true_pos c' /\ false_pos c <= false_pos c'
   /\ true_neg c <= true_neg c' /\ false_neg c <= false_neg c'
   /\ true_pos c' + false_pos c' + true_neg c' + false_neg c'
      <= true_pos c + false_pos c + true_neg c + false_neg c
         + Z.of_nat (length ps))%Z.
Proof.
  revert i c. induction ps as [|p ps IH]; intros i c E; cbn [count_from] in E.
  - injection E as <-. cbn [length]. lia.
  - destruct (count_one ratings c i p) as [c1|e] eqn:E1; cbn [bind] in E;
      [|discriminate].
    apply count_one_grows in E1. apply IH in E. cbn [length]. lia.
Qed.

Lemma cells_of_binary (rs ps : list Z) :
  length rs = length ps ->
  Forall binary rs -> Forall binary ps ->
  (cell rs ps 1 1 + cell rs ps 0 1 + cell rs ps 0 0 + cell rs ps 1 0
   = Z.of_nat (length ps))%Z.
Proof.
  revert rs. induction ps as [|p ps IH]; intros [|r rs] Hlen Hr Hp;
    try discriminate; [reflexivity|].
  injection Hlen as Hlen. inversion Hr as [|? ? Hr1 Hrs]; subst.
  inversion Hp as [|? ? Hp1 Hps]; subst.
  specialize (IH rs Hlen Hrs Hps). rewrite !cell_cons. cbn [length].
  rewrite Nat2Z.inj_succ.
  destruct Hr1 as [-> | ->], Hp1 as [-> | ->]; cbn [Z.eqb Pos.eqb andb]; lia.
Qed.

Section BatchMetrics.
Variable Tensor : Type.
Variable round_sigmoid : Tensor -> list Z.
Variable to_int64 : Tensor -> list Z.

Lemma batch_metrics_cells (predictions ratings : Tensor) :
  length (to_int64 ratings) = length (round_sigmoid predictions) ->
  batch_metrics round_sigmoid to_int64 predictions ratings
  = OK (cell (to_int64 ratings) (round_sigmoid predictions) 1 1,
        cell (to_int64 ratings) (round_sigmoid predictions) 0 1,
        cell (to_int64 ratings) (round_sigmoid predictions) 0 0,
        cell (to_int64 ratings) (round_sigmoid predictions) 1 0).
Proof.
  intros Hlen. unfold batch_metrics.
  pose proof (count_from_cells [] _ _ no_counts Hlen) as E.
  cbn [app length] in E. rewrite E. reflexivity.
Qed.

(** X12: on a batch with as many ratings as predictions [batch_metrics]
    returns, in this order, the number of positions with rating 1 and
    prediction 1 (true positives), with rating 0 and prediction 1 (false
    positives), with rating 0 and prediction 0 (true negatives) and with
    rating 1 and prediction 0 (false negatives); a position whose rating
    or prediction is neither 0 nor 1 is counted nowhere. *)
Theorem batch_metrics_counts_pairs (predictions ratings : Tensor) :
  length (to_int64 ratings) = length (round_sigmoid predictions) ->
  let pairs := combine (to_int64 ratings) (round_sigmoid predictions) in
  let count (rating pred : Z) :=
    Z.of_nat (length (filter (fun s => (fst s =? rating)%Z && (snd s =? pred)%Z)
                        pairs)) in
  batch_metrics round_sigmoid to_int64 predictions ratings
  = OK (count 1 1, count 0 1, count 0 0, count 1 0)%Z.
Proof.
  intros Hlen. cbv zeta. exact (batch_metrics_cells _ _ Hlen).
Qed.

(** X13: when the ratings are fewer than the predictions and the first
    prediction without a rating is 0 or 1, [batch_metrics] raises
    [IndexError]. *)
Theorem batch_metrics_short_ratings (predictions ratings : Tensor) (pred : Z) :
  nth_error (round_sigmoid predictions) (length (to_int64 ratings)) = Some pred ->
  binary pred ->
  batch_metrics round_sigmoid to_int64 predictions ratings = Raise IndexError.
Proof.
  intros Hnth Hbin. unfold batch_metrics.
  destruct (nth_error_split _ _ Hnth) as (ps1 & ps2 & Eps & Hlen).
  rewrite Eps. rewrite count_from_app.
  pose proof (count_from_cells [] (to_int64 ratings) ps1 no_counts
                (eq_sym Hlen)) as Epre.
  cbn [app length] in Epre. rewrite Epre. cbn [bind count_from].
  rewrite Hlen. cbn [Nat.add]. unfold count_one, at_index.
  assert (Hnone : nth_error (to_int64 ratings) (length (to_int64 ratings)) = None)
    by (apply nth_error_None; lia).
  rewrite Hnone.
  destruct Hbin as [-> | ->]; reflexivity.
Qed.

(** X14: whenever [batch_metrics] returns, the four counters are natural
    numbers whose sum is at most the number of predictions: a position is
    counted at most once. *)
Theorem batch_metrics_counts_each_once (predictions ratings : Tensor)
    (tp fp tn fn : Z) :
  batch_metrics round_sigmoid to_int64 predictions ratings = OK (tp, fp, tn, fn) ->
  (0 <= tp /\ 0 <= fp /\ 0 <= tn /\ 0 <= fn
   /\ tp + fp + tn + fn <= Z.of_nat (length (round_sigmoid predictions)))%Z.
Proof.
  unfold batch_metrics. intros E.
  destruct (count_from _ _ _ _) as [c|e] eqn:Ec; cbn [bind] in E; [|discriminate].
  injection E as <- <- <- <-.
  apply count_from_grows in Ec. cbn in Ec. lia.
Qed.

(** X15: on a batch of 0/1 ratings and as many 0/1 predictions, the four
    counters add up to the size of the batch. *)
Theorem batch_metrics_binary_total (predictions ratings : Tensor) :
  length (to_int64 ratings) = length (round_sigmoid predictions) ->
  Forall binary (to_int64 ratings) ->
  Forall binary (round_sigmoid predictions) ->
  exists tp fp tn fn,
    batch_metrics round_sigmoid to_int64 predictions ratings
    = OK (tp, fp, tn, fn)
    /\ (tp + fp + tn + fn = Z.of_nat (length (round_sigmoid predictions)))%Z.
Proof.
  intros Hlen Hr Hp. do 4 eexists. split.
  - exact (batch_metrics_cells _ _ Hlen).
  - exact (cells_of_binary Hlen Hr Hp).
Qed.

End BatchMetrics.

Lemma batch_metrics_counts_pairs_witness :
  batch_metrics stub_round_sigmoid stub_to_int64 [1; 0; 1; 0; 1; 7]%Z
    [1; 0; 0; 1; 1; 1]%Z
  = OK (2, 1, 1, 1)%Z.
Proof.
  apply (batch_metrics_counts_pairs stub_round_sigmoid stub_to_int64
           [1; 0; 1; 0; 1; 7]%Z [1; 0; 0; 1; 1; 1]%Z).
  reflexivity.
Defined.

Lemma batch_metrics_short_ratings_witness :
  batch_metrics stub_round_sigmoid stub_to_int64 [1; 0; 1]%Z [1; 0]%Z
  = Raise IndexError.
Proof.
  apply (batch_metrics_short_ratings stub_round_sigmoid stub_to_int64
           [1; 0; 1]%Z [1; 0]%Z (pred := 1%Z)).
  - reflexivity.
  - right; reflexivity.
Defined.

Lemma batch_metrics_counts_each_once_witness :
  batch_metrics stub_round_sigmoid stub_to_int64 [1; 0; 7]%Z [1; 0]%Z
  = OK (1, 0, 1, 0)%Z
  /\ (0 <= 1 /\ 0 <= 0 /\ 0 <= 1 /\ 0 <= 0 /\ 1 + 0 + 1 + 0 <= 3)%Z.
Proof.
  split; [reflexivity|].
  apply (batch_metrics_counts_each_once stub_round_sigmoid stub_to_int64
           [1; 0; 7]%Z [1; 0]%Z).
  reflexivity.
Defined.

Lemma batch_metrics_binary_total_witness :
  exists tp fp tn fn,
    batch_metrics stub_round_sigmoid stub_to_int64 [1; 0; 1; 0; 1]%Z
      [1; 0; 0; 1; 1]%Z
    = OK (tp, fp, tn, fn)
    /\ (tp + fp + tn + fn = 5)%Z.
Proof.
  apply (batch_metrics_binary_total stub_round_sigmoid stub_to_int64
           [1; 0; 1; 0; 1]%Z [1; 0; 0; 1; 1]%Z).
  - reflexivity.
  - repeat (apply Forall_cons; [unfold binary; lia|]). apply Forall_nil.
  - repeat (apply Forall_cons; [unfold binary; lia|]). apply Forall_nil.
Defined.

(** ** The CNN's evaluation *)

Lemma cell_app (rs1 ps1 rs2 ps2 : list Z) (i j : Z) :
  length rs1 = length ps1 ->
  (cell (rs1 ++ rs2) (ps1 ++ ps2) i j = cell rs1 ps1 i j + cell rs2 ps2 i j)%Z.
Proof.
  revert ps1. induction rs1 as [|r rs1 IH]; intros [|p ps1] Hlen;
    try discriminate; [reflexivity|].
  injection Hlen as Hlen. cbn [app]. rewrite !cell_cons, (IH _ Hlen). lia.
Qed.

(** The percentage [(n * 1.0 / d) * 100] of a count in a positive total. *)
Lemma percentage_of_counts (n d : Z) :
  (0 <= n <= d)%Z -> (0 < d)%Z ->
  exists q,
    fmul (fdiv (fmul (of_int n) (of_int 1)) (of_int d)) (of_int 100) = Fin q
    /\ (q == 100 * inject_Z n / inject_Z d)%Q
    /\ (0 <= q <= 100)%Q.
Proof.
  intros Hn Hd. rewrite of_int_times_one, div_int_pos by exact Hd.
  eexists. split; [reflexivity|].
  assert (Hq : (Qred (Qred (inject_Z n / inject_Z d) * inject_Z 100)
               == 100 * inject_Z n / inject_Z d)%Q).
  { rewrite !Qred_correct. change (inject_Z 100) with 100%Q. field.
    change 0%Q with (inject_Z 0). rewrite inject_Z_injective. lia. }
  split; [exact Hq|]. rewrite Hq.
  pose proof (@Q_ratio_bounds n d) as Hb.
  assert (Hr : (0 <= inject_Z n / inject_Z d <= 1)%Q) by (apply Hb; lia).
  setoid_replace (100 * inject_Z n / inject_Z d)%Q
    with (100 * (inject_Z n / inject_Z d))%Q by (unfold Qdiv; ring).
  lra.
Qed.

Section EvaluateFacts.
Variable Batch Tensor : Type.
Variable network : Batch -> outcome Tensor.
Variable rating : Batch -> Tensor.
Variable loss : Tensor -> Tensor -> outcome unit.
Variable round_sigmoid : Tensor -> list Z.
Variable to_int64 : Tensor -> list Z.

(** Over batches that are scored, with as many ratings as predictions,
    the loop of [evaluate] counts the pairs of the whole loader. *)
Lemma totals_pooled (loader : list Batch) (a b c d : Z) :
  well_shaped network rating loss round_sigmoid to_int64 loader ->
  let ratings := pooled_ratings rating to_int64 loader in
  let preds := pooled_preds network round_sigmoid loader in
  for_each_sample (add_batch network rating loss round_sigmoid to_int64)
    loader (a, b, c, d)
  = Returns (a + cell ratings preds 1 1,
             b + cell ratings preds 0 0,
             c + cell ratings preds 0 1,
             d + cell ratings preds 1 0)%Z.
Proof.
  cbv zeta. revert a b c d. induction loader as [|sample loader IH];
    intros a b c d Hw; cbn [for_each_sample].
  - unfold pooled_ratings, pooled_preds, cell. cbn.
    now rewrite !Z.add_0_r.
  - inversion Hw as [|? ? (predictions & En & El & Hlen) Hrest]; subst.
    unfold add_batch at 1. rewrite En. cbn [and_then]. rewrite El.
    cbn [and_then]. rewrite (batch_metrics_cells _ _ _ _ Hlen).
    cbn [lift and_then]. rewrite (IH _ _ _ _ Hrest).
    unfold pooled_ratings, pooled_preds. cbn [flat_map].
    assert (Epre : preds_of network round_sigmoid sample
                   = round_sigmoid predictions)
      by (unfold preds_of; now rewrite En).
    rewrite Epre, !(cell_app _ _ _ _ _ _ Hlen).
    f_equal. f_equal; [f_equal; [f_equal|]|]; lia.
Qed.

(** The totals of a loop that returns: natural numbers. *)
Lemma totals_grow (loader : list Batch) (a b c d a' b' c' d' : Z) :
  for_each_sample (add_batch network rating loss round_sigmoid to_int64)
    loader (a, b, c, d)
  = Returns (a', b', c', d') ->
  (a <= a' /\ b <= b' /\ c <= c' /\ d <= d')%Z.
Proof.
  revert a b c d. induction loader as [|sample loader IH];
    intros a b c d E; cbn [for_each_sample] in E.
  - injection E as <- <- <- <-. lia.
  - unfold add_batch at 1, batch_metrics in E.
    destruct (network sample) as [predictions|e]; cbn [and_then] in E;
      [|discriminate].
    destruct (loss predictions (rating sample)) as [l|e]; cbn [and_then] in E;
      [|discriminate].
    destruct (count_from _ _ _ _) as [k|e] eqn:Ec; cbn [bind lift and_then] in E;
      [|discriminate].
    apply count_from_grows in Ec. cbn in Ec. apply IH in E. lia.
Qed.

(** What [evaluate] does with the totals. *)
Lemma evaluate_of_totals {F : Type} `{Float64 F}
    (loader : list Batch) (tp tn fp fn : Z) :
  for_each_sample (add_batch network rating loss round_sigmoid to_int64)
    loader (0, 0, 0, 0)%Z
  = Returns (tp, tn, fp, fn) ->
  evaluate (F:=F) network rating loss round_sigmoid to_int64 loader
  = if ((tp + tn + fp + fn =? 0) || (tp + fp =? 0) || (tp + fn =? 0))%Z
    then Raises ZeroDivisionError
    else Returns
           (fmul (fdiv (fmul (of_int (tp + tn)) (of_int 1))
                    (of_int (tp + tn + fp + fn))) (of_int 100),
            fmul (fdiv (fmul (of_int tp) (of_int 1)) (of_int (tp + fp)))
              (of_int 100),
            fmul (fdiv (fmul (of_int tp) (of_int 1)) (of_int (tp + fn)))
              (of_int 100)).
Proof.
  intros E. unfold evaluate. rewrite E. cbn [and_then].
  unfold float_div_int.
  destruct (tp + tn + fp + fn =? 0)%Z; [reflexivity|].
  cbn [and_then orb].
  destruct (tp + fp =? 0)%Z; [reflexivity|]. cbn [and_then orb].
  destruct (tp + fn =? 0)%Z; reflexivity.
Qed.

(** X16: when on every batch the forward pass and the loss return and
    there are as many ratings as predictions, [evaluate] pools the
    batches: with at least one prediction 1 on a 0/1 rating and at least
    one rating 1 on a 0/1 prediction, it returns the accuracy, the
    precision and the recall, as percentages, of the counts taken over
    all the samples of the loader at once (not the mean of the batches'
    values). *)
Theorem evaluate_pools_batches (loader : list Batch) :
  well_shaped network rating loss round_sigmoid to_int64 loader ->
  let ratings := pooled_ratings rating to_int64 loader in
  let preds := pooled_preds network round_sigmoid loader in
  let tp := cell ratings preds 1 1 in
  let fp := cell ratings preds 0 1 in
  let tn := cell ratings preds 0 0 in
  let fn := cell ratings preds 1 0 in
  (0 < tp + fp)%Z -> (0 < tp + fn)%Z ->
  exists accuracy precision recall : Q,
    evaluate (F:=npfloat) network rating loss round_sigmoid to_int64 loader
    = Returns (Fin accuracy, Fin precision, Fin recall)
    /\ (accuracy == 100 * inject_Z (tp + tn) / inject_Z (tp + tn + fp + fn))%Q
    /\ (precision == 100 * inject_Z tp / inject_Z (tp + fp))%Q
    /\ (recall == 100 * inject_Z tp / inject_Z (tp + fn))%Q.
Proof.
  intros Hw ratings preds tp fp tn fn Hp Hr.
  pose proof (totals_pooled 0 0 0 0 Hw) as E. cbv zeta in E.
  cbn [Z.add] in E. fold ratings preds in E. fold tp fp tn fn in E.
  rewrite (evaluate_of_totals (F:=npfloat) _ E).
  pose proof (cell_nonneg ratings preds 1 1) as H11.
  pose proof (cell_nonneg ratings preds 0 1) as H01.
  pose proof (cell_nonneg ratings preds 0 0) as H00.
  pose proof (cell_nonneg ratings preds 1 0) as H10.
  fold tp in H11. fold fp in H01. fold tn in H00. fold fn in H10.
  destruct (Z.eqb_spec (tp + tn + fp + fn) 0); [lia|].
  destruct (Z.eqb_spec (tp + fp) 0); [lia|].
  destruct (Z.eqb_spec (tp + fn) 0); [lia|]. cbn [orb].
  destruct (@percentage_of_counts (tp + tn) (tp + tn + fp + fn))
    as (a & Ea & Ha & _); [lia | lia |].
  destruct (@percentage_of_counts tp (tp + fp)) as (p & Ep & Hp' & _);
    [lia | lia |].
  destruct (@percentage_of_counts tp (tp + fn)) as (r & Er & Hr' & _);
    [lia | lia |].
  exists a, p, r. rewrite Ea, Ep, Er. repeat split; assumption.
Qed.

(** X17: when on every batch the forward pass and the loss return and
    there are as many ratings as predictions, [evaluate] raises
    [ZeroDivisionError] exactly when no prediction 1 falls on a 0/1 rating
    or no rating 1 falls on a 0/1 prediction; an empty loader is one such
    case. *)
Theorem evaluate_zero_division {F : Type} `{Float64 F}
    (loader : list Batch) :
  well_shaped network rating loss round_sigmoid to_int64 loader ->
  let ratings := pooled_ratings rating to_int64 loader in
  let preds := pooled_preds network round_sigmoid loader in
  let tp := cell ratings preds 1 1 in
  let fp := cell ratings preds 0 1 in
  let fn := cell ratings preds 1 0 in
  evaluate (F:=F) network rating loss round_sigmoid to_int64 loader
  = Raises ZeroDivisionError
  <-> (tp + fp = 0 \/ tp + fn = 0)%Z.
Proof.
  intros Hw ratings preds tp fp fn.
  pose proof (totals_pooled 0 0 0 0 Hw) as E. cbv zeta in E.
  cbn [Z.add] in E. fold ratings preds in E. fold tp fp fn in E.
  rewrite (evaluate_of_totals (F:=F) _ E).
  pose proof (cell_nonneg ratings preds 1 1) as H11.
  pose proof (cell_nonneg ratings preds 0 1) as H01.
  pose proof (cell_nonneg ratings preds 0 0) as H00.
  pose proof (cell_nonneg ratings preds 1 0) as H10.
  fold tp in H11. fold fp in H01. fold fn in H10.
  destruct (Z.eqb_spec (tp + cell ratings preds 0 0 + fp + fn) 0);
    [split; [lia | reflexivity]|].
  destruct (Z.eqb_spec (tp + fp) 0); [split; [lia | reflexivity]|].
  destruct (Z.eqb_spec (tp + fn) 0); [split; [lia | reflexivity]|].
  cbn [orb]. split; [discriminate | lia].
Qed.

(** X18: whenever [evaluate] returns, whatever the batches, the three
    values are finite percentages between 0 and 100: unlike [metrics], it
    never returns nan or an infinity. *)
Theorem evaluate_returns_percentages (loader : list Batch)
    (accuracy precision recall : npfloat) :
  evaluate network rating loss round_sigmoid to_int64 loader
  = Returns (accuracy, precision, recall) ->
  exists a p r : Q,
    accuracy = Fin a /\ precision = Fin p /\ recall = Fin r
    /\ (0 <= a <= 100 /\ 0 <= p <= 100 /\ 0 <= r <= 100)%Q.
Proof.
  intros E.
  destruct (for_each_sample
              (add_batch network rating loss round_sigmoid to_int64) loader
              (0, 0, 0, 0)%Z)
    as [[[[tp tn] fp] fn]|e] eqn:El.
  - rewrite (evaluate_of_totals (F:=npfloat) _ El) in E.
    apply totals_grow in El.
    destruct (Z.eqb_spec (tp + tn + fp + fn) 0); [discriminate|].
    destruct (Z.eqb_spec (tp + fp) 0); [discriminate|].
    destruct (Z.eqb_spec (tp + fn) 0); [discriminate|]. cbn [orb] in E.
    destruct (@percentage_of_counts (tp + tn) (tp + tn + fp + fn))
      as (a & Ea & _ & Ha); [lia | lia |].
    destruct (@percentage_of_counts tp (tp + fp)) as (p & Ep & _ & Hp);
      [lia | lia |].
    destruct (@percentage_of_counts tp (tp + fn)) as (r & Er & _ & Hr);
      [lia | lia |].
    rewrite Ea, Ep, Er in E. injection E as <- <- <-.
    exists a, p, r. repeat split; solve [reflexivity | apply Ha | apply Hp | apply Hr].
  - unfold evaluate in E. rewrite El in E. discriminate.
Qed.

(** X25: a batch on which the forward pass or the loss raises, or whose
    ratings are too few for [batch_metrics], fails the evaluation with
    that exception, whatever the other batches: when the loop over the
    loader raises, [evaluate] raises the same. *)
Theorem evaluate_batch_failure {F : Type} `{Float64 F}
    (before after : list Batch) (sample : Batch) (e : error) :
  well_shaped network rating loss round_sigmoid to_int64 before ->
  (forall totals,
      add_batch network rating loss round_sigmoid to_int64 totals sample
      = Raises e) ->
  evaluate (F:=F) network rating loss round_sigmoid to_int64
    (before ++ sample :: after)
  = Raises e.
Proof.
  intros Hw Hfail. unfold evaluate.
  assert (Hloop : forall xs totals,
             well_shaped network rating loss round_sigmoid to_int64 xs ->
             for_each_sample
               (add_batch network rating loss round_sigmoid to_int64)
               (xs ++ sample :: after) totals
             = Raises e).
  { induction xs as [|x xs IH]; intros totals Hxs; cbn [app for_each_sample].
    - now rewrite Hfail.
    - inversion Hxs as [|? ? Hx Hrest]; subst.
      destruct totals as [[[a b] c] d].
      pose proof (totals_pooled a b c d (Forall_cons x Hx (Forall_nil _))) as E1.
      cbv zeta in E1. cbn [for_each_sample] in E1.
      destruct (add_batch network rating loss round_sigmoid to_int64
                  (a, b, c, d) x) as [t|e1]; [|discriminate].
      cbn [and_then]. now apply IH. }
  now rewrite (Hloop before _ Hw).
Qed.

End EvaluateFacts.

Lemma evaluate_pools_batches_witness :
  exists accuracy precision recall : Q,
    evaluate (F:=npfloat) stub_network stub_rating stub_loss
      stub_round_sigmoid stub_to_int64 sample_loader
    = Returns (Fin accuracy, Fin precision, Fin recall)
    /\ (accuracy == 60 /\ precision == 200 / 3 /\ recall == 200 / 3)%Q.
Proof.
  destruct (@evaluate_pools_batches _ _ stub_network stub_rating stub_loss
              stub_round_sigmoid stub_to_int64 sample_loader)
    as (a & p & r & E & Ha & Hp & Hr).
  - repeat (apply Forall_cons;
            [eexists; split; [reflexivity|]; split; reflexivity|]).
    apply Forall_nil.
  - reflexivity.
  - reflexivity.
  - exists a, p, r. split; [exact E|].
    rewrite Ha, Hp, Hr. repeat split; reflexivity.
Defined.

Lemma evaluate_zero_division_witness :
  evaluate (F:=npfloat) stub_network stub_rating stub_loss stub_round_sigmoid
    stub_to_int64 negative_loader
  = Raises ZeroDivisionError.
Proof.
  apply (@evaluate_zero_division _ _ stub_network stub_rating stub_loss
           stub_round_sigmoid stub_to_int64 npfloat _ negative_loader).
  - repeat (apply Forall_cons;
            [eexists; split; [reflexivity|]; split; reflexivity|]).
    apply Forall_nil.
  - left. reflexivity.
Defined.

Lemma evaluate_returns_percentages_witness :
  exists a p r : Q,
    Fin 60 = Fin a /\ Fin (200 # 3) = Fin p /\ Fin (200 # 3) = Fin r
    /\ (0 <= a <= 100 /\ 0 <= p <= 100 /\ 0 <= r <= 100)%Q.
Proof.
  apply (@evaluate_returns_percentages _ _ stub_network stub_rating stub_loss
           stub_round_sigmoid stub_to_int64 sample_loader).
  reflexivity.
Defined.

Lemma evaluate_batch_failure_witness :
  evaluate (F:=npfloat) stub_network stub_rating stub_loss stub_round_sigmoid
    stub_to_int64 ([([1; 0; 1], [1; 0; 0])] ++ ([1; 0], [1]) :: [([0; 1], [1; 1])])%Z
  = Raises (Builtin ValueError).
Proof.
  apply (@evaluate_batch_failure _ _ stub_network stub_rating stub_loss
           stub_round_sigmoid stub_to_int64 npfloat _
           [([1; 0; 1], [1; 0; 0])]%Z [([0; 1], [1; 1])]%Z ([1; 0], [1])%Z
           (Builtin ValueError)).
  - repeat (apply Forall_cons;
            [eexists; split; [reflexivity|]; split; reflexivity|]).
    apply Forall_nil.
  - intros [[[a b] c] d]. reflexivity.
Defined.

(** ** The CNN's k-fold driver *)


(** ** Models *)

(** X20: a classifier whose type is none of [nb], [rf] and [svm] (the
    default among them) cannot be fit: [fit] raises [AttributeError]
    whatever the data. *)
Theorem fit_unknown_classifier_type {F : Type} (Row Model : Type)
    (model_fit : Models.estimator -> list Row -> list Z -> result Model)
    (self : classifier F) (data : list Row) (target : list Z) :
  classifier_type self <> Some "nb"%string ->
  classifier_type self <> Some "rf"%string ->
  classifier_type self <> Some "svm"%string ->
  Models.fit model_fit self data target = Raises AttributeError.
Proof.
  intros Hnb Hrf Hsvm. unfold Models.fit, Models.generate_model.
  destruct (classifier_type self) as [kind|]; [|reflexivity].
  destruct (String.eqb_spec kind "nb"); [subst; now elim Hnb|].
  destruct (String.eqb_spec kind "rf"); [subst; now elim Hrf|].
  destruct (String.eqb_spec kind "svm"); [subst; now elim Hsvm|].
  reflexivity.
Qed.

Lemma fit_unknown_classifier_type_witness :
  Models.fit stub_model_fit default_classifier ["good"; "bad"]%string [1; 0]%Z
  = Raises AttributeError.
Proof.
  apply (@fit_unknown_classifier_type npfloat string unit stub_model_fit
           default_classifier ["good"; "bad"]%string [1; 0]%Z);
    discriminate.
Defined.

(** ** Classification *)

(** What the writing loop writes: one line per comment, in order, with
    the names of the prediction and of the label at the index of the
    comment. *)
Lemma write_lines_written (num : Z) (comments : list string)
    (predictions target : list Z) (i : nat) (lines : list Classify.line) :
  Classify.write_lines num comments predictions target i = OK lines ->
  length lines = length comments
  /\ forall k line,
       nth_error lines k = Some line ->
       exists text prediction label,
         nth_error comments k = Some text
         /\ nth_error predictions (i + k) = Some prediction
         /\ nth_error target (i + k) = Some label
         /\ line = {| Classify.line_comment := text;
                      Classify.line_prediction :=
                        Classify.prediction_name num prediction;
                      Classify.line_actual :=
                        Classify.actual_name num label |}.
Proof.
  revert i lines. induction comments as [|c cs IH]; intros i lines E;
    cbn [Classify.write_lines] in E.
  - injection E as <-. split; [reflexivity|]. intros [|k] line; discriminate.
  - unfold CNNMetrics.at_index in E.
    destruct (nth_error predictions i) as [p|] eqn:Ep;
      cbn [bind] in E; [|discriminate].
    destruct (nth_error target i) as [t|] eqn:Et;
      cbn [bind] in E; [|discriminate].
    destruct (Classify.write_lines num cs predictions target (S i))
      as [rest|e] eqn:Er; cbn [bind] in E; [|discriminate].
    injection E as <-. destruct (IH _ _ Er) as (Hlen & Hrest).
    split; [cbn [length]; now rewrite Hlen|].
    intros [|k] line Hk; cbn [nth_error] in Hk.
    + injection Hk as <-. exists c, p, t. rewrite Nat.add_0_r.
      repeat split; assumption.
    + destruct (Hrest k line Hk) as (text & p' & t' & Hc & Hp & Ht & ->).
      exists text, p', t'. rewrite <- Nat.add_succ_comm.
      repeat split; assumption.
Qed.

Section ClassifyFacts.
Context {F : Type} `{Float64 F}.
Variable Row Model : Type.
Variable clean : bool -> string -> string.
Variable transform : list string -> result (list Row).
Variable predict : Model -> list Row -> result (list Z).
Variable truthy_model : Model -> bool.
Variable self : classifier F.

Ltac by_branches Hc Ht :=
  repeat match goal with
         | |- context [if ?b then _ else _] => destruct b
         end;
  cbn; rewrite ?Hc, ?Ht; auto.

Lemma label2_as_step2 (c : Classify.state) (p : pre_state) (r : review F) :
  Classify.clean_comments c = reviews p -> Classify.target c = target p ->
  Classify.clean_comments (Classify.label2 clean self c r)
  = reviews (step2 clean self true p r)
  /\ Classify.target (Classify.label2 clean self c r)
     = target (step2 clean self true p r).
Proof.
  intros Hc Ht. unfold Classify.label2, step2.
  destruct (comment r); [|auto]. by_branches Hc Ht.
Qed.

Lemma label3_as_step3 (c : Classify.state) (p : pre_state) (r : review F) :
  Classify.clean_comments c = reviews p -> Classify.target c = target p ->
  Classify.clean_comments (Classify.label3 clean self c r)
  = reviews (step3 clean self true p r)
  /\ Classify.target (Classify.label3 clean self c r)
     = target (step3 clean self true p r).
Proof.
  intros Hc Ht. unfold Classify.label3, step3.
  destruct (comment r); [|auto]. by_branches Hc Ht.
Qed.

Lemma label5_as_step5 (c : Classify.state) (p : pre_state) (r : review F) :
  Classify.clean_comments c = reviews p -> Classify.target c = target p ->
  Classify.clean_comments (Classify.label5 clean c r)
  = reviews (step5 clean true p r)
  /\ Classify.target (Classify.label5 clean c r)
     = target (step5 clean true p r).
Proof.
  intros Hc Ht. unfold Classify.label5, step5.
  destruct (comment r); [|auto]. by_branches Hc Ht.
Qed.

Lemma loops_agree
    (label : Classify.state -> review F -> Classify.state)
    (step : pre_state -> review F -> pre_state) :
  (forall c p r,
      Classify.clean_comments c = reviews p -> Classify.target c = target p ->
      Classify.clean_comments (label c r) = reviews (step p r)
      /\ Classify.target (label c r) = target (step p r)) ->
  forall rows c p,
    Classify.clean_comments c = reviews p -> Classify.target c = target p ->
    Classify.clean_comments (fold_left label rows c)
    = reviews (fold_left step rows p)
    /\ Classify.target (fold_left label rows c)
       = target (fold_left step rows p).
Proof.
  intros Hstep rows. induction rows as [|r rows IH]; intros c p Hc Ht;
    cbn [fold_left]; [auto|].
  destruct (Hstep c p r Hc Ht) as [Hc' Ht']. now apply IH.
Qed.

Lemma label_rows_as_label_reviews (rows : list (review F)) (num : Z) :
  Classify.clean_comments (Classify.label_rows clean self rows num)
  = reviews (label_reviews clean self true rows num)
  /\ Classify.target (Classify.label_rows clean self rows num)
     = target (label_reviews clean self true rows num).
Proof.
  unfold Classify.label_rows, label_reviews.
  destruct (Z.eqb_spec num 3) as [-> | H3].
  - cbn [Z.eqb Pos.eqb]. now apply loops_agree; [apply label3_as_step3 | |].
  - destruct (Z.eqb_spec num 2) as [-> | H2].
    + cbn [Z.eqb Pos.eqb]. now apply loops_agree; [apply label2_as_step2 | |].
    + destruct (Z.eqb_spec num 5) as [-> | H5].
      * now apply loops_agree; [apply label5_as_step5 | |].
      * now split.
Qed.

(** The comments kept by the labelling loops are those of the file, and
    the cleaned comments are their cleaned forms. *)
Lemma fold_label_comments
    (label : Classify.state -> review F -> Classify.state)
    (kept : review F -> list string) (rows : list (review F)) :
  (forall st r,
      Classify.comments (label st r) = Classify.comments st ++ kept r
      /\ Classify.clean_comments (label st r)
         = Classify.clean_comments st ++ map (clean true) (kept r)) ->
  forall st,
    Classify.comments (fold_left label rows st)
    = Classify.comments st ++ flat_map kept rows
    /\ Classify.clean_comments (fold_left label rows st)
       = Classify.clean_comments st ++ map (clean true) (flat_map kept rows).
Proof.
  intros Hstep. induction rows as [|r rows IH]; intros st; cbn [fold_left flat_map].
  - cbn [map]. now rewrite !app_nil_r.
  - destruct (IH (label st r)) as [Hc Hcc]. destruct (Hstep st r) as [Hs Hsc].
    rewrite Hc, Hcc, Hs, Hsc, map_app, !app_assoc. now split.
Qed.

Lemma fold_label_comments_init
    (label : Classify.state -> review F -> Classify.state)
    (kept : review F -> list string) (rows : list (review F)) :
  (forall st r,
      Classify.comments (label st r) = Classify.comments st ++ kept r
      /\ Classify.clean_comments (label st r)
         = Classify.clean_comments st ++ map (clean true) (kept r)) ->
  Classify.comments (fold_left label rows Classify.no_comments)
  = flat_map kept rows
  /\ Classify.clean_comments (fold_left label rows Classify.no_comments)
     = map (clean true) (flat_map kept rows).
Proof.
  intros Hstep.
  exact (fold_label_comments label kept rows Hstep Classify.no_comments).
Qed.

Ltac one_comment :=
  intros st r; cbv beta;
  unfold Classify.label2, Classify.label3, Classify.label5;
  destruct (comment r); cbn [andb map];
  [|now rewrite !app_nil_r];
  repeat match goal with
         | |- context [if ?b then _ else _] => destruct b
         end;
  cbn [andb map Classify.add Classify.comments Classify.clean_comments];
  rewrite ?app_nil_r; now split.

Lemma label_rows_comments (rows : list (review F)) (num : Z) :
  num = 2 \/ num = 3 \/ num = 5 ->
  Classify.comments (Classify.label_rows clean self rows num)
  = labelled_comments self rows num
  /\ Classify.clean_comments (Classify.label_rows clean self rows num)
     = map (clean true) (labelled_comments self rows num).
Proof.
  unfold Classify.label_rows, labelled_comments.
  intros [-> | [-> | ->]]; cbn [Z.eqb Pos.eqb andb].
  - apply (fold_label_comments_init (Classify.label2 clean self)). one_comment.
  - apply (fold_label_comments_init (Classify.label3 clean self)). one_comment.
  - apply (fold_label_comments_init (Classify.label5 clean)). one_comment.
Qed.

(** The comments written are as many as the labels. *)
Lemma label_rows_aligned (rows : list (review F)) (num : Z) :
  length (Classify.comments (Classify.label_rows clean self rows num))
  = length (Classify.target (Classify.label_rows clean self rows num)).
Proof.
  assert (Hfold : forall label : Classify.state -> review F -> Classify.state,
             (forall c r, length (Classify.comments c) = length (Classify.target c) ->
                          length (Classify.comments (label c r))
                          = length (Classify.target (label c r))) ->
             forall c, length (Classify.comments c) = length (Classify.target c) ->
                       length (Classify.comments (fold_left label rows c))
                       = length (Classify.target (fold_left label rows c))).
  { intros label Hstep. induction rows as [|r rs IH]; intros c Hc;
      cbn [fold_left]; [exact Hc|]. apply IH. now apply Hstep. }
  assert (Hadd : forall c text rating,
             length (Classify.comments c) = length (Classify.target c) ->
             length (Classify.comments (Classify.add clean c text rating))
             = length (Classify.target (Classify.add clean c text rating))).
  { intros c text rating Hc. cbn. rewrite !length_app. cbn [length]. lia. }
  unfold Classify.label_rows.
  destruct (num =? 2)%Z; [destruct (num =? 3)%Z|destruct (num =? 3)%Z];
    destruct (num =? 5)%Z; try reflexivity;
    repeat (apply Hfold; [|try reflexivity];
            try (intros c r Hc;
                 unfold Classify.label2, Classify.label3, Classify.label5;
                 destruct (comment r); [|exact Hc];
                 repeat match goal with
                        | |- context [if ?b then _ else _] => destruct b
                        end;
                 solve [exact Hc | now apply Hadd])).
Qed.

(** X21: [classify] labels the rows of its file as [preprocess] does with
    the stop words removed: the same cleaned comments and the same
    targets, in the same order, in every mode. *)
Theorem classify_labels_as_preprocess (rows : list (review F)) (num : Z) :
  Classify.clean_comments (Classify.label_rows clean self rows num)
  = reviews (label_reviews clean self true rows num)
  /\ Classify.target (Classify.label_rows clean self rows num)
     = target (label_reviews clean self true rows num).
Proof. exact (label_rows_as_label_reviews rows num). Qed.

(** The tuple of [metrics] without [num] has 7 values. *)
Lemma metrics_default_length (actual predicted : list Z) (t : option (list F)) :
  metrics actual predicted 2 = OK t ->
  exists values, t = Some values /\ length values = 7%nat.
Proof.
  unfold metrics. cbn [Z.eqb Pos.eqb].
  destruct (confusion_matrix actual predicted) as [M|e]; cbn [bind];
    [|discriminate].
  destruct (item M 0 0); cbn [bind]; [|discriminate].
  destruct (item M 0 1); cbn [bind]; [|discriminate].
  destruct (item M 1 0); cbn [bind]; [|discriminate].
  destruct (item M 1 1); cbn [bind]; [|discriminate].
  intros [= <-]. eexists. split; reflexivity.
Qed.

Lemma write_evaluation_multiclass (num : Z) (target predictions : list Z) :
  num = 3 \/ num = 5 ->
  exists e,
    Classify.write_evaluation (F:=F) num true target predictions = Raise e.
Proof.
  intros Hnum. unfold Classify.write_evaluation.
  destruct (metrics target predictions 2) as [t|e] eqn:Em.
  - destruct (metrics_default_length _ _ Em) as (values & -> & Hlen).
    destruct Hnum as [-> | ->]; cbn [andb Z.eqb Pos.eqb bind Classify.unpack];
      rewrite Hlen; cbn; now eexists.
  - destruct Hnum as [-> | ->]; cbn [andb Z.eqb Pos.eqb bind]; now eexists.
Qed.

(** X22: with [evaluate=True] in the 3-class or the 5-class mode
    [classify] never returns: [metrics] is called without [num], so its
    tuple of 7 values cannot be assigned to the 10 or 16 names of the
    mode, and the evaluation is never written. *)
Theorem classify_multiclass_evaluation_raises (model : option Model)
    (num : Z) (csv_file : option (list (review F)))
    (text_file : option string) :
  num = 3 \/ num = 5 ->
  exists e,
    Classify.classify clean transform predict truthy_model self model num
      csv_file text_file true
    = Raises e.
Proof.
  intros Hnum. unfold Classify.classify.
  destruct model as [m|]; [|now eexists].
  destruct (truthy_model m && _)%bool; [now eexists|].
  destruct (Classify.truthy_text text_file && true)%bool; [now eexists|].
  destruct csv_file as [rows|]; [|now eexists]. cbv zeta.
  destruct (transform _) as [data|e]; cbn [bind lift]; [|now eexists].
  destruct (predict m data) as [predictions|e]; cbn [bind lift];
    [|now eexists].
  destruct (Classify.write _ _ _) as [lines|e]; cbn [bind lift];
    [|now eexists].
  destruct (write_evaluation_multiclass
              (Classify.target (Classify.label_rows clean self rows num))
              predictions Hnum) as (e & ->).
  cbn [bind lift]. now eexists.
Qed.

(** X23: without a csv file [classify] never returns, whatever the other
    arguments: the text file is never read. *)
Theorem classify_needs_csv_file (model : option Model) (num : Z)
    (text_file : option string) (evaluate : bool) :
  exists e,
    Classify.classify clean transform predict truthy_model self model num
      None text_file evaluate
    = Raises e.
Proof.
  unfold Classify.classify.
  destruct model as [m|]; [|now eexists].
  destruct (truthy_model m && _)%bool; [now eexists|].
  destruct (Classify.truthy_text text_file && evaluate)%bool; now eexists.
Qed.

(** X24: when [classify] returns in mode 2, 3 or 5, the model is set,
    the cleaned forms of the comments of the file that the mode labels
    were transformed into rows and the model predicted on them, and one
    line was written per such comment, in order: line [i] holds the
    comment as it is in the file, the name of prediction [i] of the model
    and the name of label [i] of [preprocess]. *)
Theorem classify_writes_labelled_reviews (model : option Model) (num : Z)
    (rows : list (review F)) (text_file : option string) (evaluate : bool)
    (lines : list Classify.line) (evaluation : option (list F)) :
  num = 2 \/ num = 3 \/ num = 5 ->
  Classify.classify clean transform predict truthy_model self model num
    (Some rows) text_file evaluate
  = Returns (lines, evaluation) ->
  exists m data predictions,
    model = Some m
    /\ transform (map (clean true) (labelled_comments self rows num)) = OK data
    /\ predict m data = OK predictions
    /\ length lines = length (labelled_comments self rows num)
    /\ forall i line,
         nth_error lines i = Some line ->
         exists text prediction label,
           nth_error (labelled_comments self rows num) i = Some text
           /\ nth_error predictions i = Some prediction
           /\ nth_error (target (label_reviews clean self true rows num)) i
              = Some label
           /\ line = {| Classify.line_comment := text;
                        Classify.line_prediction :=
                          Classify.prediction_name num prediction;
                        Classify.line_actual :=
                          Classify.actual_name num label |}.
Proof.
  intros Hnum E. unfold Classify.classify in E.
  destruct model as [m|]; [|discriminate].
  destruct (truthy_model m && _)%bool; [discriminate|].
  destruct (Classify.truthy_text text_file && evaluate)%bool; [discriminate|].
  cbv zeta in E.
  destruct (label_rows_comments rows Hnum) as [Hcom Hclean].
  destruct (label_rows_as_label_reviews rows num) as [_ Htgt].
  rewrite Hclean in E.
  destruct (transform _) as [data|e] eqn:Et; cbn [bind lift] in E;
    [|discriminate].
  destruct (predict m data) as [predictions|e] eqn:Ep; cbn [bind lift] in E;
    [|discriminate].
  destruct (Classify.write num _ predictions) as [written|e] eqn:Ew;
    cbn [bind lift] in E; [|discriminate].
  destruct (Classify.write_evaluation _ _ _ _) as [ev|e]; cbn [bind lift] in E;
    [|discriminate].
  injection E as <- <-.
  unfold Classify.write in Ew.
  assert (Hmode : ((num =? 2) || (num =? 3) || (num =? 5))%Z%bool = true)
    by (destruct Hnum as [-> | [-> | ->]]; reflexivity).
  rewrite Hmode, Hcom, Htgt in Ew.
  destruct (write_lines_written _ _ _ _ _ Ew) as (Hlen & Hlines).
  exists m, data, predictions. repeat split; try assumption; try reflexivity.
Qed.

End ClassifyFacts.

Lemma classify_multiclass_evaluation_raises_witness :
  exists e,
    Classify.classify stub_clean stub_transform stub_predict stub_truthy_model
      default_classifier (Some tt) 3 (Some sample_rows) None true
    = Raises e.
Proof.
  apply (classify_multiclass_evaluation_raises stub_clean stub_transform
           stub_predict stub_truthy_model default_classifier (Some tt)
           (Some sample_rows) None (num := 3)).
  left. reflexivity.
Defined.

Lemma classify_writes_labelled_reviews_witness :
  exists lines evaluation,
    Classify.classify stub_clean stub_transform stub_predict stub_truthy_model
      default_classifier (Some tt) 2 (Some sample_rows) None true
    = Returns (lines, evaluation)
    /\ length lines = 7%nat
    /\ forall line, nth_error lines 4 = Some line ->
         line = {| Classify.line_comment := "good";
                   Classify.line_prediction := "Positive";
                   Classify.line_actual := "Negative" |}.
Proof.
  assert (E : { written |
                Classify.classify stub_clean stub_transform stub_predict
                  stub_truthy_model default_classifier (Some tt) 2
                  (Some sample_rows) None true
                = Returns written })
    by (eexists; vm_compute; reflexivity).
  destruct E as [[lines evaluation] E].
  exists lines, evaluation. split; [exact E|].
  destruct (@classify_writes_labelled_reviews npfloat _ string unit stub_clean
              stub_transform stub_predict stub_truthy_model default_classifier
              (Some tt) 2 sample_rows None true lines evaluation
              (or_introl eq_refl) E)
    as (m & data & predictions & _ & Et & Ep & Hlen & Hlines).
  split; [exact Hlen|].
  intros line Hline.
  destruct (Hlines 4%nat line Hline) as (text & p & label & Hc & Hp & Hl & ->).
  vm_compute in Et. injection Et as <-.
  vm_compute in Ep. injection Ep as <-.
  vm_compute in Hc, Hp, Hl.
  injection Hc as <-. injection Hp as <-. injection Hl as <-.
  reflexivity.
Defined.
